(** * wechat-article-exporter: the login flow and the article-listing printer

    A shallow embedding of [python_cli_app/main.py]:
    - [do_login_flow]: the bounded wait for the logged-in address, the token
      pattern, the ordered fakeid scripts, the nickname script and the
      composition of [login_info];
    - [fetch_articles_command] and [_fetch_and_print_articles]: the guard on
      the identifiers, the request URL, the decoding of the response body and
      the per-item title fallback chain;
    - [main_cli]: the command line and the choice between the two.

    Python values are the inductive [pyval]; the browser driven through
    [nodriver] is a record of transition functions over an abstract world;
    exceptions, early returns and logging are explicit in a small monad that
    records every driver call and every log record in a trace. [json.loads]
    is the decoder of the standard library with the two limits an
    interpreter puts on it (nesting, digits of an integer); [urlencode]
    raises on a str that UTF-8 cannot encode. *)

From Stdlib Require Import String Ascii List ZArith Lia Bool Arith DecimalString.
Import ListNotations.
Local Open Scope string_scope.
Local Open Scope list_scope.
Set Warnings "-register-all".

(** ** Python values *)

Module Py.

(** A [float] read from a decimal literal, kept exact: [FDec m e] is the
    literal's value [m * 10^e] before rounding to a double. *)
Inductive pyfloat : Type :=
| FDec (m e : Z)
| FNaN
| FInf (negative : bool).

(** The values [json.loads] can build and that [tab.evaluate] hands back.
    A [dict] keeps its insertion order and has one binding per key. *)
Inductive pyval : Type :=
| PNone
| PBool (b : bool)
| PInt (z : Z)
| PFloat (f : pyfloat)
| PStr (s : string)
| PList (l : list pyval)
| PDict (d : list (string * pyval)).

(** [bool(x)] for a float: false exactly when the double is zero. A decimal
    literal rounds to zero when it is zero or at most [2^-1075] in
    magnitude (half the least subnormal, ties to even). *)
Definition float_truthy (f : pyfloat) : bool :=
  match f with
  | FDec m e =>
      if (m =? 0)%Z then false
      else if (0 <=? e)%Z then true
      else negb (Z.abs m * 2 ^ 1075 <=? 10 ^ (- e))%Z
  | FNaN => true
  | FInf _ => true
  end.

(** Python truth value testing, as used by [if x], [not x], [x and y]. *)
Definition truthy (v : pyval) : bool :=
  match v with
  | PNone => false
  | PBool b => b
  | PInt z => negb (z =? 0)%Z
  | PFloat f => float_truthy f
  | PStr s => negb (s =? "")
  | PList l => match l with [] => false | _ => true end
  | PDict d => match d with [] => false | _ => true end
  end.

(** The exceptions the modelled code can meet, all of them subclasses of
    [Exception]: [except Exception] catches each. [DriverError] stands
    for whatever a call on the browser raises. *)
Inductive exn : Type :=
| AttributeError
| TypeError
| JSONDecodeError
| RecursionError
| ValueError
| UnicodeEncodeError
| DriverError (what : string).

(** [d[k]] lookup in a dict body. *)
Fixpoint dict_lookup (k : string) (d : list (string * pyval)) : option pyval :=
  match d with
  | [] => None
  | (k', v) :: d' => if k' =? k then Some v else dict_lookup k d'
  end.

(** [d[k] = v]: overwrite in place, or append a new key at the end. *)
Fixpoint dict_set (k : string) (v : pyval) (d : list (string * pyval))
  : list (string * pyval) :=
  match d with
  | [] => [(k, v)]
  | (k', v') :: d' =>
      if k' =? k then (k', v) :: d' else (k', v') :: dict_set k v d'
  end.

(** [x.get(k, default)]: only a dict has the method. *)
Definition get_default (x : pyval) (k : string) (default : pyval) : exn + pyval :=
  match x with
  | PDict d => inr (match dict_lookup k d with Some v => v | None => default end)
  | _ => inl AttributeError
  end.

(** [x.get(k)], whose default is [None]. *)
Definition get (x : pyval) (k : string) : exn + pyval := get_default x k PNone.

(** [isinstance(x, dict)]. *)
Definition is_dict (x : pyval) : bool :=
  match x with PDict _ => true | _ => false end.

(** The elements a [for] loop (or [enumerate]) draws from [x]: the items of
    a list, the keys of a dict, the characters of a str (one per byte
    here); anything else is not iterable. *)
Definition iter (x : pyval) : exn + list pyval :=
  match x with
  | PList l => inr l
  | PDict d => inr (map (fun kv => PStr (fst kv)) d)
  | PStr s => inr (map (fun c => PStr (String c EmptyString)) (list_ascii_of_string s))
  | _ => inl TypeError
  end.

End Py.
Export Py.

(** ** [json.loads]

    The decoder of the Python standard library, which the program calls on
    the response body and on every [publish_info] string. Strings are byte
    strings holding UTF-8; a [\uXXXX] escape is written out in UTF-8. *)

Module Json.

Local Open Scope char_scope.

Definition dquote : ascii := "034".
Definition backslash : ascii := "092".

(** The whitespace the decoder skips: space, tab, line feed, carriage return. *)
Definition is_ws (c : ascii) : bool :=
  match nat_of_ascii c with
  | 32 | 9 | 10 | 13 => true
  | _ => false
  end%nat.

Fixpoint skip_ws (s : list ascii) : list ascii :=
  match s with
  | c :: r => if is_ws c then skip_ws r else s
  | [] => []
  end.

Definition is_digit (c : ascii) : bool :=
  let n := nat_of_ascii c in (48 <=? n)%nat && (n <=? 57)%nat.

Definition digit_val (c : ascii) : Z := Z.of_nat (nat_of_ascii c) - 48.

Definition hex_val (c : ascii) : option Z :=
  let n := nat_of_ascii c in
  if (48 <=? n)%nat && (n <=? 57)%nat then Some (Z.of_nat n - 48)%Z
  else if (65 <=? n)%nat && (n <=? 70)%nat then Some (Z.of_nat n - 55)%Z
  else if (97 <=? n)%nat && (n <=? 102)%nat then Some (Z.of_nat n - 87)%Z
  else None.

(** Four hexadecimal digits, as after [\u]. *)
Definition hex4 (s : list ascii) : option (Z * list ascii) :=
  match s with
  | a :: b :: c :: d :: r =>
      match hex_val a, hex_val b, hex_val c, hex_val d with
      | Some x, Some y, Some z, Some w => Some (((x * 16 + y) * 16 + z) * 16 + w, r)%Z
      | _, _, _, _ => None
      end
  | _ => None
  end.

Definition byte (z : Z) : ascii := ascii_of_nat (Z.to_nat z).

(** The UTF-8 bytes of a code point (a lone surrogate takes three bytes). *)
Definition utf8 (cp : Z) : list ascii :=
  if (cp <? 128)%Z then [byte cp]
  else if (cp <? 2048)%Z then
    [byte (192 + cp / 64); byte (128 + cp mod 64)]
  else if (cp <? 65536)%Z then
    [byte (224 + cp / 4096); byte (128 + (cp / 64) mod 64); byte (128 + cp mod 64)]
  else
    [byte (240 + cp / 262144); byte (128 + (cp / 4096) mod 64);
     byte (128 + (cp / 64) mod 64); byte (128 + cp mod 64)].

(** The character a one-letter escape stands for. *)
Definition simple_escape (c : ascii) : option ascii :=
  match c with
  | "034" => Some dquote
  | "092" => Some backslash
  | "/" => Some "/"
  | "b" => Some "008"
  | "f" => Some "012"
  | "n" => Some "010"
  | "r" => Some "013"
  | "t" => Some "009"
  | _ => None
  end.

(** [scanstring], entered after the opening quote: the decoded content and
    the input after the closing quote. Control characters are refused
    (strict mode); a high surrogate followed by a low one is joined. *)
Fixpoint scanstring (fuel : nat) (s : list ascii) : option (list ascii * list ascii) :=
  match fuel with
  | O => None
  | S fuel' =>
      match s with
      | [] => None
      | c :: r =>
          if Ascii.eqb c dquote then Some ([], r)
          else if Ascii.eqb c backslash then
            match r with
            | "u" :: r1 =>
                match hex4 r1 with
                | None => None
                | Some (hi, r2) =>
                    let joined :=
                      if (55296 <=? hi)%Z && (hi <=? 56319)%Z then
                        match r2 with
                        | "092" :: "u" :: r3 =>
                            match hex4 r3 with
                            | Some (lo, r4) =>
                                if (56320 <=? lo)%Z && (lo <=? 57343)%Z
                                then Some (65536 + (hi - 55296) * 1024 + (lo - 56320), r4)%Z
                                else Some (hi, r2)
                            | None => None
                            end
                        | _ => Some (hi, r2)
                        end
                      else Some (hi, r2) in
                    match joined with
                    | None => None
                    | Some (cp, r') =>
                        match scanstring fuel' r' with
                        | Some (body, rest) => Some (utf8 cp ++ body, rest)
                        | None => None
                        end
                    end
                end
            | e :: r1 =>
                match simple_escape e with
                | Some x =>
                    match scanstring fuel' r1 with
                    | Some (body, rest) => Some (x :: body, rest)
                    | None => None
                    end
                | None => None
                end
            | [] => None
            end
          else if (nat_of_ascii c <? 32)%nat then None
          else
            match scanstring fuel' r with
            | Some (body, rest) => Some (c :: body, rest)
            | None => None
            end
      end
  end.

(** A maximal run of decimal digits: its value, its length, the rest. *)
Fixpoint digits (acc : Z) (n : Z) (s : list ascii) : Z * Z * list ascii :=
  match s with
  | c :: r => if is_digit c then digits (acc * 10 + digit_val c) (n + 1) r else (acc, n, s)
  | [] => (acc, n, s)
  end.

(** The integer part of a number: [0], or a digit run not starting with
    0; its value, the number of its digits, the rest. *)
Definition int_part (s : list ascii) : option (Z * Z * list ascii) :=
  match s with
  | c :: r =>
      if Ascii.eqb c "0" then Some (0%Z, 1%Z, r)
      else if is_digit c then Some (digits 0 0 s)
      else None
  | [] => None
  end.

(** The optional fraction [.digits]: mantissa extended, digit count, rest. *)
Definition frac_part (m : Z) (s : list ascii) : option (Z * Z * list ascii) :=
  match s with
  | "." :: (c :: _) as r => if is_digit c then Some (digits m 0 r) else None
  | _ => None
  end.

(** The optional exponent [e], [E] with an optional sign and digits. *)
Definition exp_part (s : list ascii) : option (Z * list ascii) :=
  match s with
  | e :: r =>
      if Ascii.eqb e "e" || Ascii.eqb e "E" then
        let '(sign, r1) :=
          match r with
          | "+" :: r' => (1%Z, r')
          | "-" :: r' => ((-1)%Z, r')
          | _ => (1%Z, r)
          end in
        match r1 with
        | c :: _ =>
            if is_digit c then let '(v, _, r2) := digits 0 0 r1 in Some ((sign * v)%Z, r2)
            else None
        | [] => None
        end
      else None
  | [] => None
  end.

(** The text of a number: its value, an [int] when it has neither
    fraction nor exponent, the number of digits when it is an [int] (0 for
    a [float]), and the rest of the input. *)
Definition number_token (s : list ascii) : option (pyval * Z * list ascii) :=
  let '(sign, s1) := match s with "-" :: r => ((-1)%Z, r) | _ => (1%Z, s) end in
  match int_part s1 with
  | None => None
  | Some (i, n, r) =>
      match frac_part i r with
      | Some (m, k, r1) =>
          match exp_part r1 with
          | Some (e, r2) => Some (PFloat (FDec (sign * m) (e - k)), 0%Z, r2)
          | None => Some (PFloat (FDec (sign * m) (- k)), 0%Z, r1)
          end
      | None =>
          match exp_part r with
          | Some (e, r2) => Some (PFloat (FDec (sign * i) e), 0%Z, r2)
          | None => Some (PInt (sign * i), n, r)
          end
      end
  end.

(** What the interpreter allows the decoder: how many containers may be
    open at once before [Py_EnterRecursiveCall] refuses the next one
    (what is left of the recursion limit where [json.loads] is called),
    and [sys.get_int_max_str_digits()], where 0 lifts the limit. *)
Record limits : Type := {
  nesting : nat;
  int_max_str_digits : nat
}.

(** An [int] text of [n] digits is refused: the check is made above 640
    digits, when a limit is set and [n] is over it. *)
Definition too_long (lim : limits) (n : Z) : bool :=
  (640 <? n)%Z && (0 <? int_max_str_digits lim)%nat
  && (Z.of_nat (int_max_str_digits lim) <? n)%Z.

(** A number: the conversion of an [int] that is too long raises
    [ValueError]. *)
Definition match_number (lim : limits) (s : list ascii) : exn + (pyval * list ascii) :=
  match number_token s with
  | None => inl JSONDecodeError
  | Some (v, n, r) => if too_long lim n then inl ValueError else inr (v, r)
  end.

(** [s] starts with the characters of [p]: the input after them. *)
Fixpoint strip_prefix (p : list ascii) (s : list ascii) : option (list ascii) :=
  match p, s with
  | [], _ => Some s
  | a :: p', b :: s' => if Ascii.eqb a b then strip_prefix p' s' else None
  | _ :: _, [] => None
  end.

Definition literal (name : string) (v : pyval) (s : list ascii)
  : exn + (pyval * list ascii) :=
  match strip_prefix (list_ascii_of_string name) s with
  | Some r => inr (v, r)
  | None => inl JSONDecodeError
  end.

(** [s] starts with the character [c]. *)
Definition starts (c : ascii) (s : list ascii) : bool :=
  match s with
  | x :: _ => Ascii.eqb x c
  | [] => false
  end.

(** [scan_once] with the object and array loops. [allow] is the number
    of containers that may still be opened inside one another: a [{] or
    [[] met when it is 0 raises [RecursionError]. The fuel bounds the
    number of nested and chained calls; each uses up input, so
    [json_loads] gives twice the length of the text. *)
Fixpoint scan_once (lim : limits) (allow fuel : nat) (s : list ascii) {struct fuel}
  : exn + (pyval * list ascii) :=
  match fuel with
  | O => inl JSONDecodeError
  | S fuel' =>
      match s with
      | [] => inl JSONDecodeError
      | c :: r =>
          if Ascii.eqb c dquote then
            match scanstring (S (length r)) r with
            | Some (body, r') => inr (PStr (string_of_list_ascii body), r')
            | None => inl JSONDecodeError
            end
          else if Ascii.eqb c "{" then
            match allow with
            | O => inl RecursionError
            | S allow' =>
                if starts "}" (skip_ws r) then inr (PDict [], tl (skip_ws r))
                else
                  match object_members lim allow' fuel' [] (skip_ws r) with
                  | inr (d, r') => inr (PDict d, r')
                  | inl e => inl e
                  end
            end
          else if Ascii.eqb c "[" then
            match allow with
            | O => inl RecursionError
            | S allow' =>
                if starts "]" (skip_ws r) then inr (PList [], tl (skip_ws r))
                else
                  match array_items lim allow' fuel' (skip_ws r) with
                  | inr (l, r') => inr (PList l, r')
                  | inl e => inl e
                  end
            end
          else if Ascii.eqb c "n" then literal "null" PNone s
          else if Ascii.eqb c "t" then literal "true" (PBool true) s
          else if Ascii.eqb c "f" then literal "false" (PBool false) s
          else if Ascii.eqb c "N" then literal "NaN" (PFloat FNaN) s
          else if Ascii.eqb c "I" then literal "Infinity" (PFloat (FInf false)) s
          else if Ascii.eqb c "-" && starts "I" r
          then literal "-Infinity" (PFloat (FInf true)) s
          else match_number lim s
      end
  end

(** The members of an object, entered at a key; [acc] is the dict so far. *)
with object_members (lim : limits) (allow fuel : nat) (acc : list (string * pyval))
  (s : list ascii) {struct fuel} : exn + (list (string * pyval) * list ascii) :=
  match fuel with
  | O => inl JSONDecodeError
  | S fuel' =>
      if starts dquote s then
        match scanstring (S (length (tl s))) (tl s) with
        | None => inl JSONDecodeError
        | Some (key, r1) =>
            if starts ":" (skip_ws r1) then
              match scan_once lim allow fuel' (skip_ws (tl (skip_ws r1))) with
              | inl e => inl e
              | inr (v, r3) =>
                  let acc' := dict_set (string_of_list_ascii key) v acc in
                  if starts "}" (skip_ws r3) then inr (acc', tl (skip_ws r3))
                  else if starts "," (skip_ws r3)
                  then object_members lim allow fuel' acc' (skip_ws (tl (skip_ws r3)))
                  else inl JSONDecodeError
              end
            else inl JSONDecodeError
        end
      else inl JSONDecodeError
  end

(** The items of an array, entered at a value. *)
with array_items (lim : limits) (allow fuel : nat) (s : list ascii) {struct fuel}
  : exn + (list pyval * list ascii) :=
  match fuel with
  | O => inl JSONDecodeError
  | S fuel' =>
      match scan_once lim allow fuel' s with
      | inl e => inl e
      | inr (v, r) =>
          if starts "]" (skip_ws r) then inr ([v], tl (skip_ws r))
          else if starts "," (skip_ws r) then
            match array_items lim allow fuel' (skip_ws (tl (skip_ws r))) with
            | inr (l, r2) => inr (v :: l, r2)
            | inl e => inl e
            end
          else inl JSONDecodeError
      end
  end.

(** The calls a text of this length can need. *)
Definition fuel_for (text : string) : nat := 2 * String.length text + 2.

(** [json.loads(text)] for a [str]: one value between optional whitespace
    and nothing after it. It raises [json.JSONDecodeError] where the text
    is not JSON, [RecursionError] where the containers nest deeper than
    the interpreter allows, [ValueError] where an integer has more digits
    than the interpreter converts. *)
Definition json_loads (lim : limits) (text : string) : exn + pyval :=
  match scan_once lim (nesting lim) (fuel_for text)
          (skip_ws (list_ascii_of_string text)) with
  | inr (v, r) => match skip_ws r with [] => inr v | _ => inl JSONDecodeError end
  | inl e => inl e
  end.

(** No limit on the nesting this text can reach, none on digits. *)
Definition unlimited (text : string) : limits :=
  {| nesting := fuel_for text; int_max_str_digits := 0 |}.

(** The value a text denotes as JSON (with the extensions of the
    decoder: [NaN], [Infinity]), whatever an interpreter allows; [None]
    when the text is not valid JSON. *)
Definition json_value (text : string) : option pyval :=
  match json_loads (unlimited text) text with
  | inr v => Some v
  | inl _ => None
  end.

(** The default settings of an interpreter (a recursion limit of 1000,
    4300 digits), with [json.loads] called from a function that the top
    level of a module calls: 994 containers may nest. The program calls
    it deeper in the stack, where fewer may. *)
Definition default_limits : limits :=
  {| nesting := 994; int_max_str_digits := 4300 |}.

(** JSON texts are written below with an apostrophe where the text has a
    double quote; [js] puts the double quotes back. *)
Fixpoint js (s : string) : string :=
  match s with
  | EmptyString => EmptyString
  | String c r => String (if Ascii.eqb c "'" then dquote else c) (js r)
  end.

End Json.
Export Json.

(** ** Text helpers: [in], [re.search], [urlencode] *)

Module Text.

(** [needle in hay] for two strs. *)
Fixpoint contains (needle hay : string) : bool :=
  if String.prefix needle hay then true
  else match hay with
       | EmptyString => false
       | String _ rest => contains needle rest
       end.

Definition is_alnum (c : ascii) : bool :=
  let n := nat_of_ascii c in
  (((48 <=? n) && (n <=? 57)) || ((65 <=? n) && (n <=? 90))
   || ((97 <=? n) && (n <=? 122)))%nat.

(** [\w] on the ASCII range: a letter, a digit or the underscore. *)
Definition is_word (c : ascii) : bool := is_alnum c || Ascii.eqb c "_"%char.

(** The longest run of word characters at the start of [s]. *)
Fixpoint take_word (s : string) : string :=
  match s with
  | String c rest => if is_word c then String c (take_word rest) else EmptyString
  | EmptyString => EmptyString
  end.

Fixpoint drop (n : nat) (s : string) : string :=
  match n, s with
  | S n', String _ rest => drop n' rest
  | _, _ => s
  end.

(** [re.search(r"token=(\w+)", s)] with [.group(1)]: the leftmost place
    where [token=] is followed by a word character, and the whole run of
    word characters there; [None] when the pattern matches nowhere. *)
Fixpoint search_token (s : string) : option string :=
  let here :=
    if String.prefix "token=" s then take_word (drop 6 s) else EmptyString in
  match here with
  | String _ _ => Some here
  | EmptyString =>
      match s with
      | EmptyString => None
      | String _ rest => search_token rest
      end
  end.

Definition hex_digit (n : nat) : ascii :=
  if (n <? 10)%nat then ascii_of_nat (48 + n) else ascii_of_nat (55 + n).

(** The quoting of the bytes of a text: letters, digits and [_.-~] stay,
    a space becomes [+], every other byte becomes [%XX]. *)
Fixpoint quote_bytes (s : string) : string :=
  match s with
  | EmptyString => EmptyString
  | String c rest =>
      let n := nat_of_ascii c in
      if is_alnum c || Ascii.eqb c "_"%char || Ascii.eqb c "."%char
         || Ascii.eqb c "-"%char || Ascii.eqb c "~"%char
      then String c (quote_bytes rest)
      else if Ascii.eqb c " "%char then String "+"%char (quote_bytes rest)
      else String "%"%char
             (String (hex_digit (n / 16))
                (String (hex_digit (n mod 16)) (quote_bytes rest)))
  end.

(** The str holds a surrogate code point (as [sys.argv] gives for a byte
    that is not UTF-8): in the bytes, [ED] followed by [A0] to [BF]. *)
Fixpoint has_surrogate (s : string) : bool :=
  match s with
  | String a ((String b _) as rest) =>
      ((nat_of_ascii a =? 237)%nat && (160 <=? nat_of_ascii b)%nat
       && (nat_of_ascii b <=? 191)%nat)
      || has_surrogate rest
  | _ => false
  end.

(** [urllib.parse.quote_plus]: the str is encoded as UTF-8, which raises
    [UnicodeEncodeError] on a surrogate, and its bytes are quoted. *)
Definition quote_plus (s : string) : exn + string :=
  if has_surrogate s then inl UnicodeEncodeError else inr (quote_bytes s).

(** [urlencode(params)] for a dict of strs, in insertion order: each key
    and each value is quoted in turn. *)
Fixpoint urlencode (params : list (string * string)) : exn + string :=
  match params with
  | [] => inr EmptyString
  | (k, v) :: rest =>
      match quote_plus k with
      | inl e => inl e
      | inr k' =>
          match quote_plus v with
          | inl e => inl e
          | inr v' =>
              match rest with
              | [] => inr (k' ++ "=" ++ v')%string
              | _ :: _ =>
                  match urlencode rest with
                  | inl e => inl e
                  | inr q => inr (k' ++ "=" ++ v' ++ "&" ++ q)%string
                  end
              end
          end
      end
  end.

End Text.
Export Text.

(** ** The listing printer: the decoding half of [_fetch_and_print_articles] *)

Module Listing.

(** Sequencing of computations that may raise. *)
Definition bind_exn {A B : Type} (m : exn + A) (k : A -> exn + B) : exn + B :=
  match m with
  | inl e => inl e
  | inr a => k a
  end.

Notation "x <~ m ;; k" := (bind_exn m (fun x => k))
  (at level 61, m at next level, right associativity).

(** What one pass of the [for i, item_wrapper in enumerate(publish_list)]
    body leaves behind: which branch decided the item and the value bound
    to [title] there. Each case writes exactly one log record. *)
Inductive item_result : Type :=
| FromAppmsgInfo (title : pyval)            (* "(from appmsg_info)" *)
| FromPublishInfo (title : pyval)           (* "(from publish_info list)" *)
| FromPublishInfoAppmsg (title : pyval)     (* "(from publish_info list's appmsg_info)" *)
| NotInPublishInfo                          (* "Title not found in parsed publish_info" *)
| PublishInfoNotJson                        (* "Could not parse publish_info JSON" *)
| Direct (title : pyval)                    (* "(direct from item_wrapper)" *)
| NotFound.                                 (* "Could not find title in item" *)

(** The value of the local [title] when the pass ends. *)
Definition title_of (r : item_result) : option pyval :=
  match r with
  | FromAppmsgInfo t | FromPublishInfo t | FromPublishInfoAppmsg t | Direct t => Some t
  | NotInPublishInfo | PublishInfoNotJson | NotFound => None
  end.

(** One [article_detail] of the decoded [publish_info]: lines 197-205.
    [None] lets the scan go on to the next entry. *)
Definition entry_title (article_detail : pyval) : exn + option item_result :=
  if is_dict article_detail then
    t <~ get article_detail "title" ;;
    if truthy t then inr (Some (FromPublishInfo t))
    else
      a <~ get_default article_detail "appmsg_info" (PDict []) ;;
      t' <~ get a "title" ;;
      if truthy t' then inr (Some (FromPublishInfoAppmsg t')) else inr None
  else inr None.

(** The [for article_detail in article_details_list] loop with its
    [break]s: the first entry that yields a title ends the scan. *)
Fixpoint scan_details (article_details_list : list pyval) : exn + option item_result :=
  match article_details_list with
  | [] => inr None
  | article_detail :: rest =>
      r <~ entry_title article_detail ;;
      match r with
      | Some found => inr (Some found)
      | None => scan_details rest
      end
  end.

Section Decoding.

(** What the interpreter allows [json.loads]. *)
Variable lim : limits.

(** The [elif publish_info:] branch, lines 194-209. [json.loads] wants a
    str; only its [JSONDecodeError] is handled here. *)
Definition resolve_publish_info (publish_info : pyval) : exn + item_result :=
  match publish_info with
  | PStr s =>
      match json_loads lim s with
      | inl JSONDecodeError => inr PublishInfoNotJson
      | inl e => inl e
      | inr article_details_list =>
          l <~ iter article_details_list ;;
          r <~ scan_details l ;;
          match r with
          | Some found => inr found
          | None => inr NotInPublishInfo
          end
      end
  | _ => inl TypeError
  end.

(** [appmsg_info and appmsg_info.get("title")]. *)
Definition appmsg_info_title (appmsg_info : pyval) : exn + pyval :=
  if truthy appmsg_info then get appmsg_info "title" else inr appmsg_info.

(** The loop body for one [item_wrapper], lines 186-214. *)
Definition resolve_item (item_wrapper : pyval) : exn + item_result :=
  publish_info <~ get item_wrapper "publish_info" ;;
  appmsg_info <~ get item_wrapper "appmsg_info" ;;
  c <~ appmsg_info_title appmsg_info ;;
  if truthy c then inr (FromAppmsgInfo c)
  else if truthy publish_info then resolve_publish_info publish_info
  else
    t <~ get item_wrapper "title" ;;
    if truthy t then inr (Direct t) else inr NotFound.

(** The whole [for] loop: the results of the items passed, in order, and
    the exception that ended the loop early, if one did. *)
Fixpoint resolve_items (items : list pyval) : list item_result * option exn :=
  match items with
  | [] => ([], None)
  | item_wrapper :: rest =>
      match resolve_item item_wrapper with
      | inl e => ([], Some e)
      | inr r => let '(rs, stopped) := resolve_items rest in (r :: rs, stopped)
      end
  end.

(** What happens once the body is decoded, lines 178-214. *)
Inductive listing : Type :=
| PathError (e : exn)      (* the [.get] chain to [publish_list] raised *)
| NoArticles               (* [not publish_list]: warning and return *)
| Articles (results : list item_result) (stopped : option exn).

(** The outcome of lines 170-214 on the page text. *)
Inductive parse_result : Type :=
| NotDecoded (e : exn)     (* [json.loads] raised *)
| Decoded (json_response : pyval) (l : listing).

(** [json_response.get("publish_page", {}).get("publish_list", [])]. *)
Definition publish_list_of (json_response : pyval) : exn + pyval :=
  publish_page <~ get_default json_response "publish_page" (PDict []) ;;
  get_default publish_page "publish_list" (PList []).

Definition list_articles (json_response : pyval) : listing :=
  match publish_list_of json_response with
  | inl e => PathError e
  | inr publish_list =>
      if negb (truthy publish_list) then NoArticles
      else match iter publish_list with
           | inl e => Articles [] (Some e)
           | inr items => let '(rs, stopped) := resolve_items items in Articles rs stopped
           end
  end.

(** [parse] on whatever [tab.evaluate] returned for the page text. *)
Definition parse (json_text_content : pyval) : parse_result :=
  match json_text_content with
  | PStr text =>
      match json_loads lim text with
      | inl e => NotDecoded e
      | inr json_response => Decoded json_response (list_articles json_response)
      end
  | _ => NotDecoded TypeError
  end.

(** [parse] on a response body that is a str. *)
Definition parse_body (rawBody : string) : parse_result := parse (PStr rawBody).

End Decoding.

(** The exception that leaves the [try] of line 162, if any: the decode
    error of the body is handled inside and does not. *)
Definition parse_raised (r : parse_result) : option exn :=
  match r with
  | NotDecoded JSONDecodeError => None
  | NotDecoded e => Some e
  | Decoded _ (PathError e) => Some e
  | Decoded _ NoArticles => None
  | Decoded _ (Articles _ stopped) => stopped
  end.

(** The items a run listed, in the order they were logged. *)
Definition listed (r : parse_result) : list item_result :=
  match r with
  | Decoded _ (Articles rs _) => rs
  | _ => []
  end.

(** The specification's view of a listing: one title per item, with the
    marker "title not found" where the pass ended with [title = None]. *)
Definition title_or_marker (r : item_result) : pyval :=
  match title_of r with
  | Some t => t
  | None => PStr "title not found"
  end.

Definition listing_titles (r : parse_result) : list pyval :=
  map title_or_marker (listed r).

End Listing.
Export Listing.

(** ** The browser session and the trace of a run *)

Module Session.

Inductive level : Type := DEBUG | INFO | WARNING | ERROR | CRITICAL.

(** What a run does that can be observed: its log records (the message
    as written in the source, and the values formatted into it) and its
    calls on the driver. *)
Inductive event : Type :=
| Log (lvl : level) (message : string) (args : list pyval)
| UcStart                          (* [await uc.start(...)] *)
| DriverGet (url : string)         (* [await driver.get(url)] *)
| TabGet (url : string)            (* [await tab.get(url)] *)
| TabEvaluate (script : string)    (* [await tab.evaluate(script)] *)
| TabSleep (seconds : nat)         (* [await tab.sleep(seconds)] *)
| AsyncioSleep (seconds : nat)     (* [await asyncio.sleep(seconds)] *)
| BrowserClose.                    (* leaving the [async with] block *)

Definition is_call (e : event) : bool :=
  match e with
  | Log _ _ _ => false
  | _ => true
  end.

(** The calls on the driver in a trace, in order. *)
Definition calls (t : list event) : list event := filter is_call t.

(** What [driver.get] hands back. *)
Inductive get_result : Type := GetRaises | GetNoTab | GetTab.

(** What reading [tab.url] gives. *)
Inductive url_read : Type := UrlRaises | UrlNone | UrlStr (url : string).

(** The browser as the program sees it: each call moves the world on and
    either returns or raises ([false], [None], [GetRaises], [UrlRaises]). *)
Record provider (W : Type) : Type := {
  uc_start : W -> W * bool;
  driver_get : string -> W -> W * get_result;
  tab_get : string -> W -> W * bool;
  tab_evaluate : string -> W -> W * option pyval;
  tab_sleep : nat -> W -> W * bool;
  tab_url : W -> url_read;
  browser_close : W -> W
}.

Arguments uc_start {W} _ _.
Arguments driver_get {W} _ _ _.
Arguments tab_get {W} _ _ _.
Arguments tab_evaluate {W} _ _ _.
Arguments tab_sleep {W} _ _ _.
Arguments tab_url {W} _ _.
Arguments browser_close {W} _ _.

(** How a computation ends. [Diverge] is a loop that has not ended within
    the steps allowed; no handler catches it. *)
Inductive outcome (A : Type) : Type :=
| Ret (a : A)
| Raise (e : exn)
| Diverge.

Arguments Ret {A} _.
Arguments Raise {A} _.
Arguments Diverge {A}.

Section Monad.

Context {W : Type}.

(** A computation: from a world to the trace it writes, the world it
    leaves and its outcome. *)
Definition M (A : Type) : Type := W -> list event * W * outcome A.

Definition ret {A : Type} (a : A) : M A := fun w => ([], w, Ret a).

Definition raise {A : Type} (e : exn) : M A := fun w => ([], w, Raise e).

Definition diverge {A : Type} : M A := fun w => ([], w, Diverge).

Definition bind {A B : Type} (m : M A) (k : A -> M B) : M B :=
  fun w =>
    let '(t1, w1, o) := m w in
    match o with
    | Ret a => let '(t2, w2, o2) := k a w1 in (t1 ++ t2, w2, o2)
    | Raise e => (t1, w1, Raise e)
    | Diverge => (t1, w1, Diverge)
    end.

(** [try: m except Exception as e: handler e]. *)
Definition try_except {A : Type} (m : M A) (handler : exn -> M A) : M A :=
  fun w =>
    let '(t1, w1, o) := m w in
    match o with
    | Raise e => let '(t2, w2, o2) := handler e w1 in (t1 ++ t2, w2, o2)
    | _ => (t1, w1, o)
    end.

(** Run [cleanup] when [m] returns or raises, then go on as [m] ended. *)
Definition finally {A : Type} (m : M A) (cleanup : M unit) : M A :=
  fun w =>
    let '(t1, w1, o) := m w in
    match o with
    | Diverge => (t1, w1, Diverge)
    | _ => let '(t2, w2, _) := cleanup w1 in (t1 ++ t2, w2, o)
    end.

Definition emit (e : event) : M unit := fun w => ([e], w, Ret tt).

Definition log (lvl : level) (message : string) (args : list pyval) : M unit :=
  emit (Log lvl message args).

(** A computation that may raise and touches neither world nor trace. *)
Definition lift_exn {A : Type} (m : exn + A) : M A :=
  match m with
  | inl e => raise e
  | inr a => ret a
  end.

End Monad.

Arguments M : clear implicits.

Declare Scope session_scope.
Delimit Scope session_scope with session.

Notation "x <- m ;; k" := (bind m (fun x => k))
  (at level 61, m at next level, right associativity) : session_scope.
Notation "m ;; k" := (bind m (fun _ => k))
  (at level 61, right associativity) : session_scope.

Definition trace_of {W A : Type} (r : list event * W * outcome A) : list event :=
  fst (fst r).
Definition world_of {W A : Type} (r : list event * W * outcome A) : W :=
  snd (fst r).
Definition outcome_of {W A : Type} (r : list event * W * outcome A) : outcome A :=
  snd r.

End Session.
Export Session.

(** ** [python_cli_app/main.py] *)

Module Main.

Local Open Scope session_scope.

(** The dict [login_info] that [do_login_flow] returns. *)
Record login_info : Type := {
  token : string;
  fakeid : string;
  nickname : pyval
}.

(** Truth value of a variable that holds [None] or a str. *)
Definition str_truthy (x : option string) : bool :=
  match x with
  | Some s => negb (s =? "")
  | None => false
  end.

Definition max_login_check_attempts : nat := 120.

Definition login_url : string := "https://mp.weixin.qq.com/".

Definition home_marker : string := "mp.weixin.qq.com/cgi-bin/home".

Definition js_scripts_for_fakeid : list string :=
  [ "return typeof wx !== 'undefined' && wx.cgiData && wx.cgiData.user_attributes && wx.cgiData.user_attributes.fake_id ? wx.cgiData.user_attributes.fake_id : null;";
    "return typeof wx !== 'undefined' && wx.cgiData && wx.cgiData.fake_id ? wx.cgiData.fake_id : null;";
    "return typeof wx !== 'undefined' && wx.cgiData && wx.cgiData.appmsgstat && wx.cgiData.appmsgstat.fake_id ? wx.cgiData.appmsgstat.fake_id : null;" ].

Definition nickname_script : string :=
  "return typeof wx !== 'undefined' && wx.cgiData && wx.cgiData.nick_name ? wx.cgiData.nick_name : null;".

Definition articles_url : string := "https://mp.weixin.qq.com/cgi-bin/appmsgpublish".

(** The dict [params] of [_fetch_and_print_articles]. *)
Definition params (token fakeid : string) : list (string * string) :=
  [ ("action", "list_ex"); ("begin", "0"); ("count", "5"); ("fakeid", fakeid);
    ("type", "101_1"); ("token", token); ("lang", "zh_CN"); ("f", "json");
    ("ajax", "1") ].

(** The f-string of line 163; [urlencode] may raise. *)
Definition full_url (token fakeid : string) : exn + string :=
  match urlencode (params token fakeid) with
  | inr query => inr (articles_url ++ "?" ++ query)%string
  | inl e => inl e
  end.

Definition body_script : string := "document.body.textContent".

(** [x[:n]] is defined on strs and lists. *)
Definition sliceable (x : pyval) : bool :=
  match x with
  | PStr _ | PList _ => true
  | _ => false
  end.

(** The lines 104-111: which [login_info] the three values make, and the
    record logged with it. *)
Definition compose_login_info (tok fid : option string) (nick : pyval)
  : option login_info * event :=
  match tok, fid with
  | Some t, Some f =>
      if str_truthy tok && str_truthy fid && truthy nick then
        (Some {| token := t; fakeid := f; nickname := nick |},
         Log INFO "Login successful for: {nickname}" [nick])
      else if str_truthy tok && str_truthy fid then
        (Some {| token := t; fakeid := f; nickname := PNone |},
         Log WARNING
           "Login succeeded (token/fakeid obtained) but nickname missing for: {fakeid}"
           [PStr f])
      else
        (None,
         Log ERROR
           "Essential information (token and/or fakeid) missing after login attempt." [])
  | _, _ =>
      (None,
       Log ERROR
         "Essential information (token and/or fakeid) missing after login attempt." [])
  end.

(** The log record of one listed item, lines 192-214. *)
Definition item_event (i : nat) (item_wrapper : pyval) (r : item_result) : event :=
  let n := PInt (Z.of_nat (i + 1)) in
  match r with
  | FromAppmsgInfo t => Log INFO "- Article {i+1}: {title} (from appmsg_info)" [n; t]
  | FromPublishInfo t => Log INFO "- Article {i+1}: {title} (from publish_info list)" [n; t]
  | FromPublishInfoAppmsg t =>
      Log INFO "- Article {i+1}: {title} (from publish_info list's appmsg_info)" [n; t]
  | NotInPublishInfo =>
      Log WARNING
        "- Article {i+1}: Title not found in parsed publish_info: {publish_info[:100]}..."
        [n; item_wrapper]
  | PublishInfoNotJson =>
      Log ERROR
        "Could not parse publish_info JSON for article {i+1}: {jde}. Content: {publish_info[:100]}"
        [n; item_wrapper]
  | Direct t => Log INFO "- Article {i+1}: {title} (direct from item_wrapper)" [n; t]
  | NotFound =>
      Log WARNING "- Article {i+1}: Could not find title in item: {str(item_wrapper)[:100]}..."
        [n; item_wrapper]
  end.

Fixpoint item_events (i : nat) (items : list pyval) (rs : list item_result) : list event :=
  match items, rs with
  | item_wrapper :: items', r :: rs' =>
      item_event i item_wrapper r :: item_events (S i) items' rs'
  | _, _ => []
  end.

(** The items [enumerate(publish_list)] draws from a decoded response. *)
Definition items_of (json_response : pyval) : list pyval :=
  match publish_list_of json_response with
  | inr publish_list => match iter publish_list with inr items => items | inl _ => [] end
  | inl _ => []
  end.

(** The log records of the lines 170-214, for the outcome [r] of [parse]. *)
Definition parse_events (json_text_content : pyval) (r : parse_result) : list event :=
  match r with
  | NotDecoded JSONDecodeError =>
      [ Log ERROR "Failed to decode JSON from article fetch: {json_e}" [];
        Log DEBUG "Non-JSON content received: {json_text_content[:500]}..."
          [json_text_content] ]
  | NotDecoded _ => []
  | Decoded json_response l =>
      Log INFO "Raw JSON response from article fetch: {str(json_response)[:500]}..."
        [json_response]
      :: match l with
         | PathError _ => []
         | NoArticles =>
             [ Log WARNING
                 "No articles found or unexpected JSON structure in publish_list." [] ]
         | Articles rs _ =>
             Log INFO "\n--- Fetched Articles ---" []
             :: item_events 0 (items_of json_response) rs
         end
  end.

Section Program.

Context {W : Type}.

(** The browser behind [nodriver], the builtin [str], and what the
    interpreter allows [json.loads]. *)
Variable p : provider W.
Variable py_str : pyval -> string.
Variable lim : limits.

(** *** Calls on the driver. [tab] tells whether the variable [tab] holds
    a tab ([true]) or [None]; a method of [None] raises. *)

Definition call_uc_start : M W unit :=
  fun w =>
    let '(w', ok) := uc_start p w in
    ([UcStart], w', if ok then Ret tt else Raise (DriverError "uc.start")).

Definition call_driver_get (url : string) : M W bool :=
  fun w =>
    let '(w', r) := driver_get p url w in
    ([DriverGet url], w',
     match r with
     | GetRaises => Raise (DriverError "driver.get")
     | GetNoTab => Ret false
     | GetTab => Ret true
     end).

Definition call_tab_get (tab : bool) (url : string) : M W unit :=
  if tab then
    fun w =>
      let '(w', ok) := tab_get p url w in
      ([TabGet url], w', if ok then Ret tt else Raise (DriverError "tab.get"))
  else raise AttributeError.

Definition call_tab_evaluate (tab : bool) (script : string) : M W pyval :=
  if tab then
    fun w =>
      let '(w', r) := tab_evaluate p script w in
      ([TabEvaluate script], w',
       match r with
       | Some v => Ret v
       | None => Raise (DriverError "tab.evaluate")
       end)
  else raise AttributeError.

Definition call_tab_sleep (tab : bool) (seconds : nat) : M W unit :=
  if tab then
    fun w =>
      let '(w', ok) := tab_sleep p seconds w in
      ([TabSleep seconds], w', if ok then Ret tt else Raise (DriverError "tab.sleep"))
  else raise AttributeError.

(** [tab.url]: a str, or [None]. *)
Definition read_tab_url (tab : bool) : M W (option string) :=
  if tab then
    fun w =>
      ([], w,
       match tab_url p w with
       | UrlRaises => Raise (DriverError "tab.url")
       | UrlNone => Ret None
       | UrlStr u => Ret (Some u)
       end)
  else raise AttributeError.

Definition close_browser : M W unit :=
  fun w => ([BrowserClose], browser_close p w, Ret tt).

(** [async with await uc.start(...) as driver: body]. *)
Definition with_browser {A : Type} (body : M W A) : M W A :=
  call_uc_start ;; finally body close_browser.

Fixpoint emit_all (es : list event) : M W unit :=
  match es with
  | [] => ret tt
  | e :: es' => emit e ;; emit_all es'
  end.

(** *** [do_login_flow] *)

(** One pass of the [while] body, lines 41-54, entered with
    [logged_in = False]: the new [logged_in] and [login_check_attempts]. *)
Definition login_wait_body (tab : bool) (login_check_attempts : nat) : M W (bool * nat) :=
  try_except
    (call_tab_sleep tab 1 ;;
     current_url <- read_tab_url tab ;;
     match current_url with
     | None => raise TypeError
     | Some u =>
         if contains home_marker u then
           log INFO "Login successful!" [] ;;
           ret (true, login_check_attempts)
         else
           let attempts := S login_check_attempts in
           (if (attempts mod 20 =? 0)%nat then
              log INFO
                "Still waiting for login... (Attempt {login_check_attempts}/{max_login_check_attempts})"
                [PInt (Z.of_nat attempts); PInt (Z.of_nat max_login_check_attempts)]
            else ret tt) ;;
           ret (false, attempts)
     end)
    (fun loop_e =>
       log WARNING "Exception during login wait loop: {loop_e}" [] ;;
       emit (AsyncioSleep 1) ;;
       ret (false, login_check_attempts)).

(** The [while] loop of line 40. [steps] bounds the passes the model
    follows; a loop still running after them is [Diverge]. *)
Fixpoint login_wait_loop (steps : nat) (tab : bool) (logged_in : bool)
  (login_check_attempts : nat) : M W (bool * nat) :=
  if negb logged_in && (login_check_attempts <? max_login_check_attempts)%nat then
    match steps with
    | O => diverge
    | S steps' =>
        st <- login_wait_body tab login_check_attempts ;;
        login_wait_loop steps' tab (fst st) (snd st)
    end
  else ret (logged_in, login_check_attempts).

(** Lines 63-72. *)
Definition extract_token (current_url : option string) : M W (option string) :=
  try_except
    (match current_url with
     | None => raise TypeError
     | Some u =>
         match search_token u with
         | Some t => log INFO "Extracted token: {token}" [PStr t] ;; ret (Some t)
         | None => log WARNING "Could not extract token from URL." [] ;; ret None
         end
     end)
    (fun e_token => log ERROR "Error extracting token: {e_token}" [] ;; ret None).

(** The [for i, script in enumerate(js_scripts_for_fakeid)] loop, lines
    80-88: the value of [fakeid] when the loop ends. *)
Fixpoint try_fakeid_scripts (tab : bool) (i : nat) (scripts : list string)
  : M W (option string) :=
  match scripts with
  | [] => ret None
  | script :: rest =>
      found <- try_except
                 (result <- call_tab_evaluate tab script ;;
                  if truthy result then
                    let fakeid := py_str result in
                    log INFO "Extracted fakeid (JS attempt {i+1}): {fakeid}"
                      [PInt (Z.of_nat (i + 1)); PStr fakeid] ;;
                    ret (Some fakeid)
                  else ret None)
                 (fun e_js =>
                    log WARNING
                      "Error trying script for fakeid (attempt {i+1}, {script[:30]}...): {e_js}"
                      [PInt (Z.of_nat (i + 1)); PStr script] ;;
                    ret None) ;;
      match found with
      | Some fakeid => ret (Some fakeid)
      | None => try_fakeid_scripts tab (S i) rest
      end
  end.

(** The scripts of [scripts], run in order from [w], all raise or give a
    falsy result: the world they leave. *)
Fixpoint probes_fail (scripts : list string) (w : W) : option W :=
  match scripts with
  | [] => Some w
  | script :: rest =>
      let '(w', r) := tab_evaluate p script w in
      match r with
      | Some v => if truthy v then None else probes_fail rest w'
      | None => probes_fail rest w'
      end
  end.

(** Lines 74-91. *)
Definition extract_fakeid (tab : bool) : M W (option string) :=
  fid <- try_fakeid_scripts tab 0 js_scripts_for_fakeid ;;
  (if negb (str_truthy fid) then
     log WARNING "Could not automatically determine fakeid from JS." []
   else ret tt) ;;
  ret fid.

(** Lines 93-102: [None] or the truthy value the script gave. *)
Definition extract_nickname (tab : bool) : M W pyval :=
  try_except
    (nickname_script_result <- call_tab_evaluate tab nickname_script ;;
     if truthy nickname_script_result then
       log INFO "Extracted nickname (JS): {nickname}" [nickname_script_result] ;;
       ret nickname_script_result
     else
       log WARNING "Could not extract nickname using wx.cgiData.nick_name via JS." [] ;;
       ret PNone)
    (fun e_nick =>
       log ERROR "Error during nickname extraction (JS): {e_nick}" [] ;;
       ret PNone).

(** How the body of the [async with] ends: by a [return] inside it, or by
    running off its end with [login_info] set. *)
Inductive flow : Type :=
| Return (result : option login_info)
| Next (info : option login_info).

(** Lines 60-114, after a successful wait. *)
Definition extract_login_info (tab : bool) : M W (option login_info) :=
  log INFO "Extracting information post-login..." [] ;;
  current_url <- read_tab_url tab ;;
  tok <- extract_token current_url ;;
  fid <- extract_fakeid tab ;;
  nick <- extract_nickname tab ;;
  let '(info, record) := compose_login_info tok fid nick in
  emit record ;;
  log INFO "Login flow finished. Browser will close." [] ;;
  call_tab_sleep tab 2 ;;
  ret info.

(** Lines 29-114, the body of the [async with]. *)
Definition login_session (steps : nat) : M W flow :=
  opened <- try_except
              (tab <- call_driver_get login_url ;;
               log INFO
                 "Please scan the QR code on the WeChat MP login page (within 2 minutes)." [] ;;
               ret (Some tab))
              (fun nav_e =>
                 log ERROR "Error navigating to login page: {nav_e}" [] ;;
                 ret None) ;;
  match opened with
  | None => ret (Return None)
  | Some tab =>
      st <- login_wait_loop steps tab false 0 ;;
      if negb (fst st) then
        log WARNING "Login timeout." [] ;;
        ret (Return None)
      else
        info <- extract_login_info tab ;;
        ret (Next info)
  end.

(** [do_login_flow()]; [steps] bounds the passes of the wait loop. *)
Definition do_login_flow (steps : nat) : M W (option login_info) :=
  try_except
    (log INFO "Launching browser for login..." [] ;;
     r <- with_browser (login_session steps) ;;
     match r with
     | Return result => ret result
     | Next info =>
         log INFO "Browser session for login finished and cleaned up." [] ;;
         ret info
     end)
    (fun e =>
       log CRITICAL "A critical error occurred during the login process: {e}" [] ;;
       ret None).

(** *** [_fetch_and_print_articles] and [fetch_articles_command] *)

Definition _fetch_and_print_articles (tab : bool) (tok fid : string) : M W unit :=
  log INFO "Fetching articles from: {articles_url} with params affecting URL directly."
    [PStr articles_url] ;;
  try_except
    (url <- lift_exn (full_url tok fid) ;;
     log DEBUG "Constructed article fetch URL: {full_url}" [PStr url] ;;
     call_tab_get tab url ;;
     json_text_content <- call_tab_evaluate tab body_script ;;
     let r := parse lim json_text_content in
     emit_all (parse_events json_text_content r) ;;
     match parse_raised r with
     | Some e => raise e
     | None => ret tt
     end)
    (fun e =>
       log ERROR "Error during fetching or parsing articles: {e}" [] ;;
       try_except
         (page_content_on_error <- call_tab_evaluate tab body_script ;;
          if sliceable page_content_on_error then
            log DEBUG "Page content on error during article fetch: {page_content_on_error[:500]}..."
              [page_content_on_error]
          else raise TypeError)
         (fun e_pc => log ERROR "Could not get page content on error: {e_pc}" [])).

(** [fetch_articles_command(token, fakeid)]; each argument is a str or
    [None], as [argparse] and [login_details.get] give them. *)
Definition fetch_articles_command (tok fid : option string) : M W unit :=
  if negb (str_truthy tok) || negb (str_truthy fid) then
    log ERROR "Token and FakeID are required to fetch articles." []
  else
    match tok, fid with
    | Some t, Some f =>
        log INFO "\nLaunching browser to fetch articles for fakeid: {fakeid}..." [PStr f] ;;
        try_except
          (finished <- with_browser
                         (tab <- call_driver_get "about:blank" ;;
                          if negb tab then
                            log ERROR "Failed to get a browser tab for fetching articles." [] ;;
                            ret false
                          else
                            _fetch_and_print_articles tab t f ;;
                            call_tab_sleep tab 2 ;;
                            ret true) ;;
           if finished then
             log INFO "Browser session for fetching articles finished and cleaned up." []
           else ret tt)
          (fun e =>
             log CRITICAL "An error occurred during article fetching command: {e}" [])
    | _, _ => ret tt
    end.

End Program.

End Main.
Export Main.

(** ** [main_cli] *)

Module Cli.

Local Open Scope session_scope.

(** The namespace [argparse] hands to [main_cli]. *)
Record cli_args : Type := {
  arg_login : bool;
  arg_get_articles : bool;
  arg_fakeid : option string;
  arg_token : option string;
  arg_debug : bool
}.

(** What [parser.parse_args()] does at line 237: it prints the help or a
    usage error and leaves the program with [SystemExit] ([-h], an option
    that is not declared, [--token] or [--fakeid] without a value), or
    it returns the namespace. *)
Inductive parsed : Type :=
| SystemExit (status : nat)
| Namespace (args : cli_args).

(** How [main_cli] is left when no [Exception] leaves it: by the
    [SystemExit] of [parse_args], which is no [Exception] and which no
    handler of the program catches, or at its end; [help] tells whether
    [parser.print_help()] was called. *)
Inductive cli_end : Type :=
| Exited (status : nat)
| Finished (help : bool).

Section Program.

Context {W : Type}.
Variable p : provider W.
Variable py_str : pyval -> string.
Variable lim : limits.

(** Lines 261-272: the login made for [--get-articles] when an
    identifier is missing. [None] is the [return] of lines 269 and 272;
    otherwise the new [token_to_use] and [fakeid_to_use]. *)
Definition login_for_articles (steps : nat)
  : M W (option (option string * option string)) :=
  try_except
    (login_details <- do_login_flow p py_str steps ;;
     match login_details with
     | Some d =>
         if str_truthy (Some (token d)) && str_truthy (Some (fakeid d)) then
           log INFO "Token and FakeID retrieved successfully via login." [] ;;
           ret (Some (Some (token d), Some (fakeid d)))
         else
           log ERROR
             "Login failed or did not return necessary token/fakeid for fetching articles." [] ;;
           ret None
     | None =>
         log ERROR
           "Login failed or did not return necessary token/fakeid for fetching articles." [] ;;
         ret None
     end)
    (fun e_login_get =>
       log CRITICAL "Exception during login attempt for get-articles: {e_login_get}" [] ;;
       ret None).

(** Lines 239-283, with the namespace [args]: [no_arguments] tells
    whether [len(sys.argv) == 1], [steps] bounds the passes of the wait
    loop. The result tells whether [parser.print_help()] was called. *)
Definition run_command (args : cli_args) (no_arguments : bool) (steps : nat) : M W bool :=
  (if arg_debug args then log DEBUG "Debug logging enabled." [] else ret tt) ;;
  try_except
    (if arg_login args then
       log INFO "Login process initiated by CLI command..." [] ;;
       login_details <- do_login_flow p py_str steps ;;
       match login_details with
       | Some d =>
           log INFO
             "Login completed. Nickname: {login_details.get('nickname')}, Token: {login_details.get('token')}, FakeID: {login_details.get('fakeid')}"
             [nickname d; PStr (token d); PStr (fakeid d)]
       | None => log WARNING "Login process failed or was aborted." []
       end ;;
       ret false
     else if arg_get_articles args then
       log INFO "Get articles process initiated by CLI command..." [] ;;
       ids <- (if negb (str_truthy (arg_token args)) || negb (str_truthy (arg_fakeid args))
               then
                 log INFO
                   "Token or FakeID not provided via CLI args, attempting login to retrieve them..."
                   [] ;;
                 login_for_articles steps
               else ret (Some (arg_token args, arg_fakeid args))) ;;
       match ids with
       | None => ret false
       | Some (token_to_use, fakeid_to_use) =>
           (if str_truthy token_to_use && str_truthy fakeid_to_use then
              fetch_articles_command p lim token_to_use fakeid_to_use
            else log ERROR "Cannot fetch articles: Token or FakeID is missing." []) ;;
           ret false
       end
     else if no_arguments then ret true
     else
       log WARNING
         "No specific command (--login or --get-articles) was prioritized. Use -h for help."
         [] ;;
       ret false)
    (fun e_main =>
       log CRITICAL "A critical error occurred in main_cli: {e_main}" [] ;;
       ret false).

(** [main_cli()]: [parse_args] comes first, outside every [try]. *)
Definition main_cli (parse_args : parsed) (no_arguments : bool) (steps : nat)
  : M W cli_end :=
  match parse_args with
  | SystemExit status => ret (Exited status)
  | Namespace args =>
      help <- run_command args no_arguments steps ;;
      ret (Finished help)
  end.

End Program.

End Cli.
Export Cli.

(** ** What a run may be observed to do *)

Module Observe.

Section Runs.

Context {W A : Type}.

(** No exception leaves the computation, whatever the world. *)
Definition never_raises (m : M W A) : Prop :=
  forall (w : W) (e : exn), outcome_of (m w) <> Raise e.

(** The computation is never left inside a loop. *)
Definition never_diverges (m : M W A) : Prop :=
  forall w : W, outcome_of (m w) <> Diverge.

(** The computation returns a value, whatever the world. *)
Definition always_returns (m : M W A) : Prop :=
  forall w : W, exists a : A, outcome_of (m w) = Ret a.

(** Every event the computation writes satisfies [P]. *)
Definition writes_only (P : event -> bool) (m : M W A) : Prop :=
  forall w : W, forallb P (trace_of (m w)) = true.

End Runs.

(** An event other than the start and the close of the browser. *)
Definition inside_session (e : event) : bool :=
  match e with
  | UcStart | BrowserClose => false
  | _ => true
  end.

(** The events of a login between its start and its close: log records,
    the opening of the login page, sleeps, and the evaluation of the
    fakeid scripts and of the nickname script. *)
Definition login_event (e : event) : bool :=
  match e with
  | Log _ _ _ => true
  | DriverGet url => url =? login_url
  | TabSleep _ | AsyncioSleep _ => true
  | TabEvaluate script =>
      existsb (String.eqb script) (js_scripts_for_fakeid ++ [nickname_script])
  | UcStart | BrowserClose | TabGet _ => false
  end.

(** The events of a fetch between its start and its close: log records,
    the blank tab, the navigation to the request URL, the reading of the
    page text and the final sleep. *)
Definition fetch_event (tok fid : string) (e : event) : bool :=
  match e with
  | Log _ _ _ => true
  | DriverGet url => url =? "about:blank"
  | TabGet url =>
      match full_url tok fid with
      | inr u => url =? u
      | inl _ => false
      end
  | TabEvaluate script => script =? body_script
  | TabSleep seconds => (seconds =? 2)%nat
  | UcStart | BrowserClose | AsyncioSleep _ => false
  end.

(** The values the lines 62-102 leave in [token], [fakeid] and
    [nickname], from the world in which the extraction starts. *)
Definition recovered {W : Type} (p : provider W) (py_str : pyval -> string)
  (tab : bool) : M W (option string * option string * pyval) :=
  bind (read_tab_url p tab) (fun current_url =>
  bind (extract_token current_url) (fun tok =>
  bind (extract_fakeid p py_str tab) (fun fid =>
  bind (extract_nickname p tab) (fun nick =>
  ret (tok, fid, nick))))).

(** How a run of the decoder under the limits of an interpreter stands to
    the run without limits: the same value, the same syntax error, or one
    of the two errors of the limits, met before either. *)
Definition agrees {A : Type} (limited free : exn + A) : Prop :=
  match limited with
  | inr a => free = inr a
  | inl JSONDecodeError => free = inl JSONDecodeError
  | inl RecursionError | inl ValueError => True
  | inl _ => False
  end.

(** The number of times the character [c] occurs in [s]. *)
Fixpoint count_char (c : ascii) (s : string) : nat :=
  match s with
  | EmptyString => 0
  | String x rest => (if Ascii.eqb x c then 1 else 0) + count_char c rest
  end.

(** Every character of [s] is a word character. *)
Fixpoint all_word (s : string) : bool :=
  match s with
  | EmptyString => true
  | String c rest => is_word c && all_word rest
  end.

(** The first character of [s], if any, is not a word character. *)
Definition word_ends (s : string) : bool :=
  match s with
  | EmptyString => true
  | String c _ => negb (is_word c)
  end.

(** The world after [n] calls of [tab.sleep(1)]. *)
Fixpoint after_sleeps {W : Type} (p : provider W) (n : nat) (w : W) : W :=
  match n with
  | O => w
  | S n' => after_sleeps p n' (fst (tab_sleep p 1 w))
  end.

(** What the pass of the wait loop that raises the attempts to [S a]
    writes: the sleep, and every twentieth attempt the progress record. *)
Definition waiting_pass (a : nat) : list event :=
  TabSleep 1
  :: (if (S a mod 20 =? 0)%nat then
        [ Log INFO
            "Still waiting for login... (Attempt {login_check_attempts}/{max_login_check_attempts})"
            [PInt (Z.of_nat (S a)); PInt (Z.of_nat max_login_check_attempts)] ]
      else []).

Definition is_progress (e : event) : bool :=
  match e with
  | Log INFO message _ =>
      message
      =? "Still waiting for login... (Attempt {login_check_attempts}/{max_login_check_attempts})"
  | _ => false
  end.

(** The record [--debug] adds in front of a run of [main_cli]. *)
Definition debug_record (args : cli_args) : list event :=
  if arg_debug args then [Log DEBUG "Debug logging enabled." []] else [].

(** The characters [quote_plus] can write: letters, digits, [_.-~], the
    [+] of a space and the [%] of an escape. *)
Definition quoted_char (c : ascii) : bool :=
  is_alnum c || Ascii.eqb c "_"%char || Ascii.eqb c "."%char || Ascii.eqb c "-"%char
  || Ascii.eqb c "~"%char || Ascii.eqb c "+"%char || Ascii.eqb c "%"%char.

(** Every character of [s] satisfies [P]. *)
Fixpoint all_chars (P : ascii -> bool) (s : string) : bool :=
  match s with
  | EmptyString => true
  | String c rest => P c && all_chars P rest
  end.

End Observe.
Export Observe.

(** The passes of the wait loop a trace shows: its [tab.sleep(1)] calls. *)
Definition is_poll (e : event) : bool :=
  match e with
  | TabSleep 1 => true
  | _ => false
  end.

Definition polls (t : list event) : nat := length (filter is_poll t).

(** What one pass of the wait loop writes when its [tab.sleep] raises. *)
Definition failed_pass : list event :=
  [ TabSleep 1; Log WARNING "Exception during login wait loop: {loop_e}" [];
    AsyncioSleep 1 ].

(** ** Scripted browsers, for running the program on concrete sessions *)

Module Scripted.

(** A browser whose world is the number of [tab.sleep] calls so far: the
    address and the fate of each sleep depend on that count, the result of
    a script on the script alone. *)
Definition browser (urls : nat -> url_read) (sleeps : nat -> bool)
  (evaluate : string -> option pyval) : provider nat :=
  {| uc_start := fun w => (w, true);
     driver_get := fun _ w => (w, GetTab);
     tab_get := fun _ w => (w, true);
     tab_evaluate := fun script w => (w, evaluate script);
     tab_sleep := fun _ w => (S w, sleeps w);
     tab_url := fun w => urls w;
     browser_close := fun w => w |}.

(** [str] on the values the examples meet: a str is itself. *)
Definition str_of (v : pyval) : string :=
  match v with
  | PStr s => s
  | _ => "?"
  end.

(** The session mocked in [tests/test_main.py]: the address is the
    logged-in one from the start, the first fakeid script and the nickname
    script answer. *)
Definition mock_evaluate (script : string) : option pyval :=
  if contains "user_attributes.fake_id" script then Some (PStr "fakeid_12345")
  else if contains "wx.cgiData.fake_id" script then Some PNone
  else if contains "wx.cgiData.appmsgstat.fake_id" script then Some PNone
  else if contains "wx.cgiData.nick_name" script then Some (PStr "Test User")
  else Some PNone.

Definition mock_browser : provider nat :=
  browser
    (fun _ => UrlStr "https://mp.weixin.qq.com/cgi-bin/home?action=home&token=mocktoken123")
    (fun _ => true) mock_evaluate.

(** A browser whose every [tab.sleep] raises. *)
Definition broken_sleep_browser : provider nat :=
  browser (fun _ => UrlStr login_url) (fun _ => false) (fun _ => Some PNone).

(** A browser that never leaves the login page. *)
Definition idle_browser : provider nat :=
  browser (fun _ => UrlStr login_url) (fun _ => true) (fun _ => Some PNone).

(** A browser whose first address read gives [None], and which stays on
    the login page afterwards. *)
Definition flaky_browser : provider nat :=
  browser (fun n => match n with 1 => UrlNone | _ => UrlStr login_url end)
    (fun _ => true) (fun _ => Some PNone).

(** A logged-in session whose address carries a token while no script
    finds a fakeid. *)
Definition token_only_browser : provider nat :=
  browser
    (fun _ => UrlStr "https://mp.weixin.qq.com/cgi-bin/home?t=home/index&token=123456")
    (fun _ => true) (fun _ => Some PNone).

(** A logged-in session whose address carries no token while the first
    script finds a fakeid. *)
Definition fakeid_only_browser : provider nat :=
  browser (fun _ => UrlStr "https://mp.weixin.qq.com/cgi-bin/home?t=home/index")
    (fun _ => true)
    (fun script =>
       if contains "user_attributes" script then Some (PStr "3094") else Some PNone).

(** A logged-in session in which the first fakeid script raises, the
    second gives [null] and the third gives "3094". *)
Definition third_probe_browser : provider nat :=
  browser
    (fun _ => UrlStr "https://mp.weixin.qq.com/cgi-bin/home?t=home/index&token=123456")
    (fun _ => true)
    (fun script =>
       if contains "user_attributes" script then None
       else if contains "appmsgstat" script then Some (PStr "3094")
       else Some PNone).

(** A logged-in session in which the token and the fakeid are found and
    every [tab.sleep] after the first raises: the first pass of the wait
    loop sees the home page, the [tab.sleep(2)] that ends the extraction
    fails. *)
Definition late_failure_browser : provider nat :=
  browser
    (fun _ => UrlStr "https://mp.weixin.qq.com/cgi-bin/home?t=home/index&token=123456")
    (fun n => (n =? 0)%nat)
    (fun script =>
       if contains "user_attributes" script then Some (PStr "3094") else Some PNone).

(** A browser that serves [body] as the text of every page. *)
Definition serving (body : string) : provider nat :=
  browser (fun _ => UrlStr "about:blank") (fun _ => true) (fun _ => Some (PStr body)).

End Scripted.

(** ** The specification's wording, for comparison with the code *)

Module Spec.

(** The field names of the specification stand for the keys of the code:
    [publishPage.publishList] for ["publish_page"]["publish_list"],
    [appmsgInfo] for ["appmsg_info"], [publishInfo] for ["publish_info"],
    [accountId] for [fakeid]. *)

Definition dict := list (string * pyval).

(** [d.get(k)] on a dict body. *)
Definition field (k : string) (d : dict) : pyval :=
  match dict_lookup k d with
  | Some v => v
  | None => PNone
  end.

(** Rule 1: the item carries a nested [appmsg_info] object with a
    non-empty [title]. *)
Definition rule1_holds (d : dict) : bool :=
  match field "appmsg_info" d with
  | PDict a => truthy (field "title" a)
  | _ => false
  end.

Definition rule1_title (d : dict) : exn + item_result :=
  match field "appmsg_info" d with
  | PDict a => inr (FromAppmsgInfo (field "title" a))
  | _ => inr NotFound
  end.

(** Rule 2: the item carries a [publish_info] field. *)
Definition rule2_holds (d : dict) : bool := truthy (field "publish_info" d).

Definition rule2_title (lim : limits) (d : dict) : exn + item_result :=
  resolve_publish_info lim (field "publish_info" d).

(** Rule 3: the item carries a direct top-level [title]. *)
Definition rule3_holds (d : dict) : bool := truthy (field "title" d).

Definition rule3_title (d : dict) : exn + item_result := inr (Direct (field "title" d)).

(** Rule 4: none of the above. *)
Definition rule4_title (d : dict) : exn + item_result := inr NotFound.

(** The ordered list of precondition and extractor pairs. *)
Definition title_rules (lim : limits)
  : list ((dict -> bool) * (dict -> exn + item_result)) :=
  [ (rule1_holds, rule1_title); (rule2_holds, rule2_title lim);
    (rule3_holds, rule3_title); (fun _ => true, rule4_title) ].

(** First match wins. *)
Fixpoint first_rule (rules : list ((dict -> bool) * (dict -> exn + item_result)))
  (d : dict) : exn + item_result :=
  match rules with
  | [] => inr NotFound
  | (holds, extract) :: rest => if holds d then extract d else first_rule rest d
  end.

(** The item's [appmsg_info] is absent, falsy, or an object: the test of
    rule 1 can be made. *)
Definition appmsg_info_testable (d : dict) : bool :=
  match field "appmsg_info" d with
  | PDict _ => true
  | a => negb (truthy a)
  end.

(** A sub-entry of a decoded [publish_info] from which the scan moves on:
    not an object, or an object with no direct title whose [appmsg_info]
    is absent or an object without a title. *)
Definition entry_without_title (e : pyval) : bool :=
  match e with
  | PDict d =>
      negb (truthy (field "title" d))
      && match dict_lookup "appmsg_info" d with
         | None => true
         | Some (PDict a) => negb (truthy (field "title" a))
         | Some _ => false
         end
  | _ => true
  end.

(** The title a sub-entry carries: its direct [title], else the [title]
    of its nested [appmsg_info] object. *)
Definition carried_title (e : pyval) : option item_result :=
  match e with
  | PDict d =>
      if truthy (field "title" d) then Some (FromPublishInfo (field "title" d))
      else match dict_lookup "appmsg_info" d with
           | Some (PDict a) =>
               if truthy (field "title" a)
               then Some (FromPublishInfoAppmsg (field "title" a))
               else None
           | _ => None
           end
  | _ => None
  end.

(** The pass over [item] ends normally, with result [r]. *)
Definition resolves (lim : limits) (item : pyval) (r : item_result) : Prop :=
  resolve_item lim item = inr r.

(** The value [publish_list] is absent or falsy below an object
    [publish_page], itself absent or an object. *)
Definition publish_list_missing (d : dict) : bool :=
  match dict_lookup "publish_page" d with
  | None => true
  | Some (PDict page) =>
      match dict_lookup "publish_list" page with
      | None => true
      | Some v => negb (truthy v)
      end
  | Some _ => false
  end.

Definition decimal (n : nat) : string := NilZero.string_of_uint (Nat.to_uint n).

(** The parameter set of the specification's [fetch]: [action=list],
    [begin=page*pageSize], [count=pageSize], the account id, the type
    marker, the token, the locale, [format=json], [ajax=1]. Where the
    specification names no key or value, the code's is taken. *)
Definition spec_params (page pageSize : nat) (tok accountId : string)
  : list (string * string) :=
  [ ("action", "list"); ("begin", decimal (page * pageSize));
    ("count", decimal pageSize); ("fakeid", accountId); ("type", "101_1");
    ("token", tok); ("lang", "zh_CN"); ("format", "json"); ("ajax", "1") ].

Definition spec_url (page pageSize : nat) (tok accountId : string) : exn + string :=
  match urlencode (spec_params page pageSize tok accountId) with
  | inr query => inr (articles_url ++ "?" ++ query)%string
  | inl e => inl e
  end.

End Spec.
Export Spec.

(** ** Example inputs *)

Module Examples.

(** The example body as the specification prints it. *)
Definition spec_example_body : string :=
  js "{'publishPage':{'publishList':[{'appmsgInfo':{'title':'Hello'}},{'publishInfo':'[{\'title\':\'World\'}]'},{'title':'Direct'},{'foo':'bar'}]}}".

(** The same body with the keys the code reads. *)
Definition example_body : string :=
  js "{'publish_page':{'publish_list':[{'appmsg_info':{'title':'Hello'}},{'publish_info':'[{\'title\':\'World\'}]'},{'title':'Direct'},{'foo':'bar'}]}}".

(** A collection of two items: the first has a [publish_info] that
    decodes to the number 5, the second a direct title. *)
Definition number_publish_info_body : string :=
  js "{'publish_page':{'publish_list':[{'publish_info':'5'},{'title':'A'}]}}".

(** Five items, the third with the [publish_info] string [{oops]. *)
Definition five_items : list pyval :=
  [ PDict [("appmsg_info", PDict [("title", PStr "One")])];
    PDict [("publish_info", PStr (js "[{'title':'Two'}]"))];
    PDict [("publish_info", PStr "{oops")];
    PDict [("title", PStr "Four")];
    PDict [("publish_info", PStr (js "[{'appmsg_info':{'title':'Five'}}]"))] ].

(** An item whose [publish_info] lists an object with a null
    [appmsg_info] and then an object with the title "X". *)
Definition null_appmsg_info_item : pyval :=
  PDict [("publish_info", PStr (js "[{'appmsg_info':null},{'title':'X'}]"))].

(** The token [tok] followed by the code point U+DCFF, as [sys.argv]
    gives it for the byte FF. *)
Definition surrogate_token : string :=
  ("tok" ++ String (ascii_of_nat 237) (String (ascii_of_nat 179)
                                         (String (ascii_of_nat 191) EmptyString)))%string.

(** 995 arrays inside one another: valid JSON. *)
Definition deep_body : string :=
  string_of_list_ascii (repeat "["%char 995 ++ repeat "]"%char 995).

(** An integer of 4301 digits: valid JSON. *)
Definition long_integer_body : string :=
  string_of_list_ascii (repeat "1"%char 4301).

(** 995 opening brackets and nothing else: not JSON. *)
Definition unclosed_brackets : string := string_of_list_ascii (repeat "["%char 995).

End Examples.
Export Examples.

(** * Properties of the decoder *)

Section JsonFacts.

Lemma agrees_refl_error {A : Type} : agrees (@inl exn A JSONDecodeError) (inl JSONDecodeError).
Proof. reflexivity. Qed.

Lemma agrees_bind {A B : Type} (limited free : exn + A) (k k' : A -> exn + B) :
  agrees limited free ->
  (forall a, agrees (k a) (k' a)) ->
  agrees (match limited with inr a => k a | inl e => inl e end)
         (match free with inr a => k' a | inl e => inl e end).
Proof.
  intros H Hk. destruct limited as [e|a]; cbn [agrees] in H.
  - destruct e; try contradiction; try exact I. now rewrite H.
  - rewrite H. apply Hk.
Qed.

Lemma agrees_match_number (lim free : limits) (s : list ascii) :
  int_max_str_digits free = 0 ->
  agrees (match_number lim s) (match_number free s).
Proof.
  intros Hfree. unfold match_number, too_long. rewrite Hfree.
  destruct (number_token s) as [[[v n] r]|]; [|reflexivity].
  replace ((640 <? n)%Z && (0 <? 0)%nat && (Z.of_nat 0 <? n)%Z) with false
    by (now rewrite andb_false_r).
  now destruct ((640 <? n)%Z && (0 <? int_max_str_digits lim)%nat
                && (Z.of_nat (int_max_str_digits lim) <? n)%Z).
Qed.

Lemma agrees_literal (name : string) (v : pyval) (s : list ascii) :
  agrees (literal name v s) (literal name v s).
Proof. unfold literal. now destruct (strip_prefix _ s). Qed.

(** Going on from two runs that agree: the limited one raised an error
    of the limits, or both go the same way. *)
Ltac follow H :=
  match type of H with
  | agrees ?x _ =>
      destruct x as [[]|[? ?]]; cbn [agrees] in H;
      try contradiction; try exact I; rewrite H
  end.

(** The three loops of the decoder, together. *)
Lemma agrees_scan (lim free : limits) :
  int_max_str_digits free = 0 ->
  forall fuel : nat,
    (forall (allow allow' : nat) (s : list ascii),
        fuel <= allow' ->
        agrees (scan_once lim allow fuel s) (scan_once free allow' fuel s))
    /\ (forall (allow allow' : nat) (acc : list (string * pyval)) (s : list ascii),
          fuel <= allow' ->
          agrees (object_members lim allow fuel acc s)
                 (object_members free allow' fuel acc s))
    /\ (forall (allow allow' : nat) (s : list ascii),
          fuel <= allow' ->
          agrees (array_items lim allow fuel s) (array_items free allow' fuel s)).
Proof.
  intros Hfree. induction fuel as [|fuel (IHs & IHo & IHa)].
  - repeat split; intros; reflexivity.
  - split; [|split].
    + intros allow allow' s Hle. cbn [scan_once].
      destruct s as [|c r]; [reflexivity|].
      destruct (Ascii.eqb c dquote).
      { now destruct (scanstring (S (length r)) r) as [[body r']|]. }
      destruct allow' as [|allow']; [lia|].
      destruct (Ascii.eqb c "{").
      { destruct allow as [|allow]; [exact I|].
        destruct (starts "}" (skip_ws r)); [reflexivity|].
        pose proof (IHo allow allow' [] (skip_ws r) ltac:(lia)) as H.
        follow H; reflexivity. }
      destruct (Ascii.eqb c "[").
      { destruct allow as [|allow]; [exact I|].
        destruct (starts "]" (skip_ws r)); [reflexivity|].
        pose proof (IHa allow allow' (skip_ws r) ltac:(lia)) as H.
        follow H; reflexivity. }
      repeat match goal with
             | |- agrees (if ?b then _ else _) _ => destruct b; [apply agrees_literal|]
             end.
      now apply agrees_match_number.
    + intros allow allow' acc s Hle. cbn [object_members].
      destruct (starts dquote s); [|reflexivity].
      destruct (scanstring (S (length (tl s))) (tl s)) as [[key r1]|]; [|reflexivity].
      destruct (starts ":" (skip_ws r1)); [|reflexivity].
      pose proof (IHs allow allow' (skip_ws (tl (skip_ws r1))) ltac:(lia)) as H.
      follow H; try reflexivity.
      destruct (starts "}" (skip_ws l)); [reflexivity|].
      destruct (starts "," (skip_ws l)); [|reflexivity].
      apply IHo. lia.
    + intros allow allow' s Hle. cbn [array_items].
      pose proof (IHs allow allow' s ltac:(lia)) as H.
      follow H; try reflexivity.
      destruct (starts "]" (skip_ws l)); [reflexivity|].
      destruct (starts "," (skip_ws l)); [|reflexivity].
      pose proof (IHa allow allow' (skip_ws (tl (skip_ws l))) ltac:(lia)) as H'.
      follow H'; reflexivity.
Qed.

(** [json.loads] under limits against the decoder without. *)
Lemma agrees_json_loads (lim : limits) (text : string) :
  agrees (json_loads lim text) (json_loads (unlimited text) text).
Proof.
  unfold json_loads.
  assert (H : agrees (scan_once lim (nesting lim) (fuel_for text)
                        (skip_ws (list_ascii_of_string text)))
                (scan_once (unlimited text) (nesting (unlimited text)) (fuel_for text)
                   (skip_ws (list_ascii_of_string text)))).
  { apply (agrees_scan lim (unlimited text) eq_refl (fuel_for text)).
    cbn [unlimited nesting]. lia. }
  follow H; try reflexivity.
  now destruct (skip_ws l).
Qed.

(** What [json.loads] returns is the value of the text. *)
Lemma json_loads_value (lim : limits) (text : string) (v : pyval) :
  json_loads lim text = inr v -> json_value text = Some v.
Proof.
  intros H. pose proof (agrees_json_loads lim text) as Ha. rewrite H in Ha.
  cbn [agrees] in Ha. unfold json_value. now rewrite Ha.
Qed.

(** A [JSONDecodeError] is raised on texts that are not JSON only. *)
Lemma json_loads_decode_error (lim : limits) (text : string) :
  json_loads lim text = inl JSONDecodeError -> json_value text = None.
Proof.
  intros H. pose proof (agrees_json_loads lim text) as Ha. rewrite H in Ha.
  cbn [agrees] in Ha. unfold json_value. now rewrite Ha.
Qed.

(** The three exceptions of [json.loads] on a str. *)
Lemma json_loads_errors (lim : limits) (text : string) (e : exn) :
  json_loads lim text = inl e ->
  e = JSONDecodeError \/ e = RecursionError \/ e = ValueError.
Proof.
  intros H. pose proof (agrees_json_loads lim text) as Ha. rewrite H in Ha.
  destruct e; cbn [agrees] in Ha; try contradiction; auto.
Qed.

(** On a text that is not JSON, [json.loads] raises. *)
Lemma json_loads_not_json (lim : limits) (text : string) :
  json_value text = None ->
  exists e : exn,
    json_loads lim text = inl e
    /\ (e = JSONDecodeError \/ e = RecursionError \/ e = ValueError).
Proof.
  intros H. destruct (json_loads lim text) as [e|v] eqn:E.
  - exists e. split; [reflexivity | now apply (json_loads_errors lim text)].
  - rewrite (json_loads_value lim text v E) in H. discriminate H.
Qed.

End JsonFacts.

(** * Properties of the listing printer *)

Section ListingFacts.

Variable lim : limits.

Lemma get_dict (d : dict) (k : string) : get (PDict d) k = inr (field k d).
Proof. reflexivity. Qed.

Lemma get_default_absent (d : dict) (k : string) (v : pyval) :
  dict_lookup k d = None -> get_default (PDict d) k v = inr v.
Proof. intros H. unfold get_default. now rewrite H. Qed.

Lemma get_default_present (d : dict) (k : string) (v x : pyval) :
  dict_lookup k d = Some x -> get_default (PDict d) k v = inr x.
Proof. intros H. unfold get_default. now rewrite H. Qed.

Lemma field_present (d : dict) (k : string) (x : pyval) :
  dict_lookup k d = Some x -> field k d = x.
Proof. intros H. unfold field. now rewrite H. Qed.

(** The [if]/[elif] chain of the loop body is the ordered rule list, for
    every item on which the test of rule 1 can be made. *)
Lemma resolve_item_first_rule (d : dict) :
  appmsg_info_testable d = true ->
  resolve_item lim (PDict d) = first_rule (title_rules lim) d.
Proof.
  unfold appmsg_info_testable, resolve_item, appmsg_info_title. rewrite !get_dict.
  cbn [bind_exn first_rule title_rules].
  unfold rule1_holds, rule1_title, rule2_holds, rule2_title, rule3_holds,
    rule3_title, rule4_title.
  intros Hshape.
  destruct (field "appmsg_info" d) as [ | b | z | f | s | l | a ] eqn:Ea;
    try (rewrite (proj1 (negb_true_iff _) Hshape); cbn [bind_exn];
         rewrite (proj1 (negb_true_iff _) Hshape); reflexivity).
  destruct (truthy (PDict a)) eqn:Ta.
  - rewrite get_dict. cbn [bind_exn].
    destruct (truthy (field "title" a)); reflexivity.
  - cbn [bind_exn]. rewrite Ta.
    destruct a as [|kv a']; [|discriminate Ta].
    reflexivity.
Qed.

(** An item without title in [appmsg_info] whose [publish_info] is truthy
    is decided by the [publish_info] branch. *)
Lemma resolve_item_publish_info (d : dict) :
  appmsg_info_testable d = true ->
  rule1_holds d = false ->
  truthy (field "publish_info" d) = true ->
  resolve_item lim (PDict d) = resolve_publish_info lim (field "publish_info" d).
Proof.
  intros Hs H1 H2. rewrite (resolve_item_first_rule d Hs).
  cbn [first_rule title_rules]. rewrite H1. unfold rule2_holds, rule2_title.
  now rewrite H2.
Qed.

End ListingFacts.

(** C7. An item that carries a nested [appmsg_info] object with a
    non-empty [title] and also a direct top-level [title] resolves to the
    [appmsg_info] title: rule 1 goes before rule 3 (and before rule 2),
    and the result is the one the ordered rule list gives, first match
    winning. This holds whatever the interpreter allows [json.loads],
    which is not called for such an item. *)
Theorem appmsg_info_title_precedes_direct_title :
  forall (lim : limits) (d a : dict) (t t' : pyval),
    dict_lookup "appmsg_info" d = Some (PDict a) ->
    dict_lookup "title" a = Some t ->
    truthy t = true ->
    dict_lookup "title" d = Some t' ->
    resolve_item lim (PDict d) = inr (FromAppmsgInfo t)
    /\ resolve_item lim (PDict d) = first_rule (title_rules lim) d
    /\ rule1_holds d = true.
Proof.
  intros lim d a t t' Ha Ht Tt _.
  assert (Hshape : appmsg_info_testable d = true).
  { unfold appmsg_info_testable. now rewrite (field_present _ _ _ Ha). }
  assert (H1 : rule1_holds d = true).
  { unfold rule1_holds.
    now rewrite (field_present _ _ _ Ha), (field_present _ _ _ Ht). }
  rewrite (resolve_item_first_rule lim d Hshape). repeat split; trivial.
  cbn [first_rule title_rules]. rewrite H1. unfold rule1_title.
  now rewrite (field_present _ _ _ Ha), (field_present _ _ _ Ht).
Qed.

(** The item [{"title": "Top", "appmsg_info": {"title": "Nested"},
    "publish_info": "[{\"title\": \"Inner\"}]"}] resolves to "Nested". *)
Lemma appmsg_info_title_precedes_direct_title_witness :
  resolve_item default_limits
    (PDict [ ("title", PStr "Top");
             ("appmsg_info", PDict [("title", PStr "Nested")]);
             ("publish_info", PStr (js "[{'title': 'Inner'}]")) ])
  = inr (FromAppmsgInfo (PStr "Nested")).
Proof.
  apply (appmsg_info_title_precedes_direct_title default_limits
           [ ("title", PStr "Top");
             ("appmsg_info", PDict [("title", PStr "Nested")]);
             ("publish_info", PStr (js "[{'title': 'Inner'}]")) ]
           [("title", PStr "Nested")] (PStr "Nested") (PStr "Top"));
    reflexivity.
Defined.

Section ScanFacts.

Variable lim : limits.

Lemma entry_title_non_object (e : pyval) :
  is_dict e = false -> entry_title e = inr None.
Proof. intros H. unfold entry_title. now rewrite H. Qed.

Lemma entry_title_without (e : pyval) :
  entry_without_title e = true -> entry_title e = inr None.
Proof.
  destruct e as [ | b | z | f | s | l | d ]; try reflexivity.
  unfold entry_without_title, entry_title. cbn [is_dict]. rewrite get_dict.
  cbn [bind_exn]. intros H. apply andb_true_iff in H as [Ht Ha].
  apply negb_true_iff in Ht. rewrite Ht.
  destruct (dict_lookup "appmsg_info" d) as [a|] eqn:Ea.
  - rewrite (get_default_present _ _ _ _ Ea). cbn [bind_exn].
    destruct a as [ | b | z | f | s | l | a ]; try discriminate Ha.
    rewrite get_dict. cbn [bind_exn]. apply negb_true_iff in Ha. now rewrite Ha.
  - rewrite (get_default_absent _ _ _ Ea). reflexivity.
Qed.

Lemma entry_title_carried (e : pyval) (r : item_result) :
  carried_title e = Some r -> entry_title e = inr (Some r).
Proof.
  destruct e as [ | b | z | f | s | l | d ]; try discriminate.
  unfold carried_title, entry_title. cbn [is_dict]. rewrite get_dict.
  cbn [bind_exn].
  destruct (truthy (field "title" d)).
  - now intros [= <-].
  - destruct (dict_lookup "appmsg_info" d) as [a|] eqn:Ea; [|discriminate].
    destruct a as [ | b | z | f | s | l | a ]; try discriminate.
    rewrite (get_default_present _ _ _ _ Ea). cbn [bind_exn]. rewrite get_dict.
    cbn [bind_exn].
    destruct (truthy (field "title" a)); [now intros [= <-] | discriminate].
Qed.

(** Entries that are not objects change nothing in the scan. *)
Lemma scan_details_objects_only (l : list pyval) :
  scan_details l = scan_details (filter is_dict l).
Proof.
  induction l as [|e l IH]; [reflexivity|].
  cbn [filter]. destruct (is_dict e) eqn:He.
  - cbn [scan_details]. destruct (entry_title e) as [x|[r|]]; cbn [bind_exn]; auto.
  - cbn [scan_details]. rewrite (entry_title_non_object e He). exact IH.
Qed.

(** The scan stops at the first entry that carries a title. *)
Lemma scan_details_first (pre post : list pyval) (e : pyval) (r : item_result) :
  Forall (fun x => entry_without_title x = true) pre ->
  carried_title e = Some r ->
  scan_details (pre ++ e :: post) = inr (Some r).
Proof.
  intros Hpre He. induction Hpre as [|x pre Hx _ IH].
  - cbn [app scan_details]. now rewrite (entry_title_carried e r He).
  - cbn [app scan_details]. now rewrite (entry_title_without x Hx).
Qed.

Lemma resolve_items_app (pre rest : list pyval) (rs : list item_result) :
  Forall2 (resolves lim) pre rs ->
  resolve_items lim (pre ++ rest)
  = (rs ++ fst (resolve_items lim rest), snd (resolve_items lim rest)).
Proof.
  intros H. induction H as [|x r pre rs Hx _ IH].
  - cbn [app]. now destruct (resolve_items lim rest).
  - cbn [app resolve_items]. rewrite Hx, IH. reflexivity.
Qed.

Lemma resolve_items_all (items : list pyval) (rs : list item_result) :
  Forall2 (resolves lim) items rs -> resolve_items lim items = (rs, None).
Proof.
  intros H. rewrite <- (app_nil_r items), (resolve_items_app items [] rs H).
  cbn [resolve_items fst snd]. now rewrite app_nil_r.
Qed.

(** The [publish_info] branch on a str for which [json.loads] raises:
    the [JSONDecodeError] is handled in the item, every other exception
    leaves it. *)
Lemma resolve_item_decode_raises (d : dict) (bad : string) (e : exn) :
  appmsg_info_testable d = true ->
  rule1_holds d = false ->
  dict_lookup "publish_info" d = Some (PStr bad) ->
  bad <> "" ->
  json_loads lim bad = inl e ->
  resolve_item lim (PDict d)
  = match e with
    | JSONDecodeError => inr PublishInfoNotJson
    | _ => inl e
    end.
Proof.
  intros Hs H1 Hp Hne Hbad.
  rewrite (resolve_item_publish_info lim d Hs H1); rewrite (field_present _ _ _ Hp).
  - cbn [resolve_publish_info]. rewrite Hbad. now destruct e.
  - cbn [truthy]. apply negb_true_iff. now apply String.eqb_neq.
Qed.

(** A [publish_info] string on which [json.loads] raises its
    [JSONDecodeError] marks its own item and raises nothing. *)
Lemma resolve_item_decode_failure (d : dict) (bad : string) :
  appmsg_info_testable d = true ->
  rule1_holds d = false ->
  dict_lookup "publish_info" d = Some (PStr bad) ->
  bad <> "" ->
  json_loads lim bad = inl JSONDecodeError ->
  resolve_item lim (PDict d) = inr PublishInfoNotJson.
Proof.
  intros Hs H1 Hp Hne Hbad.
  now rewrite (resolve_item_decode_raises d bad JSONDecodeError Hs H1 Hp Hne Hbad).
Qed.

Lemma list_articles_of_list (d page : dict) (items : list pyval) :
  dict_lookup "publish_page" d = Some (PDict page) ->
  dict_lookup "publish_list" page = Some (PList items) ->
  items <> [] ->
  list_articles lim (PDict d)
  = Articles (fst (resolve_items lim items)) (snd (resolve_items lim items)).
Proof.
  intros Hp Hl Hne. unfold list_articles, publish_list_of.
  rewrite (get_default_present _ _ _ _ Hp). cbn [bind_exn].
  rewrite (get_default_present _ _ _ _ Hl).
  destruct items as [|i items]; [congruence|].
  cbn [truthy negb iter]. now destruct (resolve_items lim (i :: items)).
Qed.

(** A body without articles: the warning, and nothing listed. *)
Lemma list_articles_missing (d : dict) :
  publish_list_missing d = true -> list_articles lim (PDict d) = NoArticles.
Proof.
  intros Hm. unfold list_articles, publish_list_of, publish_list_missing in *.
  destruct (dict_lookup "publish_page" d) as [page|] eqn:Ep.
  - rewrite (get_default_present _ _ _ _ Ep). cbn [bind_exn].
    destruct page as [ | b | z | f | s | l | page ]; try discriminate Hm.
    destruct (dict_lookup "publish_list" page) as [v|] eqn:El.
    + rewrite (get_default_present _ _ _ _ El). now rewrite Hm.
    + rewrite (get_default_absent _ _ _ El). reflexivity.
  - rewrite (get_default_absent _ _ _ Ep). reflexivity.
Qed.

End ScanFacts.

(** ** The end-to-end example *)

(** C2, as stated: on the body of the specification the code finds no
    [publish_page] key, warns that there are no articles and lists
    nothing, so the titles are not the four expected. *)
Lemma spec_example_body_lists_nothing :
  (exists json_response,
      parse_body default_limits spec_example_body = Decoded json_response NoArticles)
  /\ listing_titles (parse_body default_limits spec_example_body) = []
  /\ listing_titles (parse_body default_limits spec_example_body)
     <> [PStr "Hello"; PStr "World"; PStr "Direct"; PStr "title not found"].
Proof.
  split; [eexists; vm_compute; reflexivity|].
  split; [vm_compute; reflexivity|].
  vm_compute. discriminate.
Qed.

(** C2, amended: with the keys [publish_page], [publish_list],
    [appmsg_info] and [publish_info], the body lists four items, in order,
    with the titles "Hello", "World", "Direct" and no title for the
    fourth (the marker "title not found"), and nothing is raised. The
    body nests five containers and holds no number: this is so on every
    interpreter that lets [json.loads] nest five. *)
Theorem example_body_titles :
  forall lim : limits,
    5 <= nesting lim ->
    listed (parse_body lim example_body)
    = [FromAppmsgInfo (PStr "Hello"); FromPublishInfo (PStr "World");
       Direct (PStr "Direct"); NotFound]
    /\ listing_titles (parse_body lim example_body)
       = [PStr "Hello"; PStr "World"; PStr "Direct"; PStr "title not found"]
    /\ parse_raised (parse_body lim example_body) = None.
Proof.
  intros [n m] H. cbn [nesting] in H.
  replace n with (5 + (n - 5)) by lia. generalize (n - 5). intros k.
  repeat split; vm_compute; reflexivity.
Qed.

(** On an interpreter with the default settings. *)
Lemma example_body_titles_witness :
  listing_titles (parse_body default_limits example_body)
  = [PStr "Hello"; PStr "World"; PStr "Direct"; PStr "title not found"].
Proof.
  apply (example_body_titles default_limits).
  unfold default_limits. cbn [nesting]. lia.
Defined.

(** ** Bodies that are not JSON, and bodies without articles *)




(** A body of 995 arrays inside one another is valid JSON, and so is an
    integer of 4301 digits; with the default settings neither is decoded,
    and the error reported is not the decode error. *)
Example bodies_beyond_the_limits :
  (exists v, json_value deep_body = Some v)
  /\ parse_body default_limits deep_body = NotDecoded RecursionError
  /\ (exists v, json_value long_integer_body = Some v)
  /\ parse_body default_limits long_integer_body = NotDecoded ValueError
  /\ parse_raised (NotDecoded RecursionError) = Some RecursionError
  /\ parse_raised (NotDecoded ValueError) = Some ValueError.
Proof.
  split; [eexists; vm_compute; reflexivity|].
  split; [vm_compute; reflexivity|].
  split; [eexists; vm_compute; reflexivity|].
  split; [vm_compute; reflexivity|].
  split; reflexivity.
Qed.

(** ** Isolation of one item's decode failure *)

(** C6, as stated: of these two entries none is listed. The [for] over
    the decoded number raises a [TypeError], which only the handler around
    the whole fetch catches, and the second item is never examined. *)
Lemma sibling_dropped_after_type_error :
  items_of (PDict [("publish_page",
                    PDict [("publish_list",
                            PList [PDict [("publish_info", PStr "5")];
                                   PDict [("title", PStr "A")]])])])
  = [PDict [("publish_info", PStr "5")]; PDict [("title", PStr "A")]]
  /\ json_loads default_limits "5" = inr (PInt 5)
  /\ listed (parse_body default_limits number_publish_info_body) = []
  /\ parse_raised (parse_body default_limits number_publish_info_body) = Some TypeError
  /\ length (listed (parse_body default_limits number_publish_info_body)) <> 2.
Proof. repeat split; try (vm_compute; reflexivity). vm_compute. discriminate. Qed.

(** C6, amended: when no item raises, all [n] entries are examined, in
    order; and an item on whose [publish_info] [json.loads] raises its
    [JSONDecodeError] is listed in its place without a title, with every
    sibling before and after it listed as it would be alone. *)
Theorem decode_failure_keeps_siblings :
  forall lim : limits,
    (forall (items : list pyval) (rs : list item_result),
        Forall2 (resolves lim) items rs ->
        resolve_items lim items = (rs, None) /\ length rs = length items)
    /\ (forall (pre post : list pyval) (rs_pre rs_post : list item_result)
          (d : dict) (bad : string),
          Forall2 (resolves lim) pre rs_pre ->
          Forall2 (resolves lim) post rs_post ->
          appmsg_info_testable d = true ->
          rule1_holds d = false ->
          dict_lookup "publish_info" d = Some (PStr bad) ->
          bad <> "" ->
          json_loads lim bad = inl JSONDecodeError ->
          resolve_items lim (pre ++ PDict d :: post)
          = (rs_pre ++ PublishInfoNotJson :: rs_post, None)
          /\ title_of PublishInfoNotJson = None).
Proof.
  intros lim. split.
  - intros items rs H. split; [now apply resolve_items_all|].
    symmetry. exact (Forall2_length H).
  - intros pre post rs_pre rs_post d bad Hpre Hpost Hs H1 Hp Hne Hbad.
    split; [|reflexivity].
    rewrite (resolve_items_app lim pre _ rs_pre Hpre). cbn [resolve_items].
    rewrite (resolve_item_decode_failure lim d bad Hs H1 Hp Hne Hbad).
    rewrite (resolve_items_all lim post rs_post Hpost). reflexivity.
Qed.

Lemma decode_failure_keeps_siblings_witness :
  resolve_items default_limits five_items
  = ([FromAppmsgInfo (PStr "One"); FromPublishInfo (PStr "Two"); PublishInfoNotJson;
      Direct (PStr "Four"); FromPublishInfoAppmsg (PStr "Five")], None)
  /\ map title_or_marker (fst (resolve_items default_limits five_items))
     = [PStr "One"; PStr "Two"; PStr "title not found"; PStr "Four"; PStr "Five"].
Proof.
  assert (H : resolve_items default_limits five_items
              = ([FromAppmsgInfo (PStr "One"); FromPublishInfo (PStr "Two")]
                   ++ PublishInfoNotJson
                   :: [Direct (PStr "Four"); FromPublishInfoAppmsg (PStr "Five")], None)).
  { apply (proj2 (decode_failure_keeps_siblings default_limits)
             [ PDict [("appmsg_info", PDict [("title", PStr "One")])];
               PDict [("publish_info", PStr (js "[{'title':'Two'}]"))] ]
             [ PDict [("title", PStr "Four")];
               PDict [("publish_info", PStr (js "[{'appmsg_info':{'title':'Five'}}]"))] ]
             [FromAppmsgInfo (PStr "One"); FromPublishInfo (PStr "Two")]
             [Direct (PStr "Four"); FromPublishInfoAppmsg (PStr "Five")]
             [("publish_info", PStr "{oops")] "{oops").
    - repeat constructor.
    - repeat constructor.
    - reflexivity.
    - reflexivity.
    - reflexivity.
    - discriminate.
    - vm_compute. reflexivity. }
  split; [exact H | rewrite H; reflexivity].
Defined.

(** The same five items as a response body. *)
Example five_item_body_titles :
  listing_titles
    (parse_body default_limits
       (js "{'publish_page':{'publish_list':[{'appmsg_info':{'title':'One'}},{'publish_info':'[{\'title\':\'Two\'}]'},{'publish_info':'{oops'},{'title':'Four'},{'publish_info':'[{\'appmsg_info\':{\'title\':\'Five\'}}]'}]}}"))
  = [PStr "One"; PStr "Two"; PStr "title not found"; PStr "Four"; PStr "Five"].
Proof. vm_compute. reflexivity. Qed.

(** An item on whose [publish_info] [json.loads] raises another exception
    than its [JSONDecodeError] ends the loop: the items before it are
    listed, the items after it are not examined. *)
Lemma limit_error_ends_listing (lim : limits) (pre post : list pyval)
  (rs_pre : list item_result) (d : dict) (bad : string) (e : exn) :
  Forall2 (resolves lim) pre rs_pre ->
  appmsg_info_testable d = true ->
  rule1_holds d = false ->
  dict_lookup "publish_info" d = Some (PStr bad) ->
  bad <> "" ->
  json_loads lim bad = inl e ->
  e <> JSONDecodeError ->
  resolve_items lim (pre ++ PDict d :: post) = (rs_pre, Some e).
Proof.
  intros Hpre Hs H1 Hp Hne Hbad He.
  rewrite (resolve_items_app lim pre _ rs_pre Hpre). cbn [resolve_items].
  rewrite (resolve_item_decode_raises lim d bad e Hs H1 Hp Hne Hbad).
  destruct e; try congruence; cbn [fst snd]; now rewrite app_nil_r.
Qed.

(** Two items, the first with 995 opening brackets as its
    [publish_info]: the text is not JSON, yet with the default settings
    the exception is a [RecursionError], and the second item is not
    listed. *)
Example unclosed_brackets_end_listing :
  json_value unclosed_brackets = None
  /\ json_loads default_limits unclosed_brackets = inl RecursionError
  /\ resolve_items default_limits
       [PDict [("publish_info", PStr unclosed_brackets)]; PDict [("title", PStr "A")]]
     = ([], Some RecursionError).
Proof. repeat split; vm_compute; reflexivity. Qed.

(** ** Sub-entries of a decoded [publish_info] *)

(** C10, on an item whose [publish_info] is
    [[{"appmsg_info": null}, {"title": "X"}]]: the first sub-entry that
    carries a title is the second one, but the item gets no title.
    [.get("appmsg_info", {})] of line 202 gives the null that is present,
    not the default, and [.get("title")] on it raises an
    [AttributeError]; nothing is listed for the item or after it. The
    test of line 190 on the item itself does guard a null
    [appmsg_info]: the same null there lets the item go on to its direct
    title. *)
Theorem null_appmsg_info_entry_raises :
  json_loads default_limits (js "[{'appmsg_info':null},{'title':'X'}]")
  = inr (PList [PDict [("appmsg_info", PNone)]; PDict [("title", PStr "X")]])
  /\ carried_title (PDict [("appmsg_info", PNone)]) = None
  /\ carried_title (PDict [("title", PStr "X")]) = Some (FromPublishInfo (PStr "X"))
  /\ resolve_item default_limits null_appmsg_info_item = inl AttributeError
  /\ resolve_item default_limits null_appmsg_info_item <> inr (FromPublishInfo (PStr "X"))
  /\ resolve_items default_limits [null_appmsg_info_item; PDict [("title", PStr "A")]]
     = ([], Some AttributeError)
  /\ resolve_item default_limits (PDict [("appmsg_info", PNone); ("title", PStr "T")])
     = inr (Direct (PStr "T")).
Proof.
  repeat split; try (vm_compute; reflexivity). vm_compute. discriminate.
Qed.

(** Sub-entries that are not objects never supply a title and never
    raise (the scan is the scan of the object entries alone); and the
    item's title is the one carried by the first object sub-entry that
    has a direct title or a nested [appmsg_info] title, when each
    sub-entry before it is not an object or is an object without a title
    whose [appmsg_info] is absent or an object. *)
Lemma publish_info_first_titled_entry :
  forall (lim : limits) (d : dict) (s : string) (l pre post : list pyval) (e : pyval)
    (r : item_result),
    appmsg_info_testable d = true ->
    rule1_holds d = false ->
    dict_lookup "publish_info" d = Some (PStr s) ->
    s <> "" ->
    json_loads lim s = inr (PList l) ->
    l = pre ++ e :: post ->
    Forall (fun x => entry_without_title x = true) pre ->
    carried_title e = Some r ->
    resolve_item lim (PDict d) = inr r
    /\ scan_details l = scan_details (filter is_dict l)
    /\ (forall x, is_dict x = false -> entry_title x = inr None).
Proof.
  intros lim d s l pre post e r Hs H1 Hp Hne Hl -> Hpre He.
  split; [|split; [apply scan_details_objects_only | apply entry_title_non_object]].
  rewrite (resolve_item_publish_info lim d Hs H1); rewrite (field_present _ _ _ Hp).
  - cbn [resolve_publish_info]. rewrite Hl. cbn [iter bind_exn].
    now rewrite (scan_details_first pre post e r Hpre He).
  - cbn [truthy]. apply negb_true_iff. now apply String.eqb_neq.
Qed.

(** [publish_info] = [[7, "x", null, {"foo": 1}, {"appmsg_info":
    {"title": "Deep"}}, {"title": "Late"}]]: the title is "Deep". *)
Example title_after_non_objects :
  resolve_item default_limits
    (PDict [("publish_info",
             PStr (js "[7, 'x', null, {'foo': 1}, {'appmsg_info': {'title': 'Deep'}}, {'title': 'Late'}]"))])
  = inr (FromPublishInfoAppmsg (PStr "Deep")).
Proof. vm_compute. reflexivity. Qed.

(** * Properties of the runs *)

Section TraceFacts.

Context {W : Type}.

Lemma calls_app (t1 t2 : list event) : calls (t1 ++ t2) = calls t1 ++ calls t2.
Proof. apply filter_app. Qed.

Lemma run_emit_all (es : list event) (w : W) : emit_all es w = (es, w, Ret tt).
Proof.
  induction es as [|e es IH]; [reflexivity|].
  cbn [emit_all]. unfold bind, emit. now rewrite IH.
Qed.

Lemma calls_item_events (i : nat) (items : list pyval) (rs : list item_result) :
  calls (item_events i items rs) = [].
Proof.
  revert i rs. induction items as [|x items IH]; intros i [|r rs]; try reflexivity.
  cbn [item_events]. unfold calls in *. cbn [filter].
  destruct r; cbn [item_event is_call]; apply IH.
Qed.

(** Decoding and listing only write log records. *)
Lemma calls_parse_events (c : pyval) (r : parse_result) : calls (parse_events c r) = [].
Proof.
  destruct r as [e | resp l].
  - destruct e; reflexivity.
  - destruct l as [e | | rs stopped]; try reflexivity.
    cbn [parse_events]. unfold calls. cbn [filter is_call].
    apply calls_item_events.
Qed.

End TraceFacts.

(** ** The guard of [fetch_articles_command] *)

(** C8, as stated: the call [fetch_articles_command("tok", None)] raises
    nothing. It returns normally, with the result of a fetch that went
    through: the missing identifier shows in the log only. *)
Lemma missing_identifier_returns_normally :
  outcome_of (fetch_articles_command Scripted.idle_browser default_limits (Some "tok") None 0)
  = Ret tt
  /\ outcome_of (fetch_articles_command Scripted.idle_browser default_limits
                   (Some "tok") None 0)
     <> Raise (DriverError "MissingCredentials")
  /\ outcome_of (fetch_articles_command Scripted.idle_browser default_limits
                   (Some "tok") None 0)
     = outcome_of (fetch_articles_command (Scripted.serving example_body) default_limits
                     (Some "tok") (Some "fid") 0).
Proof. repeat split; try (vm_compute; reflexivity). vm_compute. discriminate. Qed.

(** C8, amended. A call of [fetch_articles_command] in which the token or
    the fakeid is absent ([None] or the empty str) logs the error and
    returns at once, normally: the world is untouched, no browser is
    started and no navigation is made. *)
Theorem fetch_without_identifiers_makes_no_call :
  forall (W : Type) (p : provider W) (lim : limits) (tok fid : option string) (w : W),
    str_truthy tok = false \/ str_truthy fid = false ->
    fetch_articles_command p lim tok fid w
    = ([Log ERROR "Token and FakeID are required to fetch articles." []], w, Ret tt)
    /\ calls (trace_of (fetch_articles_command p lim tok fid w)) = [].
Proof.
  intros W p lim tok fid w H.
  assert (E : fetch_articles_command p lim tok fid w
              = ([Log ERROR "Token and FakeID are required to fetch articles." []],
                 w, Ret tt)).
  { unfold fetch_articles_command.
    destruct H as [H | H]; rewrite H; cbn [negb orb]; [reflexivity|].
    rewrite orb_true_r. reflexivity. }
  split; [exact E | now rewrite E].
Qed.

(** The call [fetch_articles_command("tok", None)]. *)
Lemma fetch_without_identifiers_makes_no_call_witness :
  calls (trace_of (fetch_articles_command Scripted.idle_browser default_limits
                     (Some "tok") None 0)) = [].
Proof.
  apply (fetch_without_identifiers_makes_no_call nat Scripted.idle_browser default_limits
           (Some "tok") None 0).
  right. reflexivity.
Defined.

(** ** The request URL *)

Section UrlFacts.

(** [urlencode] of the parameters: the two values decide whether it
    raises, the fakeid first. *)
Lemma full_url_quoted (tok fid : string) :
  full_url tok fid
  = if has_surrogate fid || has_surrogate tok then inl UnicodeEncodeError
    else inr ("https://mp.weixin.qq.com/cgi-bin/appmsgpublish?action=list_ex&begin=0&count=5&fakeid="
              ++ quote_bytes fid ++ "&type=101_1&token=" ++ quote_bytes tok
              ++ "&lang=zh_CN&f=json&ajax=1")%string.
Proof.
  unfold full_url, params. cbn [urlencode]. unfold quote_plus.
  destruct (has_surrogate fid), (has_surrogate tok); reflexivity.
Qed.

Context {W : Type}.
Variable p : provider W.
Variable lim : limits.

(** A fetch whose URL cannot be built navigates nowhere: it logs the
    error, reads the page text at most once, and returns. *)
Lemma fetch_without_url (tok fid : string) (e : exn) (w : W) :
  full_url tok fid = inl e ->
  (forall url, ~ In (TabGet url) (trace_of (_fetch_and_print_articles p lim true tok fid w)))
  /\ Forall (fun c => c = TabEvaluate body_script)
       (calls (trace_of (_fetch_and_print_articles p lim true tok fid w)))
  /\ outcome_of (_fetch_and_print_articles p lim true tok fid w) = Ret tt.
Proof.
  intros Hurl.
  assert (E : exists (th : list event) (wh : W),
             _fetch_and_print_articles p lim true tok fid w = (th, wh, Ret tt)
             /\ (forall url, ~ In (TabGet url) th)
             /\ Forall (fun c => c = TabEvaluate body_script) (calls th)).
  { unfold _fetch_and_print_articles, bind, try_except, lift_exn, raise, log, emit,
      call_tab_evaluate.
    rewrite Hurl.
    destruct (tab_evaluate p body_script w) as [w' res].
    destruct res as [page|]; [destruct (sliceable page)|]; cbn [fst snd app];
      (eexists _, _; split; [reflexivity|]; split;
       [ intros url Hin; repeat (destruct Hin as [Hin | Hin]; [discriminate Hin|]);
         contradiction
       | unfold calls; cbn [filter is_call]; repeat constructor ]). }
  destruct E as (th & wh & -> & Hn & Hc). unfold trace_of, outcome_of. cbn [fst snd].
  repeat split; assumption.
Qed.

(** A fetch whose URL is built navigates to it first, and then only
    reads the page text. *)
Lemma fetch_with_url (tok fid url : string) (w : W) :
  full_url tok fid = inr url ->
  exists rest : list event,
    calls (trace_of (_fetch_and_print_articles p lim true tok fid w)) = TabGet url :: rest
    /\ Forall (fun e => e = TabEvaluate body_script) rest.
Proof.
  intros Hurl.
  unfold _fetch_and_print_articles, bind, try_except, lift_exn, log, emit, call_tab_get,
    call_tab_evaluate, raise, ret, trace_of.
  rewrite Hurl.
  destruct (tab_get p url w) as [w1 ok] eqn:Eg.
  destruct ok.
  - destruct (tab_evaluate p body_script w1) as [w2 res] eqn:Ee.
    destruct res as [content|].
    + rewrite run_emit_all.
      destruct (parse_raised (parse lim content)) as [e|] eqn:Er.
      * destruct (tab_evaluate p body_script w2) as [w3 res'] eqn:Ee'.
        destruct res' as [page|]; [destruct (sliceable page)|];
          cbn [fst snd app]; rewrite ?app_nil_r;
          (eexists; split;
           [ unfold calls; cbn [filter is_call];
             fold (calls (parse_events content (parse lim content)));
             rewrite ?filter_app; cbn [filter is_call];
             fold (calls (parse_events content (parse lim content)));
             rewrite calls_parse_events; cbn [app]; reflexivity
           | repeat constructor ]).
      * cbn [fst snd app]. rewrite ?app_nil_r.
        eexists; split;
          [ unfold calls; cbn [filter is_call];
            fold (calls (parse_events content (parse lim content)));
            rewrite calls_parse_events; reflexivity
          | repeat constructor ].
    + destruct (tab_evaluate p body_script w2) as [w3 res'] eqn:Ee'.
      destruct res' as [page|]; [destruct (sliceable page)|];
        cbn [fst snd app]; (eexists; split; [reflexivity | repeat constructor]).
  - destruct (tab_evaluate p body_script w1) as [w3 res'] eqn:Ee'.
    destruct res' as [page|]; [destruct (sliceable page)|];
      cbn [fst snd app]; (eexists; split; [reflexivity | repeat constructor]).
Qed.

End UrlFacts.




(** A token given on the command line with a byte that is not UTF-8
    reaches the program with a surrogate: the fetch navigates nowhere. *)
Example surrogate_token_is_not_fetched :
  has_surrogate surrogate_token = true
  /\ full_url surrogate_token "fid" = inl UnicodeEncodeError
  /\ calls (trace_of (fetch_articles_command (Scripted.serving example_body) default_limits
                        (Some surrogate_token) (Some "fid") 0))
     = [UcStart; DriverGet "about:blank"; TabEvaluate body_script; TabSleep 2; BrowserClose].
Proof. repeat split; vm_compute; reflexivity. Qed.

(** ** The fakeid scripts *)

Section Probes.

Context {W : Type}.
Variable p : provider W.
Variable py_str : pyval -> string.

Lemma try_fakeid_scripts_first (pre post : list string) (s : string) :
  forall (i : nat) (w w1 w2 : W) (v : pyval),
    probes_fail p pre w = Some w1 ->
    tab_evaluate p s w1 = (w2, Some v) ->
    truthy v = true ->
    exists t : list event,
      try_fakeid_scripts p py_str true i (pre ++ s :: post) w
      = (t, w2, Ret (Some (py_str v)))
      /\ calls t = map TabEvaluate (pre ++ [s]).
Proof.
  induction pre as [|x pre IH]; intros i w w1 w2 v Hpre Hs Hv.
  - cbn [probes_fail] in Hpre. injection Hpre as <-.
    cbn [app try_fakeid_scripts].
    unfold bind, try_except, call_tab_evaluate, log, emit, ret.
    rewrite Hs, Hv. eexists. split; reflexivity.
  - cbn [probes_fail] in Hpre.
    destruct (tab_evaluate p x w) as [w' r] eqn:Ex.
    assert (Hrest : probes_fail p pre w' = Some w1
                    /\ (r = None \/ exists u, r = Some u /\ truthy u = false)).
    { destruct r as [u|]; [|now split; [|left]].
      destruct (truthy u) eqn:Tu; [discriminate|].
      split; [assumption | right; now exists u]. }
    destruct Hrest as [Hrest Hr].
    destruct (IH (S i) w' w1 w2 v Hrest Hs Hv) as [t [Et Ct]].
    cbn [app try_fakeid_scripts].
    unfold bind at 1. unfold try_except, bind, call_tab_evaluate, log, emit, ret.
    rewrite Ex.
    destruct Hr as [-> | [u [-> Tu]]].
    + rewrite Et. eexists. split; [reflexivity|].
      cbn [app]. unfold calls in *. cbn [filter is_call map]. now rewrite Ct.
    + rewrite Tu, Et. eexists. split; [reflexivity|].
      cbn [app]. unfold calls in *. cbn [filter is_call map]. now rewrite Ct.
Qed.

(** When every script raises or gives a falsy result, all are evaluated
    and no fakeid is found. *)
Lemma try_fakeid_scripts_none (scripts : list string) :
  forall (i : nat) (w w1 : W),
    probes_fail p scripts w = Some w1 ->
    exists t : list event,
      try_fakeid_scripts p py_str true i scripts w = (t, w1, Ret None)
      /\ calls t = map TabEvaluate scripts.
Proof.
  induction scripts as [|x scripts IH]; intros i w w1 H.
  - cbn [probes_fail] in H. injection H as <-. exists []. split; reflexivity.
  - cbn [probes_fail] in H.
    destruct (tab_evaluate p x w) as [w' r] eqn:Ex.
    cbn [try_fakeid_scripts].
    unfold bind at 1. unfold try_except, bind, call_tab_evaluate, log, emit, ret.
    rewrite Ex.
    destruct r as [u|].
    + destruct (truthy u) eqn:Tu; [discriminate|].
      destruct (IH (S i) w' w1 H) as [t [Et Ct]]. rewrite Et.
      eexists. split; [reflexivity|].
      cbn [app]. unfold calls in *. cbn [filter is_call map]. now rewrite Ct.
    + destruct (IH (S i) w' w1 H) as [t [Et Ct]]. rewrite Et.
      eexists. split; [reflexivity|].
      cbn [app]. unfold calls in *. cbn [filter is_call map]. now rewrite Ct.
Qed.

End Probes.

(** C9. When the scripts before probe [s] all raise or give a falsy
    result and [s] gives the truthy value [v], the fakeid is [str(v)], the
    scripts evaluated are exactly those up to and including [s], in order,
    and none of the scripts after [s] is evaluated; a script that raises
    is passed over like one that gives nothing. This holds for every
    script list, and so for the list of the code. *)
Theorem first_truthy_probe_wins :
  forall (W : Type) (p : provider W) (py_str : pyval -> string)
    (pre post : list string) (s : string) (i : nat) (w w1 w2 : W) (v : pyval),
    probes_fail p pre w = Some w1 ->
    tab_evaluate p s w1 = (w2, Some v) ->
    truthy v = true ->
    outcome_of (try_fakeid_scripts p py_str true i (pre ++ s :: post) w)
    = Ret (Some (py_str v))
    /\ world_of (try_fakeid_scripts p py_str true i (pre ++ s :: post) w) = w2
    /\ calls (trace_of (try_fakeid_scripts p py_str true i (pre ++ s :: post) w))
       = map TabEvaluate (pre ++ [s])
    /\ (pre ++ s :: post = js_scripts_for_fakeid ->
        outcome_of (extract_fakeid p py_str true w) = Ret (Some (py_str v))
        /\ calls (trace_of (extract_fakeid p py_str true w))
           = map TabEvaluate (pre ++ [s])).
Proof.
  intros W p py_str pre post s i w w1 w2 v Hpre Hs Hv.
  destruct (try_fakeid_scripts_first p py_str pre post s i w w1 w2 v Hpre Hs Hv)
    as [t [Et Ct]].
  rewrite Et. split; [reflexivity|]. split; [reflexivity|]. split; [exact Ct|].
  intros Hcode.
  destruct (try_fakeid_scripts_first p py_str pre post s 0 w w1 w2 v Hpre Hs Hv)
    as [t0 [Et0 Ct0]].
  unfold extract_fakeid. rewrite <- Hcode. unfold bind at 1 3. rewrite Et0.
  unfold bind, log, emit, ret, outcome_of, trace_of.
  destruct (negb (str_truthy (Some (py_str v)))); cbn [fst snd]; (split; [reflexivity|]);
    rewrite calls_app, Ct0; cbn [calls filter is_call app]; now rewrite app_nil_r.
Qed.

(** The first script raises, the second gives [null], the third gives
    "3094": the fakeid is "3094" and three scripts were evaluated. *)
Lemma first_truthy_probe_wins_witness :
  outcome_of (extract_fakeid Scripted.third_probe_browser Scripted.str_of true 0)
  = Ret (Some "3094")
  /\ calls (trace_of (extract_fakeid Scripted.third_probe_browser Scripted.str_of true 0))
     = map TabEvaluate js_scripts_for_fakeid.
Proof.
  apply (first_truthy_probe_wins nat Scripted.third_probe_browser Scripted.str_of
           (firstn 2 js_scripts_for_fakeid) [] (nth 2 js_scripts_for_fakeid "")
           0 0 0 0 (PStr "3094"));
    vm_compute; reflexivity.
Defined.

(** ** The wait for the login *)

Section WaitLoop.

Lemma polls_app (t1 t2 : list event) : polls (t1 ++ t2) = polls t1 + polls t2.
Proof. unfold polls. now rewrite filter_app, length_app. Qed.

Lemma polls_failed_passes (n : nat) : polls (concat (repeat failed_pass n)) = n.
Proof.
  induction n as [|n IH]; [reflexivity|].
  cbn [repeat concat]. rewrite polls_app, IH. reflexivity.
Qed.

(** With a [tab.sleep] that always raises, every pass leaves the counter
    where it was, and the loop is still running after any number of
    passes. *)
Lemma broken_sleep_loop (steps : nat) :
  forall (a w : nat),
    a < max_login_check_attempts ->
    login_wait_loop Scripted.broken_sleep_browser steps true false a w
    = (concat (repeat failed_pass steps), steps + w, Diverge).
Proof.
  induction steps as [|steps IH]; intros a w Ha.
  - cbn [login_wait_loop]. rewrite (proj2 (Nat.ltb_lt _ _) Ha). reflexivity.
  - cbn [login_wait_loop]. rewrite (proj2 (Nat.ltb_lt _ _) Ha). cbn [negb andb].
    unfold bind at 1.
    assert (Eb : login_wait_body Scripted.broken_sleep_browser true a w
                 = (failed_pass, S w, Ret (false, a))) by reflexivity.
    rewrite Eb. cbn [fst snd]. rewrite (IH a (S w) Ha).
    cbn [repeat concat]. f_equal. f_equal. lia.
Qed.

(** When no sleep and no address read fails, the loop ends within
    [max_login_check_attempts] passes: logged in, or with the attempts
    used up. *)
Lemma login_wait_loop_ends_without_failures (W : Type) (p : provider W) :
  (forall w, snd (tab_sleep p 1 w) = true) ->
  (forall w, exists u, tab_url p w = UrlStr u) ->
  forall (steps a : nat) (w : W),
    a <= max_login_check_attempts ->
    max_login_check_attempts - a <= steps ->
    exists (t : list event) (w' : W) (logged_in : bool) (a' : nat),
      login_wait_loop p steps true false a w = (t, w', Ret (logged_in, a'))
      /\ (logged_in = true \/ a' = max_login_check_attempts)
      /\ polls t <= max_login_check_attempts - a.
Proof.
  intros Hsleep Hurl. induction steps as [|steps IH]; intros a w Ha Hsteps.
  - assert (a = max_login_check_attempts) as -> by lia.
    exists [], w, false, max_login_check_attempts.
    cbn [login_wait_loop]. rewrite Nat.ltb_irrefl.
    split; [reflexivity|]. split; [now right|]. unfold polls. cbn. lia.
  - cbn [login_wait_loop].
    destruct (Nat.ltb_spec a max_login_check_attempts) as [Hlt | Hge].
    + cbn [negb andb]. unfold bind at 1.
      unfold login_wait_body, try_except, bind, call_tab_sleep, read_tab_url,
        log, emit, ret.
      specialize (Hsleep w). destruct (tab_sleep p 1 w) as [w1 ok].
      cbn [snd] in Hsleep. subst ok.
      destruct (Hurl w1) as [u Hu]. rewrite Hu.
      destruct (contains home_marker u).
      * cbn [fst snd app]. destruct steps; cbn [login_wait_loop negb andb];
          (eexists _, _, true, a; split; [reflexivity|]; split; [now left|]);
          unfold polls; cbn [filter is_poll length app]; lia.
      * destruct (IH (S a) w1 ltac:(lia) ltac:(lia)) as (t & w' & li & a' & El & Hend & Hp).
        destruct ((S a mod 20 =? 0)%nat); cbn [fst snd app]; rewrite El;
          (eexists _, _, li, a'; split; [reflexivity|]; split; [exact Hend|]);
          rewrite ?app_nil_r; cbn [app]; unfold polls in *; cbn [filter is_poll length];
          lia.
    + assert (a = max_login_check_attempts) as -> by lia.
      exists [], w, false, max_login_check_attempts.
      split; [reflexivity|]. split; [now right|]. unfold polls. cbn. lia.
Qed.

End WaitLoop.

(** C1, on a session whose every [tab.sleep(1)] raises: the handler of
    the loop logs the exception, sleeps and leaves
    [login_check_attempts] unchanged, so for every number of passes
    followed the loop is still running: [do_login_flow] has returned
    neither a login nor a timeout, and the passes made are as many as
    were followed, more than [max_login_check_attempts] as soon as more
    are followed. *)
Theorem failing_polls_never_end :
  forall steps : nat,
    outcome_of (do_login_flow Scripted.broken_sleep_browser Scripted.str_of steps 0)
    = Diverge
    /\ polls (trace_of (do_login_flow Scripted.broken_sleep_browser Scripted.str_of steps 0))
       = steps.
Proof.
  intros steps.
  assert (E : do_login_flow Scripted.broken_sleep_browser Scripted.str_of steps 0
              = ([ Log INFO "Launching browser for login..." []; UcStart;
                   DriverGet login_url;
                   Log INFO
                     "Please scan the QR code on the WeChat MP login page (within 2 minutes)."
                     [] ]
                   ++ concat (repeat failed_pass steps), steps + 0, Diverge)).
  { unfold do_login_flow, try_except, with_browser, finally, login_session.
    unfold bind at 1 2 3 4 5. unfold try_except, bind, call_uc_start, call_driver_get,
      log, emit, ret. cbn [Scripted.broken_sleep_browser Scripted.browser uc_start
      driver_get fst snd app].
    rewrite (broken_sleep_loop steps 0 0 ltac:(unfold max_login_check_attempts; lia)).
    reflexivity. }
  rewrite E. split; [reflexivity|].
  unfold trace_of. cbn [fst]. rewrite polls_app, polls_failed_passes. reflexivity.
Qed.

(** With one address read that gives [None], on a session that stays on
    the login page, the loop makes 121 passes before the timeout. *)
Example one_failed_read_adds_a_pass :
  outcome_of (do_login_flow Scripted.flaky_browser Scripted.str_of 121 0) = Ret None
  /\ polls (trace_of (do_login_flow Scripted.flaky_browser Scripted.str_of 121 0)) = 121
  /\ outcome_of (do_login_flow Scripted.flaky_browser Scripted.str_of 120 0) = Diverge.
Proof. repeat split; vm_compute; reflexivity. Qed.

(** On a session that stays on the login page and never fails, the
    timeout comes after 120 passes. *)
Example idle_session_times_out :
  outcome_of (do_login_flow Scripted.idle_browser Scripted.str_of 120 0) = Ret None
  /\ polls (trace_of (do_login_flow Scripted.idle_browser Scripted.str_of 120 0)) = 120.
Proof. repeat split; vm_compute; reflexivity. Qed.

(** The session of [test_do_login_flow_success] gives the result the test
    asserts. *)
Example mock_login_succeeds :
  outcome_of (do_login_flow Scripted.mock_browser Scripted.str_of 1 0)
  = Ret (Some {| token := "mocktoken123"; fakeid := "fakeid_12345";
                 nickname := PStr "Test User" |}).
Proof. vm_compute. reflexivity. Qed.
(** * What a login returns and what it went through *)

(** What a computation that returns went through. *)
Section Inversion.

Context {W : Type}.

Lemma outcome_bind {A B : Type} (m : M W A) (k : A -> M W B) (w : W) (b : B) :
  outcome_of (bind m k w) = Ret b ->
  exists (a : A) (w1 : W), outcome_of (m w) = Ret a /\ outcome_of (k a w1) = Ret b.
Proof.
  unfold bind, outcome_of. destruct (m w) as [[t1 w1] o]. destruct o as [a| |].
  - destruct (k a w1) as [[t2 w2] o2] eqn:Ek. cbn [snd]. intros ->.
    exists a, w1. rewrite Ek. split; reflexivity.
  - discriminate.
  - discriminate.
Qed.

Lemma outcome_try_except {A : Type} (m : M W A) (h : exn -> M W A) (w : W) (a : A) :
  outcome_of (try_except m h w) = Ret a ->
  outcome_of (m w) = Ret a
  \/ exists (e : exn) (w1 : W), outcome_of (h e w1) = Ret a.
Proof.
  unfold try_except, outcome_of. destruct (m w) as [[t1 w1] o]. destruct o as [x|e|].
  - now left.
  - destruct (h e w1) as [[t2 w2] o2] eqn:Eh. cbn [snd]. intros ->.
    right. exists e, w1. now rewrite Eh.
  - discriminate.
Qed.

Lemma outcome_finally {A : Type} (m : M W A) (c : M W unit) (w : W) (a : A) :
  outcome_of (finally m c w) = Ret a -> outcome_of (m w) = Ret a.
Proof.
  unfold finally, outcome_of. destruct (m w) as [[t1 w1] o].
  destruct o as [x|e|]; try discriminate; destruct (c w1) as [[t2 w2] o2]; trivial.
Qed.

Lemma outcome_ret {A : Type} (x a : A) (w : W) :
  outcome_of (ret x w) = Ret a -> x = a.
Proof. unfold ret, outcome_of. cbn. congruence. Qed.

Variable p : provider W.
Variable py_str : pyval -> string.

Lemma extract_login_info_composed (tab : bool) (w : W) (r : option login_info) :
  outcome_of (extract_login_info p py_str tab w) = Ret r ->
  exists (tok fid : option string) (nick : pyval),
    r = fst (compose_login_info tok fid nick).
Proof.
  unfold extract_login_info. intros H.
  apply outcome_bind in H as (_ & w1 & _ & H).
  apply outcome_bind in H as (url & w2 & _ & H).
  apply outcome_bind in H as (tok & w3 & _ & H).
  apply outcome_bind in H as (fid & w4 & _ & H).
  apply outcome_bind in H as (nick & w5 & _ & H).
  exists tok, fid, nick.
  destruct (compose_login_info tok fid nick) as [info record].
  apply outcome_bind in H as (_ & w6 & _ & H).
  apply outcome_bind in H as (_ & w7 & _ & H).
  apply outcome_bind in H as (_ & w8 & _ & H).
  apply outcome_ret in H. now subst.
Qed.

Lemma login_session_composed (steps : nat) (w : W) (f : flow) :
  outcome_of (login_session p py_str steps w) = Ret f ->
  f = Return None
  \/ exists (tok fid : option string) (nick : pyval),
       f = Next (fst (compose_login_info tok fid nick)).
Proof.
  unfold login_session. intros H.
  apply outcome_bind in H as (opened & w1 & _ & H).
  destruct opened as [tab|].
  - apply outcome_bind in H as (st & w2 & _ & H).
    destruct (negb (fst st)).
    + apply outcome_bind in H as (_ & w3 & _ & H). apply outcome_ret in H. now left.
    + apply outcome_bind in H as (info & w3 & Hi & H). apply outcome_ret in H.
      apply extract_login_info_composed in Hi as (tok & fid & nick & ->).
      right. now exists tok, fid, nick.
  - apply outcome_ret in H. now left.
Qed.

Lemma do_login_flow_composed (steps : nat) (w : W) (info : login_info) :
  outcome_of (do_login_flow p py_str steps w) = Ret (Some info) ->
  exists (tok fid : option string) (nick : pyval),
    Some info = fst (compose_login_info tok fid nick).
Proof.
  unfold do_login_flow. intros H.
  apply outcome_try_except in H as [H | (e & w1 & H)].
  - apply outcome_bind in H as (_ & w1 & _ & H).
    apply outcome_bind in H as (f & w2 & Hf & H).
    unfold with_browser in Hf.
    apply outcome_bind in Hf as (_ & w3 & _ & Hf).
    apply outcome_finally in Hf.
    apply login_session_composed in Hf as [-> | (tok & fid & nick & ->)].
    + apply outcome_ret in H. discriminate.
    + apply outcome_bind in H as (_ & w4 & _ & H). apply outcome_ret in H.
      now exists tok, fid, nick.
  - apply outcome_bind in H as (_ & w2 & _ & H). apply outcome_ret in H. discriminate.
Qed.

End Inversion.

(** * Properties of whole runs *)

(** ** How the observations go through the combinators *)

Section Closure.

Context {W : Type}.

Lemma run_split {A : Type} (r : list event * W * outcome A) :
  r = (trace_of r, world_of r, outcome_of r).
Proof. now destruct r as [[t w] o]. Qed.

Lemma writes_only_ret {A : Type} (P : event -> bool) (a : A) :
  writes_only P (@ret W A a).
Proof. intros w. reflexivity. Qed.

Lemma writes_only_raise {A : Type} (P : event -> bool) (e : exn) :
  writes_only P (@raise W A e).
Proof. intros w. reflexivity. Qed.

Lemma writes_only_diverge {A : Type} (P : event -> bool) :
  writes_only P (@diverge W A).
Proof. intros w. reflexivity. Qed.

Lemma writes_only_emit (P : event -> bool) (e : event) :
  P e = true -> writes_only P (@emit W e).
Proof. intros H w. unfold emit, trace_of. cbn. now rewrite H. Qed.

Lemma writes_only_log (P : event -> bool) (lvl : level) (msg : string)
  (args : list pyval) :
  P (Log lvl msg args) = true -> writes_only P (@log W lvl msg args).
Proof. apply writes_only_emit. Qed.

Lemma writes_only_bind {A B : Type} (P : event -> bool) (m : M W A) (k : A -> M W B) :
  writes_only P m -> (forall a, writes_only P (k a)) -> writes_only P (bind m k).
Proof.
  intros Hm Hk w. specialize (Hm w). unfold bind, trace_of in *.
  destruct (m w) as [[t1 w1] o]. destruct o as [a| |]; trivial.
  specialize (Hk a w1). unfold trace_of in Hk.
  destruct (k a w1) as [[t2 w2] o2]. cbn [fst] in *.
  rewrite forallb_app. now rewrite Hm, Hk.
Qed.

Lemma writes_only_try_except {A : Type} (P : event -> bool) (m : M W A)
  (h : exn -> M W A) :
  writes_only P m -> (forall e, writes_only P (h e)) -> writes_only P (try_except m h).
Proof.
  intros Hm Hh w. specialize (Hm w). unfold try_except, trace_of in *.
  destruct (m w) as [[t1 w1] o]. destruct o as [a|e|]; trivial.
  specialize (Hh e w1). unfold trace_of in Hh.
  destruct (h e w1) as [[t2 w2] o2]. cbn [fst] in *.
  rewrite forallb_app. now rewrite Hm, Hh.
Qed.

Lemma writes_only_lift_exn {A : Type} (P : event -> bool) (m : exn + A) :
  writes_only P (@lift_exn W A m).
Proof. intros w. now destruct m. Qed.

(** What follows a computation lifted into the run sees its value. *)
Lemma writes_only_lift_bind {A B : Type} (P : event -> bool) (m : exn + A)
  (k : A -> M W B) :
  (forall a, m = inr a -> writes_only P (k a)) -> writes_only P (bind (lift_exn m) k).
Proof.
  intros H w. destruct m as [e|a]; [reflexivity|].
  specialize (H a eq_refl w). unfold bind, lift_exn, ret, trace_of in *.
  now destruct (k a w) as [[t2 w2] o2].
Qed.

Lemma writes_only_emit_all (P : event -> bool) (es : list event) :
  forallb P es = true -> writes_only P (@emit_all W es).
Proof. intros H w. now rewrite run_emit_all. Qed.

Lemma never_diverges_ret {A : Type} (a : A) : never_diverges (@ret W A a).
Proof. intros w. discriminate. Qed.

Lemma never_diverges_raise {A : Type} (e : exn) : never_diverges (@raise W A e).
Proof. intros w. discriminate. Qed.

Lemma never_diverges_emit (e : event) : never_diverges (@emit W e).
Proof. intros w. discriminate. Qed.

Lemma never_diverges_log (lvl : level) (msg : string) (args : list pyval) :
  never_diverges (@log W lvl msg args).
Proof. intros w. discriminate. Qed.

Lemma never_diverges_bind {A B : Type} (m : M W A) (k : A -> M W B) :
  never_diverges m -> (forall a, never_diverges (k a)) -> never_diverges (bind m k).
Proof.
  intros Hm Hk w. specialize (Hm w). unfold bind, outcome_of in *.
  destruct (m w) as [[t1 w1] o]. destruct o as [a|e|].
  - specialize (Hk a w1). unfold outcome_of in Hk. now destruct (k a w1) as [[t2 w2] o2].
  - discriminate.
  - now contradiction Hm.
Qed.

Lemma never_diverges_try_except {A : Type} (m : M W A) (h : exn -> M W A) :
  never_diverges m -> (forall e, never_diverges (h e)) -> never_diverges (try_except m h).
Proof.
  intros Hm Hh w. specialize (Hm w). unfold try_except, outcome_of in *.
  destruct (m w) as [[t1 w1] o]. destruct o as [a|e|]; trivial.
  specialize (Hh e w1). unfold outcome_of in Hh. now destruct (h e w1) as [[t2 w2] o2].
Qed.

Lemma never_diverges_finally {A : Type} (m : M W A) (c : M W unit) :
  never_diverges m -> never_diverges (finally m c).
Proof.
  intros Hm w. specialize (Hm w). unfold finally, outcome_of in *.
  destruct (m w) as [[t1 w1] o].
  destruct o as [a|e|]; trivial; now destruct (c w1) as [[t2 w2] o2].
Qed.

Lemma never_diverges_lift_exn {A : Type} (m : exn + A) : never_diverges (@lift_exn W A m).
Proof. intros w. destruct m; discriminate. Qed.

Lemma never_diverges_emit_all (es : list event) : never_diverges (@emit_all W es).
Proof. intros w. rewrite run_emit_all. discriminate. Qed.

Lemma always_returns_ret {A : Type} (a : A) : always_returns (@ret W A a).
Proof. intros w. now exists a. Qed.

Lemma always_returns_log (lvl : level) (msg : string) (args : list pyval) :
  always_returns (@log W lvl msg args).
Proof. intros w. now exists tt. Qed.

Lemma always_returns_bind {A B : Type} (m : M W A) (k : A -> M W B) :
  always_returns m -> (forall a, always_returns (k a)) -> always_returns (bind m k).
Proof.
  intros Hm Hk w. destruct (Hm w) as [a Ha]. unfold bind, outcome_of in *.
  destruct (m w) as [[t1 w1] o]. cbn [snd] in Ha. subst o.
  destruct (Hk a w1) as [b Hb]. unfold outcome_of in Hb.
  destruct (k a w1) as [[t2 w2] o2]. now exists b.
Qed.

(** A handler that always returns makes the whole [try] return, as long
    as the body comes to an end. *)
Lemma always_returns_try_except {A : Type} (m : M W A) (h : exn -> M W A) :
  never_diverges m -> (forall e, always_returns (h e)) ->
  always_returns (try_except m h).
Proof.
  intros Hm Hh w. specialize (Hm w). unfold try_except, outcome_of in *.
  destruct (m w) as [[t1 w1] o]. destruct o as [a|e|].
  - now exists a.
  - destruct (Hh e w1) as [b Hb]. unfold outcome_of in Hb.
    destruct (h e w1) as [[t2 w2] o2]. now exists b.
  - now contradiction Hm.
Qed.

(** A handler that never raises keeps every exception in. *)
Lemma never_raises_try_except {A : Type} (m : M W A) (h : exn -> M W A) :
  (forall e, never_raises (h e)) -> never_raises (try_except m h).
Proof.
  intros Hh w e. unfold try_except, outcome_of.
  destruct (m w) as [[t1 w1] o]. destruct o as [a|e'|]; try discriminate.
  specialize (Hh e' w1 e). unfold outcome_of in Hh.
  now destruct (h e' w1) as [[t2 w2] o2].
Qed.

Lemma never_raises_bind {A B : Type} (m : M W A) (k : A -> M W B) :
  never_raises m -> (forall a, never_raises (k a)) -> never_raises (bind m k).
Proof.
  intros Hm Hk w e. specialize (Hm w). unfold bind, outcome_of in *.
  destruct (m w) as [[t1 w1] o]. destruct o as [a|e'|].
  - specialize (Hk a w1 e). unfold outcome_of in Hk. now destruct (k a w1) as [[t2 w2] o2].
  - now contradiction (Hm e').
  - discriminate.
Qed.

Lemma always_returns_never_raises {A : Type} (m : M W A) :
  always_returns m -> never_raises m.
Proof. intros H w e. destruct (H w) as [a Ha]. rewrite Ha. discriminate. Qed.

Lemma always_returns_never_diverges {A : Type} (m : M W A) :
  always_returns m -> never_diverges m.
Proof. intros H w. destruct (H w) as [a Ha]. rewrite Ha. discriminate. Qed.

Variable p : provider W.

(** The calls on the driver write their one event and come to an end. *)

Lemma writes_only_tab_sleep (P : event -> bool) (tab : bool) (n : nat) :
  P (TabSleep n) = true -> writes_only P (call_tab_sleep p tab n).
Proof.
  intros H w. unfold call_tab_sleep. destruct tab; [|reflexivity].
  destruct (tab_sleep p n w) as [w' ok]. unfold trace_of. cbn. now rewrite H.
Qed.

Lemma writes_only_tab_evaluate (P : event -> bool) (tab : bool) (s : string) :
  P (TabEvaluate s) = true -> writes_only P (call_tab_evaluate p tab s).
Proof.
  intros H w. unfold call_tab_evaluate. destruct tab; [|reflexivity].
  destruct (tab_evaluate p s w) as [w' r]. unfold trace_of. cbn. now rewrite H.
Qed.

Lemma writes_only_tab_get (P : event -> bool) (tab : bool) (u : string) :
  P (TabGet u) = true -> writes_only P (call_tab_get p tab u).
Proof.
  intros H w. unfold call_tab_get. destruct tab; [|reflexivity].
  destruct (tab_get p u w) as [w' ok]. unfold trace_of. cbn. now rewrite H.
Qed.

Lemma writes_only_driver_get (P : event -> bool) (u : string) :
  P (DriverGet u) = true -> writes_only P (call_driver_get p u).
Proof.
  intros H w. unfold call_driver_get.
  destruct (driver_get p u w) as [w' r]. unfold trace_of. cbn. now rewrite H.
Qed.

Lemma writes_only_read_tab_url (P : event -> bool) (tab : bool) :
  writes_only P (read_tab_url p tab).
Proof. intros w. unfold read_tab_url. now destruct tab. Qed.

Lemma never_diverges_tab_sleep (tab : bool) (n : nat) :
  never_diverges (call_tab_sleep p tab n).
Proof.
  intros w. unfold call_tab_sleep. destruct tab; [|discriminate].
  destruct (tab_sleep p n w) as [w' ok]. unfold outcome_of. cbn. now destruct ok.
Qed.

Lemma never_diverges_tab_evaluate (tab : bool) (s : string) :
  never_diverges (call_tab_evaluate p tab s).
Proof.
  intros w. unfold call_tab_evaluate. destruct tab; [|discriminate].
  destruct (tab_evaluate p s w) as [w' r]. unfold outcome_of. cbn. now destruct r.
Qed.

Lemma never_diverges_tab_get (tab : bool) (u : string) :
  never_diverges (call_tab_get p tab u).
Proof.
  intros w. unfold call_tab_get. destruct tab; [|discriminate].
  destruct (tab_get p u w) as [w' ok]. unfold outcome_of. cbn. now destruct ok.
Qed.

Lemma never_diverges_driver_get (u : string) : never_diverges (call_driver_get p u).
Proof.
  intros w. unfold call_driver_get.
  destruct (driver_get p u w) as [w' r]. unfold outcome_of. cbn. now destruct r.
Qed.

Lemma never_diverges_read_tab_url (tab : bool) : never_diverges (read_tab_url p tab).
Proof.
  intros w. unfold read_tab_url. destruct tab; [|discriminate].
  unfold outcome_of. cbn. now destruct (tab_url p w).
Qed.

End Closure.

(** Tactics that walk a computation through its binds, handlers and
    tests, closing each leaf with the lemma for it. *)
Ltac next_binder :=
  lazymatch goal with
  | |- writes_only _ _ => fail
  | |- never_diverges _ => fail
  | |- always_returns _ => fail
  | |- never_raises _ => fail
  | |- forall _, _ => intro
  end.

Ltac writes :=
  repeat first
    [ next_binder
    | progress cbv zeta
    | apply writes_only_bind
    | apply writes_only_try_except
    | apply writes_only_ret
    | apply writes_only_raise
    | apply writes_only_diverge
    | apply writes_only_lift_exn
    | apply writes_only_read_tab_url
    | apply writes_only_log; reflexivity
    | apply writes_only_emit; reflexivity
    | apply writes_only_tab_sleep; reflexivity
    | apply writes_only_tab_evaluate; reflexivity
    | apply writes_only_tab_get; (reflexivity || apply String.eqb_refl)
    | apply writes_only_driver_get; reflexivity
    | match goal with
      | |- writes_only _ (match ?x with _ => _ end) => destruct x
      | |- writes_only _ (if ?b then _ else _) => destruct b
      end ].

Ltac ends :=
  repeat first
    [ next_binder
    | progress cbv zeta
    | apply never_diverges_bind
    | apply never_diverges_try_except
    | apply never_diverges_finally
    | apply never_diverges_ret
    | apply never_diverges_raise
    | apply never_diverges_log
    | apply never_diverges_emit
    | apply never_diverges_emit_all
    | apply never_diverges_lift_exn
    | apply never_diverges_read_tab_url
    | apply never_diverges_tab_sleep
    | apply never_diverges_tab_evaluate
    | apply never_diverges_tab_get
    | apply never_diverges_driver_get
    | match goal with
      | |- never_diverges (match ?x with _ => _ end) => destruct x
      | |- never_diverges (if ?b then _ else _) => destruct b
      end ].

Ltac returns :=
  repeat first
    [ next_binder
    | progress cbv zeta
    | apply always_returns_bind
    | apply always_returns_ret
    | apply always_returns_log
    | apply always_returns_try_except; [ends|]
    | match goal with
      | |- always_returns (match ?x with _ => _ end) => destruct x
      | |- always_returns (if ?b then _ else _) => destruct b
      end ].

(** ** The browser is started once and closed once *)

Section Lifecycle.

Context {W : Type}.
Variable p : provider W.
Variable py_str : pyval -> string.
Variable lim : limits.

Lemma forallb_calls (P : event -> bool) (t : list event) :
  forallb P t = true -> forallb P (calls t) = true.
Proof.
  intros H. apply forallb_forall. intros e He.
  apply filter_In in He as [He _]. now apply (proj1 (forallb_forall P t) H).
Qed.

Lemma never_diverges_uc_start : never_diverges (call_uc_start p).
Proof.
  intros w. unfold call_uc_start. destruct (uc_start p w) as [w' ok].
  unfold outcome_of. cbn. now destruct ok.
Qed.

Lemma never_diverges_with_browser {A : Type} (body : M W A) :
  never_diverges body -> never_diverges (with_browser p body).
Proof.
  intros H. unfold with_browser. apply never_diverges_bind.
  - apply never_diverges_uc_start.
  - intros _. now apply never_diverges_finally.
Qed.

(** The run of an [async with] block: nothing but the failed start when
    [uc.start] raises; otherwise the start, the body, and the close unless
    the body is still running. *)
Lemma with_browser_run {A : Type} (body : M W A) (w : W) :
  with_browser p body w
  = if snd (uc_start p w) then
      match outcome_of (body (fst (uc_start p w))) with
      | Diverge =>
          (UcStart :: trace_of (body (fst (uc_start p w))),
           world_of (body (fst (uc_start p w))), Diverge)
      | o =>
          (UcStart :: trace_of (body (fst (uc_start p w))) ++ [BrowserClose],
           browser_close p (world_of (body (fst (uc_start p w)))), o)
      end
    else ([UcStart], fst (uc_start p w), Raise (DriverError "uc.start")).
Proof.
  unfold with_browser, bind, finally, call_uc_start, close_browser, trace_of,
    world_of, outcome_of.
  destruct (uc_start p w) as [w1 ok]. destruct ok; cbn [fst snd]; [|reflexivity].
  destruct (body w1) as [[t w2] o]. destruct o; reflexivity.
Qed.

Lemma compose_login_info_logs (tok fid : option string) (nick : pyval) :
  is_call (snd (compose_login_info tok fid nick)) = false.
Proof.
  unfold compose_login_info.
  destruct tok, fid; try reflexivity.
  destruct (str_truthy _ && str_truthy _ && truthy nick); [reflexivity|].
  now destruct (str_truthy _ && str_truthy _).
Qed.

Lemma login_event_log (e : event) : is_call e = false -> login_event e = true.
Proof. now destruct e. Qed.

Lemma writes_login_wait_body (tab : bool) (a : nat) :
  writes_only login_event (login_wait_body p tab a).
Proof. unfold login_wait_body. writes. Qed.

Lemma writes_login_wait_loop (steps : nat) :
  forall (tab logged_in : bool) (a : nat),
    writes_only login_event (login_wait_loop p steps tab logged_in a).
Proof.
  induction steps as [|steps IH]; intros tab logged_in a; cbn [login_wait_loop];
    destruct (negb logged_in && (a <? max_login_check_attempts)%nat); writes;
    apply IH.
Qed.

Lemma writes_extract_token (u : option string) :
  writes_only login_event (@extract_token W u).
Proof. unfold extract_token. writes. Qed.

Lemma writes_try_fakeid_scripts (P : event -> bool) (tab : bool)
  (scripts : list string) :
  (forall lvl msg args, P (Log lvl msg args) = true) ->
  (forall s, In s scripts -> P (TabEvaluate s) = true) ->
  forall i : nat, writes_only P (try_fakeid_scripts p py_str tab i scripts).
Proof.
  intros Hlog. induction scripts as [|s scripts IH]; intros Hs i; cbn [try_fakeid_scripts].
  - apply writes_only_ret.
  - apply writes_only_bind.
    + apply writes_only_try_except.
      * apply writes_only_bind.
        -- apply writes_only_tab_evaluate. apply Hs. now left.
        -- intros result. destruct (truthy result); [|apply writes_only_ret].
           apply writes_only_bind; [apply writes_only_log, Hlog|].
           intros _. apply writes_only_ret.
      * intros e. apply writes_only_bind; [apply writes_only_log, Hlog|].
        intros _. apply writes_only_ret.
    + intros [f|]; [apply writes_only_ret|]. apply IH. intros s' H'. apply Hs. now right.
Qed.

Lemma writes_extract_fakeid (tab : bool) :
  writes_only login_event (extract_fakeid p py_str tab).
Proof.
  unfold extract_fakeid. apply writes_only_bind.
  - apply writes_try_fakeid_scripts; [reflexivity|].
    intros s Hs. cbn [login_event]. apply existsb_exists. exists s.
    split; [apply in_or_app; now left | apply String.eqb_refl].
  - writes.
Qed.

Lemma writes_extract_nickname (tab : bool) :
  writes_only login_event (extract_nickname p tab).
Proof. unfold extract_nickname. writes. Qed.

Lemma writes_extract_login_info (tab : bool) :
  writes_only login_event (extract_login_info p py_str tab).
Proof.
  unfold extract_login_info.
  apply writes_only_bind; [writes|]. intros _.
  apply writes_only_bind; [writes|]. intros u.
  apply writes_only_bind; [apply writes_extract_token|]. intros tok.
  apply writes_only_bind; [apply writes_extract_fakeid|]. intros fid.
  apply writes_only_bind; [apply writes_extract_nickname|]. intros nick.
  pose proof (compose_login_info_logs tok fid nick) as Hc.
  destruct (compose_login_info tok fid nick) as [info record]. cbn [snd] in Hc.
  apply writes_only_bind; [apply writes_only_emit, login_event_log, Hc|].
  writes.
Qed.

(** Between the start and the close of the browser a login writes log
    records, opens the login page, sleeps, and evaluates the fakeid and
    nickname scripts, and nothing else. *)
Lemma writes_login_session (steps : nat) :
  writes_only login_event (login_session p py_str steps).
Proof.
  unfold login_session. apply writes_only_bind; [writes|].
  intros [tab|]; [|writes].
  apply writes_only_bind; [apply writes_login_wait_loop|].
  intros st. destruct (negb (fst st)); [writes|].
  apply writes_only_bind; [apply writes_extract_login_info | writes].
Qed.

(** [do_login_flow] adds log records only around its [async with]. *)
Lemma do_login_flow_around (steps : nat) (w : W) :
  calls (trace_of (do_login_flow p py_str steps w))
  = calls (trace_of (with_browser p (login_session p py_str steps) w))
  /\ (outcome_of (do_login_flow p py_str steps w) = Diverge
      <-> outcome_of (with_browser p (login_session p py_str steps) w) = Diverge)
  /\ (forall e, outcome_of (with_browser p (login_session p py_str steps) w) = Raise e ->
      outcome_of (do_login_flow p py_str steps w) = Ret None)
  /\ (forall e, outcome_of (do_login_flow p py_str steps w) <> Raise e).
Proof.
  unfold do_login_flow, try_except, bind, log, emit, ret, trace_of, outcome_of.
  destruct (with_browser p (login_session p py_str steps) w) as [[t w'] o].
  destruct o as [[r|i]|e|]; cbn [fst snd app]; unfold calls; cbn [filter is_call];
    rewrite ?filter_app; cbn [filter is_call]; rewrite ?app_nil_r;
    (split; [reflexivity|]); (split; [split; intros H; (discriminate H || reflexivity)|]);
    (split; [intros e' H; (discriminate H || reflexivity) | intros e'; discriminate]).
Qed.

(** Whatever happens in it, the fetch comes back: the handler around it
    catches every exception, and its own attempt to read the page is
    guarded too. *)
Lemma always_returns_fetch_and_print (tab : bool) (tok fid : string) :
  always_returns (_fetch_and_print_articles p lim tab tok fid).
Proof. unfold _fetch_and_print_articles. returns. Qed.

Lemma forallb_parse_events (P : event -> bool) (c : pyval) (r : parse_result) :
  (forall e, is_call e = false -> P e = true) ->
  forallb P (parse_events c r) = true.
Proof.
  intros HP. apply forallb_forall. intros e He. apply HP.
  destruct (is_call e) eqn:Ec; [|reflexivity].
  assert (Hin : In e (calls (parse_events c r))) by (apply filter_In; now split).
  rewrite calls_parse_events in Hin. contradiction.
Qed.

Lemma fetch_event_log (tok fid : string) (e : event) :
  is_call e = false -> fetch_event tok fid e = true.
Proof. now destruct e. Qed.

Lemma writes_fetch_and_print (tok fid : string) :
  writes_only (fetch_event tok fid) (_fetch_and_print_articles p lim true tok fid).
Proof.
  unfold _fetch_and_print_articles.
  apply writes_only_bind; [writes|]. intros _.
  apply writes_only_try_except; [|writes].
  apply writes_only_lift_bind. intros url Hurl.
  apply writes_only_bind; [writes|]. intros _.
  apply writes_only_bind;
    [apply writes_only_tab_get; cbn [fetch_event]; rewrite Hurl; apply String.eqb_refl|].
  intros _. apply writes_only_bind; [writes|]. intros c. cbv zeta.
  apply writes_only_bind;
    [apply writes_only_emit_all, forallb_parse_events, fetch_event_log | writes].
Qed.

End Lifecycle.

Section LifecycleFacts.

Context {W : Type}.
Variable p : provider W.
Variable lim : limits.

Lemma calls_bracket (t : list event) :
  calls (UcStart :: t ++ [BrowserClose]) = UcStart :: calls t ++ [BrowserClose].
Proof. unfold calls. cbn [filter is_call]. now rewrite filter_app. Qed.

(** The body of the [async with] of [fetch_articles_command]. *)
Lemma writes_fetch_session (t f : string) :
  writes_only (fetch_event t f)
    (bind (call_driver_get p "about:blank")
       (fun tab =>
          if negb tab then
            bind (log ERROR "Failed to get a browser tab for fetching articles." [])
              (fun _ => ret false)
          else
            bind (_fetch_and_print_articles p lim tab t f)
              (fun _ => bind (call_tab_sleep p tab 2) (fun _ => ret true)))).
Proof.
  apply writes_only_bind; [writes|]. intros [|]; cbn [negb]; [|writes].
  apply writes_only_bind; [apply writes_fetch_and_print | writes].
Qed.

Lemma never_diverges_fetch_session (t f : string) :
  never_diverges
    (bind (call_driver_get p "about:blank")
       (fun tab =>
          if negb tab then
            bind (log ERROR "Failed to get a browser tab for fetching articles." [])
              (fun _ => ret false)
          else
            bind (_fetch_and_print_articles p lim tab t f)
              (fun _ => bind (call_tab_sleep p tab 2) (fun _ => ret true)))).
Proof.
  apply never_diverges_bind; [ends|]. intros tab. destruct (negb tab); [ends|].
  apply never_diverges_bind; [|ends].
  apply always_returns_never_diverges, always_returns_fetch_and_print.
Qed.

End LifecycleFacts.

(** ** The composition of [login_info] *)


Section LoginInfo.

Context {W : Type}.
Variable p : provider W.
Variable py_str : pyval -> string.

(** The lines 104-111 on the three values. *)
Lemma compose_login_info_cases (tok fid : option string) (nick : pyval) :
  (fst (compose_login_info tok fid nick) = None
   <-> str_truthy tok && str_truthy fid = false)
  /\ (str_truthy tok && str_truthy fid = false ->
      snd (compose_login_info tok fid nick)
      = Log ERROR
          "Essential information (token and/or fakeid) missing after login attempt." [])
  /\ (forall info : login_info,
        fst (compose_login_info tok fid nick) = Some info ->
        tok = Some (token info) /\ fid = Some (fakeid info)
        /\ nickname info = (if truthy nick then nick else PNone)).
Proof.
  unfold compose_login_info.
  destruct tok as [t|], fid as [f|]; cbn [str_truthy andb]; rewrite ?andb_false_r;
    try (split; [split; reflexivity|]; split; [reflexivity|]; intros i Hi;
         discriminate Hi).
  destruct (negb (t =? "")), (negb (f =? "")), (truthy nick); cbn [andb fst snd];
    (split; [split; intros H; (discriminate H || reflexivity)|]);
    (split; [intros H; (discriminate H || reflexivity)|]);
    intros i Hi; try discriminate Hi; injection Hi as <-; repeat split.
Qed.

Lemma always_returns_extract_token (current_url : option string) :
  always_returns (@extract_token W current_url).
Proof. unfold extract_token. returns. Qed.

Lemma always_returns_try_fakeid_scripts (tab : bool) (scripts : list string) :
  forall i : nat, always_returns (try_fakeid_scripts p py_str tab i scripts).
Proof.
  induction scripts as [|s scripts IH]; intros i; cbn [try_fakeid_scripts];
    [apply always_returns_ret|].
  apply always_returns_bind.
  - apply always_returns_try_except; [ends | returns].
  - intros [f|]; [apply always_returns_ret | apply IH].
Qed.

Lemma always_returns_extract_fakeid (tab : bool) :
  always_returns (extract_fakeid p py_str tab).
Proof.
  unfold extract_fakeid. apply always_returns_bind;
    [apply always_returns_try_fakeid_scripts | returns].
Qed.

Lemma always_returns_extract_nickname (tab : bool) :
  always_returns (extract_nickname p tab).
Proof. unfold extract_nickname. returns. Qed.

(** Only the reading of [tab.url] can keep the three values from being
    recovered. *)
Lemma recovered_unless_url_raises (tab : bool) (w : W) :
  match outcome_of (read_tab_url p tab w) with
  | Raise e => outcome_of (recovered p py_str tab w) = Raise e
  | _ => exists v, outcome_of (recovered p py_str tab w) = Ret v
  end.
Proof.
  pose proof (never_diverges_read_tab_url p tab w) as Hnd.
  remember (recovered p py_str tab w) as run eqn:Erun.
  unfold recovered in Erun. unfold bind at 1 in Erun.
  unfold outcome_of at 1. unfold outcome_of in Hnd.
  destruct (read_tab_url p tab w) as [[t1 w1] o1]. cbn [snd] in *.
  destruct o1 as [u|e|]; [|now subst run|now contradiction Hnd].
  assert (H : always_returns
                (bind (@extract_token W u) (fun tok =>
                 bind (extract_fakeid p py_str tab) (fun fid =>
                 bind (extract_nickname p tab) (fun nick => ret (tok, fid, nick)))))).
  { apply always_returns_bind; [apply always_returns_extract_token|]. intros tok.
    apply always_returns_bind; [apply always_returns_extract_fakeid|]. intros fid.
    apply always_returns_bind; [apply always_returns_extract_nickname|]. intros nick.
    apply always_returns_ret. }
  destruct (H w1) as [v Hv]. exists v. unfold outcome_of in *.
  cbv beta iota zeta in Erun.
  destruct (bind _ _ w1) as [[t2 w2] o2]. cbn [snd] in Hv. now subst.
Qed.

(** The run of the lines 60-114, from the run that recovers the three
    values and the run of the final [tab.sleep(2)]. *)
Lemma extract_login_info_run (tab : bool) (w : W) :
  match outcome_of (recovered p py_str tab w) with
  | Ret (tok, fid, nick) =>
      trace_of (extract_login_info p py_str tab w)
      = Log INFO "Extracting information post-login..." []
        :: trace_of (recovered p py_str tab w)
        ++ snd (compose_login_info tok fid nick)
        :: Log INFO "Login flow finished. Browser will close." []
        :: trace_of (call_tab_sleep p tab 2 (world_of (recovered p py_str tab w)))
      /\ outcome_of (extract_login_info p py_str tab w)
         = match outcome_of (call_tab_sleep p tab 2 (world_of (recovered p py_str tab w))) with
           | Ret _ => Ret (fst (compose_login_info tok fid nick))
           | Raise e => Raise e
           | Diverge => Diverge
           end
  | Raise e => outcome_of (extract_login_info p py_str tab w) = Raise e
  | Diverge => outcome_of (extract_login_info p py_str tab w) = Diverge
  end.
Proof.
  unfold extract_login_info, recovered, bind, log, emit, ret, trace_of, world_of,
    outcome_of.
  destruct (read_tab_url p tab w) as [[t1 w1] o1]. destruct o1 as [u|e|]; try reflexivity.
  destruct (extract_token u w1) as [[t2 w2] o2]. destruct o2 as [tok|e|]; try reflexivity.
  destruct (extract_fakeid p py_str tab w2) as [[t3 w3] o3].
  destruct o3 as [fid|e|]; try reflexivity.
  destruct (extract_nickname p tab w3) as [[t4 w4] o4].
  destruct o4 as [nick|e|]; try reflexivity.
  cbn [fst snd]. destruct (compose_login_info tok fid nick) as [info record].
  destruct (call_tab_sleep p tab 2 w4) as [[t5 w5] o5]. cbn [fst snd].
  split; [|now destruct o5].
  destruct o5; cbn [fst snd app]; rewrite ?app_nil_r, <- ?app_assoc; reflexivity.
Qed.

End LoginInfo.



(** A login in which the token and the fakeid are recovered and the
    [tab.sleep(2)] that ends the extraction raises: [do_login_flow]
    returns [None] with the critical record, and the error on missing
    information is not among its records. *)
Example late_failure_returns_nothing :
  outcome_of (recovered Scripted.late_failure_browser Scripted.str_of true 1)
  = Ret (Some "123456", Some "3094", PNone)
  /\ outcome_of (do_login_flow Scripted.late_failure_browser Scripted.str_of 5 0) = Ret None
  /\ existsb
       (fun e =>
          match e with
          | Log CRITICAL _ _ => true
          | _ => false
          end)
       (trace_of (do_login_flow Scripted.late_failure_browser Scripted.str_of 5 0)) = true
  /\ existsb
       (fun e =>
          match e with
          | Log ERROR _ _ => true
          | _ => false
          end)
       (trace_of (do_login_flow Scripted.late_failure_browser Scripted.str_of 5 0)) = false.
Proof. repeat split; vm_compute; reflexivity. Qed.

(** X1. Whatever the browser does, no exception leaves [do_login_flow].
    When [uc.start] raises, the result is [None] and nothing else is
    called. When it succeeds, the calls are the start, then calls of the
    login only (the login page, sleeps, the fakeid and nickname scripts:
    no tab navigation, no second start), then the close of the browser as
    the last call; the close is missing only while the wait loop is still
    running. *)
Theorem do_login_flow_closes_browser :
  forall (W : Type) (p : provider W) (py_str : pyval -> string) (steps : nat) (w : W),
    (forall e : exn, outcome_of (do_login_flow p py_str steps w) <> Raise e)
    /\ (snd (uc_start p w) = false ->
        outcome_of (do_login_flow p py_str steps w) = Ret None
        /\ calls (trace_of (do_login_flow p py_str steps w)) = [UcStart])
    /\ (snd (uc_start p w) = true ->
        exists mid : list event,
          forallb login_event mid = true
          /\ calls (trace_of (do_login_flow p py_str steps w))
             = match outcome_of (do_login_flow p py_str steps w) with
               | Diverge => UcStart :: mid
               | _ => UcStart :: mid ++ [BrowserClose]
               end).
Proof.
  intros W p py_str steps w.
  destruct (do_login_flow_around p py_str steps w) as (Hc & Hd & Hr & Hn).
  split; [exact Hn|]. rewrite Hc.
  rewrite (with_browser_run p (login_session p py_str steps) w) in *.
  set (r := login_session p py_str steps (fst (uc_start p w))) in *.
  pose proof (forallb_calls _ _
                (writes_login_session p py_str steps (fst (uc_start p w)))) as Hmid.
  fold r in Hmid.
  split.
  - intros Hs. rewrite Hs in *. split; [|reflexivity].
    apply (Hr (DriverError "uc.start")). reflexivity.
  - intros Hs. rewrite Hs in *. exists (calls (trace_of r)). split; [exact Hmid|].
    destruct (outcome_of r) as [a|e|] eqn:Er.
    + destruct (outcome_of (do_login_flow p py_str steps w)) eqn:Eo;
        try apply calls_bracket.
      exfalso. destruct Hd as [Hd _]. specialize (Hd eq_refl). discriminate Hd.
    + destruct (outcome_of (do_login_flow p py_str steps w)) eqn:Eo;
        try apply calls_bracket.
      exfalso. destruct Hd as [Hd _]. specialize (Hd eq_refl). discriminate Hd.
    + destruct Hd as [_ Hd]. rewrite (Hd eq_refl). reflexivity.
Qed.

(** The session of the repository's test: six calls, the last one the
    close. *)
Lemma do_login_flow_closes_browser_witness :
  exists mid : list event,
    forallb login_event mid = true
    /\ calls (trace_of (do_login_flow Scripted.mock_browser Scripted.str_of 1 0))
       = UcStart :: mid ++ [BrowserClose].
Proof.
  destruct (do_login_flow_closes_browser nat Scripted.mock_browser Scripted.str_of 1 0)
    as (_ & _ & H).
  destruct (H eq_refl) as (mid & Hmid & Hcalls).
  exists mid. split; [exact Hmid | exact Hcalls].
Defined.

(** X2. [fetch_articles_command] always returns, whatever its arguments
    and whatever the browser does: no exception leaves it. With a token
    and a fakeid, when [uc.start] raises nothing else is called; when it
    succeeds, the calls are the start, then calls of the fetch only (the
    blank tab, the navigation to the request URL, readings of the page
    text, the final sleep), then the close of the browser as the last
    call. *)
Theorem fetch_articles_command_closes_browser :
  forall (W : Type) (p : provider W) (lim : limits) (tok fid : option string) (w : W),
    outcome_of (fetch_articles_command p lim tok fid w) = Ret tt
    /\ (forall t f : string,
          tok = Some t -> fid = Some f -> t <> "" -> f <> "" ->
          (snd (uc_start p w) = false ->
           calls (trace_of (fetch_articles_command p lim tok fid w)) = [UcStart])
          /\ (snd (uc_start p w) = true ->
              exists mid : list event,
                forallb (fetch_event t f) mid = true
                /\ calls (trace_of (fetch_articles_command p lim tok fid w))
                   = UcStart :: mid ++ [BrowserClose])).
Proof.
  intros W p lim tok fid w.
  destruct (negb (str_truthy tok) || negb (str_truthy fid)) eqn:Eg.
  - unfold fetch_articles_command. rewrite Eg.
    split; [reflexivity|]. intros t f -> -> Ht Hf. exfalso.
    cbn [str_truthy] in Eg.
    apply String.eqb_neq in Ht, Hf. rewrite Ht, Hf in Eg. discriminate Eg.
  - destruct tok as [t|], fid as [f|]; try (cbn in Eg; discriminate Eg);
      try (rewrite orb_true_r in Eg; discriminate Eg).
    remember (fetch_articles_command p lim (Some t) (Some f) w) as run eqn:Erun.
    unfold fetch_articles_command in Erun. rewrite Eg in Erun.
    match type of Erun with
    | context [with_browser p ?b] => set (body := b) in Erun
    end.
    pose proof (forallb_calls _ _ (writes_fetch_session p lim t f (fst (uc_start p w))))
      as Hmid.
    pose proof (never_diverges_fetch_session p lim t f (fst (uc_start p w))) as Hend.
    fold body in Hmid, Hend.
    unfold bind at 1 in Erun. unfold log, emit, try_except in Erun.
    unfold bind at 1 in Erun.
    rewrite (with_browser_run p body w) in Erun.
    destruct (snd (uc_start p w)).
    + destruct (body (fst (uc_start p w))) as [[tb wb] ob] eqn:Eb.
      unfold outcome_of, trace_of, world_of in *. cbn [fst snd] in *.
      destruct ob as [finished|e|]; [| |now contradiction Hend].
      * destruct finished; unfold log, emit, ret, bind in Erun;
          cbn [fst snd app] in Erun; subst run; cbn [fst snd];
          (split; [reflexivity|]); intros t' f' [= <-] [= <-] _ _;
          (split; [discriminate|]); intros _; exists (calls tb);
          (split; [exact Hmid|]);
          rewrite ?app_nil_r; unfold calls; cbn [filter is_call];
          rewrite ?filter_app; cbn [filter is_call]; now rewrite ?app_nil_r.
      * unfold log, emit, ret, bind in Erun;
          cbn [fst snd app] in Erun; subst run; cbn [fst snd];
          (split; [reflexivity|]); intros t' f' [= <-] [= <-] _ _;
          (split; [discriminate|]); intros _; exists (calls tb);
          (split; [exact Hmid|]);
          rewrite ?app_nil_r; unfold calls; cbn [filter is_call];
          rewrite ?filter_app; cbn [filter is_call]; now rewrite ?app_nil_r.
    + unfold log, emit, ret, bind in Erun. cbn [fst snd app] in Erun. subst run.
      unfold outcome_of, trace_of. cbn [fst snd].
      split; [reflexivity|]. intros t' f' _ _ _ _. split; [reflexivity|discriminate].
Qed.

(** A fetch of the example body. *)
Lemma fetch_articles_command_closes_browser_witness :
  exists mid : list event,
    forallb (fetch_event "tok" "fid") mid = true
    /\ calls (trace_of (fetch_articles_command (Scripted.serving example_body)
                          default_limits (Some "tok") (Some "fid") 0))
       = UcStart :: mid ++ [BrowserClose].
Proof.
  destruct (fetch_articles_command_closes_browser nat (Scripted.serving example_body)
              default_limits (Some "tok") (Some "fid") 0) as (_ & H).
  destruct (H "tok" "fid" eq_refl eq_refl) as (_ & H2); try discriminate.
  exact (H2 eq_refl).
Defined.

(** ** [main_cli] *)

Section CliFacts.

Context {W : Type}.
Variable p : provider W.
Variable py_str : pyval -> string.
Variable lim : limits.

(** Every call of a login is the start, the close, or a call of the login
    session. *)
Lemma do_login_flow_calls (steps : nat) (w : W) (e : event) :
  In e (calls (trace_of (do_login_flow p py_str steps w))) ->
  e = UcStart \/ e = BrowserClose \/ login_event e = true.
Proof.
  destruct (do_login_flow_around p py_str steps w) as (Hc & _). rewrite Hc.
  rewrite (with_browser_run p (login_session p py_str steps) w).
  pose proof (writes_login_session p py_str steps (fst (uc_start p w))) as Hw.
  set (r := login_session p py_str steps (fst (uc_start p w))) in *.
  assert (Hin : forall x, In x (trace_of r) -> login_event x = true)
    by (apply forallb_forall; exact Hw).
  intros He. apply filter_In in He as [He _].
  destruct (snd (uc_start p w)).
  - destruct (outcome_of r); unfold trace_of at 1 in He; cbn [fst] in He;
      destruct He as [<- | He]; auto;
      try (apply in_app_or in He as [He | [<- | []]]); auto.
  - unfold trace_of in He. cbn [fst] in He. destruct He as [<- | []]. auto.
Qed.

(** Every call of a fetch is the start, the close, or a call of the fetch
    session. *)
Lemma fetch_articles_command_calls (t f : string) (w : W) (e : event) :
  In e (calls (trace_of (fetch_articles_command p lim (Some t) (Some f) w))) ->
  e = UcStart \/ e = BrowserClose \/ fetch_event t f e = true.
Proof.
  unfold fetch_articles_command.
  destruct (negb (str_truthy (Some t)) || negb (str_truthy (Some f))).
  - intros He. apply filter_In in He as [[<- | []] Hc]. discriminate Hc.
  - match goal with
    | |- context [with_browser p ?b] => set (body := b)
    end.
    pose proof (writes_fetch_session p lim t f (fst (uc_start p w))) as Hw.
    fold body in Hw.
    assert (Hin : forall x, In x (trace_of (body (fst (uc_start p w)))) ->
                            fetch_event t f x = true)
      by (apply forallb_forall; exact Hw).
    unfold bind at 1. unfold log, emit, try_except. unfold bind at 1.
    rewrite (with_browser_run p body w).
    intros He. apply filter_In in He as [He Hc].
    destruct (snd (uc_start p w)).
    + destruct (outcome_of (body (fst (uc_start p w)))) as [fin| |];
        [destruct fin| |]; unfold ret, bind, trace_of at 1 in He;
        cbn [fst snd app] in He;
        repeat (destruct He as [<- | He]; [try discriminate Hc; auto|]);
        repeat (apply in_app_or in He as [He | He]); auto;
        repeat (destruct He as [<- | He]; [try discriminate Hc; auto|]);
        try contradiction.
    + unfold trace_of in He. cbn [fst snd app] in He.
      repeat (destruct He as [<- | He]; [try discriminate Hc; auto|]). contradiction.
Qed.

(** A login that returns a [login_info] returns a token and a fakeid. *)
Lemma do_login_flow_identifiers (steps : nat) (w : W) (d : login_info) :
  outcome_of (do_login_flow p py_str steps w) = Ret (Some d) ->
  str_truthy (Some (token d)) && str_truthy (Some (fakeid d)) = true.
Proof.
  intros H. apply do_login_flow_composed in H as (tok & fid & nick & H).
  unfold compose_login_info in H.
  destruct tok as [t|], fid as [f|]; try discriminate H.
  destruct (str_truthy (Some t) && str_truthy (Some f)) eqn:E.
  - destruct (truthy nick); cbn [andb fst] in H; injection H as ->; exact E.
  - cbn [andb fst] in H. discriminate H.
Qed.

(** [fetch_articles_command] comes back, whatever happens. *)
Lemma always_returns_fetch_articles_command (tok fid : option string) :
  always_returns (fetch_articles_command p lim tok fid).
Proof.
  unfold fetch_articles_command.
  destruct (negb (str_truthy tok) || negb (str_truthy fid)); [returns|].
  destruct tok as [t|], fid as [f|]; try apply always_returns_ret.
  apply always_returns_bind; [apply always_returns_log|]. intros _.
  apply always_returns_try_except.
  - apply never_diverges_bind.
    + apply never_diverges_with_browser, never_diverges_fetch_session.
    + intros [|]; [apply never_diverges_log | apply never_diverges_ret].
  - intros e. apply always_returns_log.
Qed.

End CliFacts.

(** X3. With [--login], [main_cli] runs the login and nothing else,
    whatever the other arguments: its calls are the calls of
    [do_login_flow] from the same world, it leaves the world the login
    leaves, it never navigates a tab (no articles are fetched), it does
    not print the help, and no exception leaves it. *)
Theorem main_cli_login_only :
  forall (W : Type) (p : provider W) (py_str : pyval -> string) (lim : limits)
    (args : cli_args) (no_arguments : bool) (steps : nat) (w : W),
    arg_login args = true ->
    calls (trace_of (main_cli p py_str lim (Namespace args) no_arguments steps w))
    = calls (trace_of (do_login_flow p py_str steps w))
    /\ world_of (main_cli p py_str lim (Namespace args) no_arguments steps w)
       = world_of (do_login_flow p py_str steps w)
    /\ (forall url, ~ In (TabGet url) (trace_of (main_cli p py_str lim (Namespace args) no_arguments steps w)))
    /\ (outcome_of (main_cli p py_str lim (Namespace args) no_arguments steps w) = Ret (Finished false)
        \/ outcome_of (main_cli p py_str lim (Namespace args) no_arguments steps w) = Diverge).
Proof.
  intros W p py_str lim args no_arguments steps w Hlogin.
  assert (Hcalls : calls (trace_of (main_cli p py_str lim (Namespace args) no_arguments steps w))
                   = calls (trace_of (do_login_flow p py_str steps w))
                   /\ world_of (main_cli p py_str lim (Namespace args) no_arguments steps w)
                      = world_of (do_login_flow p py_str steps w)
                   /\ (outcome_of (main_cli p py_str lim (Namespace args) no_arguments steps w) = Ret (Finished false)
                       \/ outcome_of (main_cli p py_str lim (Namespace args) no_arguments steps w)
                          = Diverge)).
  { unfold main_cli, run_command. rewrite Hlogin.
    unfold bind, try_except, log, emit, ret, trace_of, world_of, outcome_of.
    destruct (arg_debug args); cbv beta iota zeta;
      destruct (do_login_flow p py_str steps w) as [[tl wl] ol];
      destruct ol as [[d|]|e|]; cbn [fst snd app];
      unfold calls; cbn [filter is_call]; rewrite ?filter_app; cbn [filter is_call];
      rewrite ?app_nil_r; auto. }
  destruct Hcalls as (Hc & Hw & Ho). repeat split; trivial.
  intros url Hin.
  assert (Hin' : In (TabGet url) (calls (trace_of (main_cli p py_str lim (Namespace args) no_arguments steps w))))
    by (apply filter_In; now split).
  rewrite Hc in Hin'. apply do_login_flow_calls in Hin' as [H | [H | H]]; discriminate H.
Qed.

(** [main.py --login --get-articles --token t] on the mocked session. *)
Lemma main_cli_login_only_witness :
  calls (trace_of (main_cli Scripted.mock_browser Scripted.str_of default_limits
                     (Namespace {| arg_login := true; arg_get_articles := true;
                                   arg_fakeid := None; arg_token := Some "t";
                                   arg_debug := false |}) false 1 0))
  = calls (trace_of (do_login_flow Scripted.mock_browser Scripted.str_of 1 0)).
Proof.
  apply (main_cli_login_only nat Scripted.mock_browser Scripted.str_of default_limits
           {| arg_login := true; arg_get_articles := true;
              arg_fakeid := None; arg_token := Some "t"; arg_debug := false |}
           false 1 0).
  reflexivity.
Defined.

(** X4. With [--get-articles] and both a token and a fakeid given (and no
    [--login]), [main_cli] makes no login: after its own records the run
    is the run of [fetch_articles_command] on the given identifiers, from
    the same world, and the login page is never opened. *)
Theorem main_cli_fetch_with_identifiers :
  forall (W : Type) (p : provider W) (py_str : pyval -> string) (lim : limits)
    (args : cli_args) (no_arguments : bool) (steps : nat) (w : W) (t f : string),
    arg_login args = false ->
    arg_get_articles args = true ->
    arg_token args = Some t -> t <> "" ->
    arg_fakeid args = Some f -> f <> "" ->
    main_cli p py_str lim (Namespace args) no_arguments steps w
    = (debug_record args
       ++ Log INFO "Get articles process initiated by CLI command..." []
       :: trace_of (fetch_articles_command p lim (Some t) (Some f) w),
       world_of (fetch_articles_command p lim (Some t) (Some f) w), Ret (Finished false))
    /\ ~ In (DriverGet login_url) (trace_of (main_cli p py_str lim (Namespace args) no_arguments steps w)).
Proof.
  intros W p py_str lim args no_arguments steps w t f Hl Hg Ht Htne Hf Hfne.
  destruct (always_returns_fetch_articles_command p lim (Some t) (Some f) w) as [[] Hret].
  assert (E : main_cli p py_str lim (Namespace args) no_arguments steps w
              = (debug_record args
                 ++ Log INFO "Get articles process initiated by CLI command..." []
                 :: trace_of (fetch_articles_command p lim (Some t) (Some f) w),
                 world_of (fetch_articles_command p lim (Some t) (Some f) w), Ret (Finished false))).
  { unfold main_cli, run_command, debug_record. rewrite Hl, Hg, Ht, Hf.
    assert (Tt : str_truthy (Some t) = true)
      by (cbn [str_truthy]; apply negb_true_iff; now apply String.eqb_neq).
    assert (Tf : str_truthy (Some f) = true)
      by (cbn [str_truthy]; apply negb_true_iff; now apply String.eqb_neq).
    rewrite Tt, Tf. cbn [negb orb].
    unfold bind, try_except, log, emit, ret, trace_of, world_of, outcome_of in *.
    destruct (arg_debug args); cbv beta iota zeta; rewrite Tt, Tf; cbn [andb];
      destruct (fetch_articles_command p lim (Some t) (Some f) w) as [[tf wf] out];
      cbn [snd] in Hret; subst out; cbn [fst snd app]; now rewrite ?app_nil_r. }
  split; [exact E|]. rewrite E. unfold trace_of. cbn [fst].
  intros Hin. apply in_app_or in Hin as [Hin | [Hin | Hin]].
  - unfold debug_record in Hin. destruct (arg_debug args);
      [destruct Hin as [Hin | []]; discriminate Hin | contradiction].
  - discriminate Hin.
  - assert (Hin' : In (DriverGet login_url)
                     (calls (trace_of (fetch_articles_command p lim (Some t) (Some f) w))))
      by (apply filter_In; now split).
    apply fetch_articles_command_calls in Hin' as [H | [H | H]]; discriminate H.
Qed.

(** [main.py --get-articles --token tok --fakeid fid] on a browser that
    serves the example body. *)
Lemma main_cli_fetch_with_identifiers_witness :
  ~ In (DriverGet login_url)
      (trace_of (main_cli (Scripted.serving example_body) Scripted.str_of default_limits
                   (Namespace {| arg_login := false; arg_get_articles := true;
                                 arg_fakeid := Some "fid"; arg_token := Some "tok";
                                 arg_debug := true |}) false 1 0)).
Proof.
  apply (main_cli_fetch_with_identifiers nat (Scripted.serving example_body)
           Scripted.str_of default_limits
           {| arg_login := false; arg_get_articles := true;
              arg_fakeid := Some "fid"; arg_token := Some "tok";
              arg_debug := true |} false 1 0 "tok" "fid");
    (reflexivity || discriminate).
Defined.

(** X5. With [--get-articles] and a token or a fakeid missing (and no
    [--login]), [main_cli] logs in first. When the login returns a
    [login_info], the articles are fetched with the token and the fakeid
    of the login (an identifier given on the command line is not used),
    in the world the login left. When the login returns [None], the error
    is logged and nothing is fetched. *)
Theorem main_cli_fetch_after_login :
  forall (W : Type) (p : provider W) (py_str : pyval -> string) (lim : limits)
    (args : cli_args) (no_arguments : bool) (steps : nat) (w : W),
    arg_login args = false ->
    arg_get_articles args = true ->
    str_truthy (arg_token args) && str_truthy (arg_fakeid args) = false ->
    (forall d : login_info,
        outcome_of (do_login_flow p py_str steps w) = Ret (Some d) ->
        calls (trace_of (main_cli p py_str lim (Namespace args) no_arguments steps w))
        = calls (trace_of (do_login_flow p py_str steps w))
          ++ calls (trace_of (fetch_articles_command p lim (Some (token d)) (Some (fakeid d))
                                (world_of (do_login_flow p py_str steps w))))
        /\ outcome_of (main_cli p py_str lim (Namespace args) no_arguments steps w) = Ret (Finished false))
    /\ (outcome_of (do_login_flow p py_str steps w) = Ret None ->
        calls (trace_of (main_cli p py_str lim (Namespace args) no_arguments steps w))
        = calls (trace_of (do_login_flow p py_str steps w))
        /\ world_of (main_cli p py_str lim (Namespace args) no_arguments steps w)
           = world_of (do_login_flow p py_str steps w)
        /\ In (Log ERROR
                 "Login failed or did not return necessary token/fakeid for fetching articles."
                 [])
              (trace_of (main_cli p py_str lim (Namespace args) no_arguments steps w))
        /\ outcome_of (main_cli p py_str lim (Namespace args) no_arguments steps w) = Ret (Finished false)).
Proof.
  intros W p py_str lim args no_arguments steps w Hl Hg Hmiss.
  assert (Hguard : negb (str_truthy (arg_token args)) || negb (str_truthy (arg_fakeid args))
                   = true)
    by (destruct (str_truthy (arg_token args)), (str_truthy (arg_fakeid args));
        (discriminate Hmiss || reflexivity)).
  split.
  - intros d Hd.
    pose proof (do_login_flow_identifiers p py_str steps w d Hd) as Hids.
    destruct (always_returns_fetch_articles_command p lim (Some (token d)) (Some (fakeid d))
                (world_of (do_login_flow p py_str steps w))) as [[] Hret].
    unfold main_cli, run_command, login_for_articles. rewrite Hl, Hg, Hguard.
    unfold bind, try_except, log, emit, ret, trace_of, world_of, outcome_of in *.
    destruct (arg_debug args); cbv beta iota zeta;
      destruct (do_login_flow p py_str steps w) as [[tl wl] ol];
      cbn [fst snd] in *; subst ol; cbv beta iota zeta; rewrite Hids;
      cbv beta iota zeta; cbn [fst snd app]; rewrite Hids;
      destruct (fetch_articles_command p lim (Some (token d)) (Some (fakeid d)) wl)
        as [[tf wf] out];
      cbn [fst snd] in *; subst out; cbn [fst snd app];
      (split; [|reflexivity]);
      unfold calls; cbn [filter is_call]; rewrite ?filter_app; cbn [filter is_call];
      rewrite ?filter_app; cbn [filter is_call]; now rewrite ?app_nil_r.
  - intros Hnone.
    unfold main_cli, run_command, login_for_articles. rewrite Hl, Hg, Hguard.
    unfold bind, try_except, log, emit, ret, trace_of, world_of, outcome_of in *.
    destruct (arg_debug args); cbv beta iota zeta;
      destruct (do_login_flow p py_str steps w) as [[tl wl] ol];
      cbn [fst snd] in *; subst ol; cbv beta iota zeta; cbn [fst snd app];
      (split; [unfold calls; cbn [filter is_call]; rewrite ?filter_app;
               cbn [filter is_call]; now rewrite ?app_nil_r|]);
      (split; [reflexivity|]); (split; [|reflexivity]);
      rewrite ?app_nil_r; repeat apply in_cons; apply in_or_app; right; now left.
Qed.

(** [main.py --get-articles --token given] on the mocked session: the
    fetch uses the token of the login. *)
Lemma main_cli_fetch_after_login_witness :
  calls (trace_of (main_cli Scripted.mock_browser Scripted.str_of default_limits
                     (Namespace {| arg_login := false; arg_get_articles := true;
                                   arg_fakeid := None; arg_token := Some "given";
                                   arg_debug := false |}) false 1 0))
  = calls (trace_of (do_login_flow Scripted.mock_browser Scripted.str_of 1 0))
    ++ calls (trace_of (fetch_articles_command Scripted.mock_browser default_limits
                          (Some "mocktoken123") (Some "fakeid_12345")
                          (world_of (do_login_flow Scripted.mock_browser
                                       Scripted.str_of 1 0)))).
Proof.
  apply (proj1 (main_cli_fetch_after_login nat Scripted.mock_browser Scripted.str_of
                  default_limits
                  {| arg_login := false; arg_get_articles := true;
                     arg_fakeid := None; arg_token := Some "given";
                     arg_debug := false |} false 1 0 eq_refl eq_refl eq_refl)
           {| token := "mocktoken123"; fakeid := "fakeid_12345";
              nickname := PStr "Test User" |}).
  vm_compute. reflexivity.
Defined.

Section CliSafety.

Context {W : Type}.

Lemma never_raises_ret {A : Type} (a : A) : never_raises (@ret W A a).
Proof. intros w e. discriminate. Qed.

Lemma never_raises_log (lvl : level) (msg : string) (args : list pyval) :
  never_raises (@log W lvl msg args).
Proof. intros w e. discriminate. Qed.

End CliSafety.



(** [main.py --bogus]: [parse_args] writes the usage error and leaves
    with status 2; nothing of the program runs. *)
Example main_cli_unknown_option :
  main_cli Scripted.idle_browser Scripted.str_of default_limits (SystemExit 2) false 1 0
  = ([], 0, Ret (Exited 2)).
Proof. reflexivity. Qed.

(** ** The passes of the wait loop *)

Section WaitPasses.

Context {W : Type}.
Variable p : provider W.

Lemma after_sleeps_S (n : nat) (w : W) :
  after_sleeps p (S n) w = fst (tab_sleep p 1 (after_sleeps p n w)).
Proof.
  revert w. induction n as [|n IH]; intros w; [reflexivity|].
  cbn [after_sleeps] in *. now rewrite IH.
Qed.

(** [k] passes in which the sleep succeeds and the address read does not
    show the home page: each writes its [waiting_pass] and counts one
    attempt, and the loop goes on from there. *)
Lemma login_wait_loop_waiting (k : nat) :
  forall (a steps : nat) (w : W),
    a + k <= max_login_check_attempts ->
    k <= steps ->
    (forall n, n < k ->
       snd (tab_sleep p 1 (after_sleeps p n w)) = true
       /\ exists u, tab_url p (after_sleeps p (S n) w) = UrlStr u
                    /\ contains home_marker u = false) ->
    login_wait_loop p steps true false a w
    = (flat_map waiting_pass (seq a k)
         ++ trace_of (login_wait_loop p (steps - k) true false (a + k) (after_sleeps p k w)),
       world_of (login_wait_loop p (steps - k) true false (a + k) (after_sleeps p k w)),
       outcome_of (login_wait_loop p (steps - k) true false (a + k) (after_sleeps p k w))).
Proof.
  induction k as [|k IH]; intros a steps w Ha Hsteps Hpass.
  - cbn [seq flat_map app after_sleeps]. rewrite Nat.sub_0_r, Nat.add_0_r.
    apply run_split.
  - destruct steps as [|steps]; [lia|].
    cbn [login_wait_loop].
    rewrite (proj2 (Nat.ltb_lt a max_login_check_attempts)) by lia.
    cbn [negb andb]. unfold bind at 1.
    destruct (Hpass 0 ltac:(lia)) as (Hs & u & Hu & Hm).
    cbn [after_sleeps] in Hs, Hu.
    assert (Eb : login_wait_body p true a w
                 = (waiting_pass a, fst (tab_sleep p 1 w), Ret (false, S a))).
    { unfold login_wait_body, try_except, bind, call_tab_sleep, read_tab_url, log,
        emit, ret, waiting_pass.
      destruct (tab_sleep p 1 w) as [w1 ok]. cbn [fst snd] in *. subst ok.
      rewrite Hu, Hm. destruct ((S a mod 20 =? 0)%nat); reflexivity. }
    rewrite Eb. cbn [fst snd].
    rewrite (IH (S a) steps (fst (tab_sleep p 1 w))); [| lia | lia |].
    + cbn [seq flat_map Nat.sub after_sleeps].
      replace (S a + k) with (a + S k) by lia. now rewrite <- app_assoc.
    + intros n Hn. destruct (Hpass (S n) ltac:(lia)) as (Hs' & u' & Hu' & Hm').
      cbn [after_sleeps] in Hs', Hu'. split; [exact Hs'|]. now exists u'.
Qed.

Lemma polls_waiting (k a : nat) : polls (flat_map waiting_pass (seq a k)) = k.
Proof.
  revert a. induction k as [|k IH]; intros a; [reflexivity|].
  cbn [seq flat_map]. rewrite polls_app, IH. unfold waiting_pass, polls.
  destruct ((S a mod 20 =? 0)%nat); reflexivity.
Qed.

End WaitPasses.

(** X7. When every sleep succeeds and no address read shows the home
    page, the wait loop gives up after exactly
    [max_login_check_attempts] = 120 passes, not logged in, having written
    the progress record six times (at the attempts 20, 40, ..., 120). *)
Theorem login_wait_loop_times_out :
  forall (W : Type) (p : provider W) (steps : nat) (w : W),
    max_login_check_attempts <= steps ->
    (forall n, n < max_login_check_attempts ->
       snd (tab_sleep p 1 (after_sleeps p n w)) = true
       /\ exists u, tab_url p (after_sleeps p (S n) w) = UrlStr u
                    /\ contains home_marker u = false) ->
    login_wait_loop p steps true false 0 w
    = (flat_map waiting_pass (seq 0 max_login_check_attempts),
       after_sleeps p max_login_check_attempts w,
       Ret (false, max_login_check_attempts))
    /\ polls (trace_of (login_wait_loop p steps true false 0 w)) = 120
    /\ length (filter is_progress (trace_of (login_wait_loop p steps true false 0 w))) = 6.
Proof.
  intros W p steps w Hsteps Hpass.
  assert (E : login_wait_loop p steps true false 0 w
              = (flat_map waiting_pass (seq 0 max_login_check_attempts),
                 after_sleeps p max_login_check_attempts w,
                 Ret (false, max_login_check_attempts))).
  { rewrite (login_wait_loop_waiting p max_login_check_attempts 0 steps w
               ltac:(lia) Hsteps Hpass).
    cbn [Nat.add].
    assert (Eend : forall s w', login_wait_loop p s true false max_login_check_attempts w'
                                = ([], w', Ret (false, max_login_check_attempts))).
    { intros s w'. destruct s; cbn [login_wait_loop]; now rewrite Nat.ltb_irrefl. }
    rewrite Eend. unfold trace_of, world_of, outcome_of. cbn [fst snd].
    now rewrite app_nil_r. }
  rewrite E. split; [reflexivity|]. unfold trace_of. cbn [fst].
  split; [apply polls_waiting | vm_compute; reflexivity].
Qed.

(** The browser that never leaves the login page. *)
Lemma login_wait_loop_times_out_witness :
  polls (trace_of (login_wait_loop Scripted.idle_browser 120 true false 0 0)) = 120.
Proof.
  apply (login_wait_loop_times_out nat Scripted.idle_browser 120 0).
  - unfold max_login_check_attempts. lia.
  - intros n _. split; [reflexivity|].
    exists login_url. split; [reflexivity | vm_compute; reflexivity].
Defined.

(** X8. When the first [k] passes see another page and the next address
    read shows the home page ([k < 120], no sleep failing), the login is
    detected at once: the loop ends logged in after exactly [k + 1]
    passes, with [k] attempts counted and "Login successful!" as its last
    record. *)
Theorem login_wait_loop_detects_first_match :
  forall (W : Type) (p : provider W) (k steps : nat) (w : W) (home : string),
    k < max_login_check_attempts ->
    k < steps ->
    (forall n, n < k ->
       snd (tab_sleep p 1 (after_sleeps p n w)) = true
       /\ exists u, tab_url p (after_sleeps p (S n) w) = UrlStr u
                    /\ contains home_marker u = false) ->
    snd (tab_sleep p 1 (after_sleeps p k w)) = true ->
    tab_url p (after_sleeps p (S k) w) = UrlStr home ->
    contains home_marker home = true ->
    login_wait_loop p steps true false 0 w
    = (flat_map waiting_pass (seq 0 k) ++ [TabSleep 1; Log INFO "Login successful!" []],
       after_sleeps p (S k) w, Ret (true, k))
    /\ polls (trace_of (login_wait_loop p steps true false 0 w)) = S k.
Proof.
  intros W p k steps w home Hk Hsteps Hpass Hsleep Hurl Hhome.
  assert (E : login_wait_loop p steps true false 0 w
              = (flat_map waiting_pass (seq 0 k)
                   ++ [TabSleep 1; Log INFO "Login successful!" []],
                 after_sleeps p (S k) w, Ret (true, k))).
  { rewrite (login_wait_loop_waiting p k 0 steps w ltac:(lia) ltac:(lia) Hpass).
    cbn [Nat.add]. rewrite after_sleeps_S in *.
    destruct (steps - k) as [|s] eqn:Es; [lia|].
    cbn [login_wait_loop].
    rewrite (proj2 (Nat.ltb_lt k max_login_check_attempts) Hk). cbn [negb andb].
    unfold bind at 1 2 3.
    assert (Eb : login_wait_body p true k (after_sleeps p k w)
                 = ([TabSleep 1; Log INFO "Login successful!" []],
                    fst (tab_sleep p 1 (after_sleeps p k w)), Ret (true, k))).
    { unfold login_wait_body, try_except, bind, call_tab_sleep, read_tab_url, log,
        emit, ret.
      destruct (tab_sleep p 1 (after_sleeps p k w)) as [w1 ok]. cbn [fst snd] in *.
      subst ok. rewrite Hurl, Hhome. reflexivity. }
    rewrite Eb. cbn [fst snd].
    assert (Eend : forall s' w', login_wait_loop p s' true true k w' = ([], w', Ret (true, k)))
      by (intros s' w'; now destruct s').
    rewrite Eend. unfold trace_of, world_of, outcome_of. cbn [fst snd].
    now rewrite app_nil_r. }
  rewrite E. split; [reflexivity|]. unfold trace_of. cbn [fst].
  rewrite polls_app, polls_waiting. unfold polls. cbn. lia.
Qed.

(** The home page shows at the fourth read. *)
Lemma login_wait_loop_detects_first_match_witness :
  polls (trace_of
           (login_wait_loop
              (Scripted.browser
                 (fun n => if (n <? 4)%nat then UrlStr login_url
                           else UrlStr "https://mp.weixin.qq.com/cgi-bin/home?token=1")
                 (fun _ => true) (fun _ => Some PNone))
              10 true false 0 0))
  = 4.
Proof.
  apply (login_wait_loop_detects_first_match nat
           (Scripted.browser
              (fun n => if (n <? 4)%nat then UrlStr login_url
                        else UrlStr "https://mp.weixin.qq.com/cgi-bin/home?token=1")
              (fun _ => true) (fun _ => Some PNone))
           3 10 0 "https://mp.weixin.qq.com/cgi-bin/home?token=1").
  - unfold max_login_check_attempts. lia.
  - lia.
  - intros n Hn. split; [reflexivity|]. exists login_url.
    destruct n as [|[|[|n]]]; [| | |lia]; split; vm_compute; reflexivity.
  - reflexivity.
  - reflexivity.
  - vm_compute. reflexivity.
Defined.

(** ** The token pattern *)

Section TokenFacts.

Lemma prefix_drop (a s : string) :
  String.prefix a s = true -> s = (a ++ drop (String.length a) s)%string.
Proof.
  revert s. induction a as [|c a IH]; intros s H; [reflexivity|].
  destruct s as [|x s]; [discriminate H|].
  cbn [String.prefix] in H. destruct (ascii_dec c x) as [<-|]; [|discriminate H].
  cbn [String.length drop String.append]. now rewrite <- (IH s H).
Qed.

Lemma take_word_split (s : string) :
  exists post : string,
    s = (take_word s ++ post)%string /\ word_ends post = true
    /\ all_word (take_word s) = true.
Proof.
  induction s as [|c s IH].
  - exists EmptyString. repeat split.
  - cbn [take_word]. destruct (is_word c) eqn:Ec.
    + destruct IH as (post & Hs & Hp & Hw). exists post.
      cbn [String.append all_word]. rewrite Ec, Hw. repeat split; trivial. now f_equal.
    + exists (String c s). cbn [word_ends]. rewrite Ec. repeat split.
Qed.

Lemma search_token_step (c : ascii) (rest : string) :
  search_token (String c rest)
  = match (if String.prefix "token=" (String c rest)
           then take_word (drop 6 (String c rest)) else EmptyString) with
    | String x y => Some (String x y)
    | EmptyString => search_token rest
    end.
Proof. cbn [search_token]. now destruct (if String.prefix "token=" (String c rest) then _ else _). Qed.

(** What the pattern finds stands in the text after [token=], is a
    non-empty run of word characters, and ends where the run ends. *)
Lemma search_token_sound (u t : string) :
  search_token u = Some t ->
  t <> EmptyString /\ all_word t = true
  /\ exists pre post : string,
       u = (pre ++ "token=" ++ t ++ post)%string /\ word_ends post = true.
Proof.
  induction u as [|c u IH]; intros H.
  - cbn in H. discriminate H.
  - rewrite search_token_step in H.
    destruct (String.prefix "token=" (String c u)) eqn:Ep.
    + destruct (take_word (drop 6 (String c u))) as [|x y] eqn:Et.
      * destruct (IH H) as (Hne & Hw & pre & post & Hu & Hp).
        split; [exact Hne|]. split; [exact Hw|].
        exists (String c pre), post. split; [|exact Hp]. cbn [String.append]. now f_equal.
      * injection H as <-. split; [discriminate|].
        destruct (take_word_split (drop 6 (String c u))) as (post & Hs & Hp & Hw).
        rewrite Et in Hs, Hw. split; [exact Hw|].
        exists EmptyString, post. split; [|exact Hp].
        rewrite (prefix_drop _ _ Ep) at 1. cbn [String.length String.append].
        change (drop 6 (String c u)) with (drop 6 (String c u)).
        rewrite Hs at 1. reflexivity.
    + destruct (IH H) as (Hne & Hw & pre & post & Hu & Hp).
      split; [exact Hne|]. split; [exact Hw|].
      exists (String c pre), post. split; [|exact Hp]. cbn [String.append]. now f_equal.
Qed.

(** Where the pattern finds nothing, no [token=] in the text is followed
    by a word character. *)
Lemma search_token_none (u : string) :
  search_token u = None ->
  forall (pre post : string) (c : ascii),
    u = (pre ++ "token=" ++ String c post)%string -> is_word c = false.
Proof.
  induction u as [|x u IH]; intros H pre post c Hu.
  - destruct pre; discriminate Hu.
  - rewrite search_token_step in H.
    destruct pre as [|y pre].
    + cbn [String.append] in Hu. rewrite Hu in H.
      cbn [String.prefix drop] in H.
      repeat (match type of H with
              | context [ascii_dec ?a ?b] => destruct (ascii_dec a b); [|congruence]
              end).
      cbn [take_word] in H. destruct (is_word c); [discriminate H | reflexivity].
    + cbn [String.append] in Hu. injection Hu as -> Hu.
      apply (IH ltac:(destruct (if String.prefix "token=" (String y u) then _ else _);
                      [exact H | discriminate H]) pre post c Hu).
Qed.

End TokenFacts.

(** X9. The token [extract_token] returns for an address is never empty,
    consists of word characters only, and stands in the address right
    after [token=], up to the first character that is not a word
    character; when it returns [None] for an address, no [token=] of the
    address is followed by a word character. No exception leaves
    [extract_token], also when the address is [None]. *)
Theorem extract_token_finds_word_after_marker :
  forall (W : Type) (current_url : option string) (w : W),
    (exists r : option string,
        @extract_token W current_url w
        = ([match current_url with
            | None => Log ERROR "Error extracting token: {e_token}" []
            | Some u =>
                match search_token u with
                | Some t => Log INFO "Extracted token: {token}" [PStr t]
                | None => Log WARNING "Could not extract token from URL." []
                end
            end], w, Ret r)
        /\ (forall t : string,
              r = Some t ->
              t <> EmptyString /\ all_word t = true
              /\ exists u pre post : string,
                   current_url = Some u
                   /\ u = (pre ++ "token=" ++ t ++ post)%string
                   /\ word_ends post = true)
        /\ (forall u : string,
              current_url = Some u -> r = None ->
              forall (pre post : string) (c : ascii),
                u = (pre ++ "token=" ++ String c post)%string -> is_word c = false)).
Proof.
  intros W [u|] w.
  - exists (search_token u). split; [|split].
    + unfold extract_token, try_except, bind, log, emit, ret.
      destruct (search_token u); reflexivity.
    + intros t Ht. destruct (search_token_sound u t Ht) as (Hne & Hw & pre & post & Hu & Hp).
      split; [exact Hne|]. split; [exact Hw|]. now exists u, pre, post.
    + intros u' [= <-] Hnone. now apply search_token_none.
  - exists None. split; [reflexivity|]. split; [discriminate | discriminate].
Qed.

(** The address of the repository's test. *)
Lemma extract_token_finds_word_after_marker_witness :
  exists r : option string,
    @extract_token nat
      (Some "https://mp.weixin.qq.com/cgi-bin/home?action=home&token=mocktoken123") 0
    = ([Log INFO "Extracted token: {token}" [PStr "mocktoken123"]], 0, Ret r)
    /\ r = Some "mocktoken123".
Proof.
  destruct (extract_token_finds_word_after_marker nat
              (Some "https://mp.weixin.qq.com/cgi-bin/home?action=home&token=mocktoken123") 0)
    as (r & Hrun & _).
  exists r. split; [exact Hrun|].
  vm_compute in Hrun. now injection Hrun as <-.
Defined.

(** ** The request URL cannot be bent by its values *)

Section QuoteFacts.

Lemma count_char_app (c : ascii) (a b : string) :
  count_char c (a ++ b)%string = count_char c a + count_char c b.
Proof.
  induction a as [|x a IH]; [reflexivity|].
  cbn [String.append count_char]. rewrite IH. lia.
Qed.

Lemma all_chars_app (P : ascii -> bool) (a b : string) :
  all_chars P (a ++ b)%string = all_chars P a && all_chars P b.
Proof.
  induction a as [|x a IH]; [reflexivity|].
  cbn [String.append all_chars]. rewrite IH. now rewrite andb_assoc.
Qed.

Lemma quote_bytes_cons (c : ascii) (rest : string) :
  quote_bytes (String c rest)
  = (quote_bytes (String c EmptyString) ++ quote_bytes rest)%string.
Proof.
  cbn [quote_bytes].
  destruct (is_alnum c || Ascii.eqb c "_" || Ascii.eqb c "." || Ascii.eqb c "-"
            || Ascii.eqb c "~"); [reflexivity|].
  destruct (Ascii.eqb c " "); reflexivity.
Qed.

Lemma quote_bytes_one (c : ascii) :
  all_chars quoted_char (quote_bytes (String c EmptyString)) = true.
Proof.
  destruct c as [[] [] [] [] [] [] [] []]; vm_compute; reflexivity.
Qed.

(** The quoting writes letters, digits and [_.-~+%] only. *)
Lemma quote_bytes_chars (s : string) : all_chars quoted_char (quote_bytes s) = true.
Proof.
  induction s as [|c s IH]; [reflexivity|].
  now rewrite quote_bytes_cons, all_chars_app, quote_bytes_one, IH.
Qed.

Lemma count_char_absent (c : ascii) (s : string) :
  quoted_char c = false -> all_chars quoted_char s = true -> count_char c s = 0.
Proof.
  intros Hc. induction s as [|x s IH]; [reflexivity|].
  cbn [all_chars count_char]. intros H. apply andb_true_iff in H as [Hx Hs].
  rewrite (IH Hs). destruct (Ascii.eqb_spec x c) as [->|]; [congruence | reflexivity].
Qed.

Lemma count_char_quote_bytes (c : ascii) (s : string) :
  quoted_char c = false -> count_char c (quote_bytes s) = 0.
Proof. intros Hc. apply count_char_absent; [exact Hc | apply quote_bytes_chars]. Qed.

(** [quote_plus] writes letters, digits and [_.-~+%] only. *)
Lemma quote_plus_chars (s q : string) :
  quote_plus s = inr q -> all_chars quoted_char q = true.
Proof.
  unfold quote_plus. destruct (has_surrogate s); [discriminate|].
  intros [= <-]. apply quote_bytes_chars.
Qed.

End QuoteFacts.

(** X10. Whatever characters the token and the fakeid hold, a request
    URL that is built has one [?], nine [=] and eight [&], no [#] and no
    space: the two values are quoted, so they can neither add a parameter
    nor end the query. (Where [urlencode] raises, no URL is built.) *)
Theorem full_url_has_nine_parameters :
  forall tok fid url : string,
    full_url tok fid = inr url ->
    count_char "?" url = 1
    /\ count_char "=" url = 9
    /\ count_char "&" url = 8
    /\ count_char "#" url = 0
    /\ count_char " " url = 0.
Proof.
  intros tok fid url. rewrite full_url_quoted.
  destruct (has_surrogate fid || has_surrogate tok); [discriminate|].
  intros H.
  assert (E : url
              = ("https://mp.weixin.qq.com/cgi-bin/appmsgpublish?action=list_ex&begin=0&count=5&fakeid="
                 ++ quote_bytes fid ++ "&type=101_1&token=" ++ quote_bytes tok
                 ++ "&lang=zh_CN&f=json&ajax=1")%string) by congruence.
  rewrite E. rewrite !count_char_app.
  rewrite !count_char_quote_bytes by reflexivity.
  repeat split; reflexivity.
Qed.

(** The token "a&b=c d" and the fakeid "x?y#z". *)
Lemma full_url_has_nine_parameters_witness :
  count_char "&" "https://mp.weixin.qq.com/cgi-bin/appmsgpublish?action=list_ex&begin=0&count=5&fakeid=x%3Fy%23z&type=101_1&token=a%26b%3Dc+d&lang=zh_CN&f=json&ajax=1"
  = 8.
Proof.
  apply (full_url_has_nine_parameters "a&b=c d" "x?y#z"). reflexivity.
Defined.

(** ** What the listing keeps *)

Section ListingInvariants.

Lemma entry_title_truthy (e : pyval) (r : item_result) (t : pyval) :
  entry_title e = inr (Some r) -> title_of r = Some t -> truthy t = true.
Proof.
  unfold entry_title. destruct (is_dict e); [|discriminate].
  destruct (get e "title") as [x|v]; cbn [bind_exn]; [discriminate|].
  destruct (truthy v) eqn:Tv.
  - intros [= <-] [= <-]. exact Tv.
  - destruct (get_default e "appmsg_info" (PDict [])) as [x|a]; cbn [bind_exn];
      [discriminate|].
    destruct (get a "title") as [x|v']; cbn [bind_exn]; [discriminate|].
    destruct (truthy v') eqn:Tv'; [|discriminate].
    intros [= <-] [= <-]. exact Tv'.
Qed.

Lemma scan_details_truthy (l : list pyval) (r : item_result) (t : pyval) :
  scan_details l = inr (Some r) -> title_of r = Some t -> truthy t = true.
Proof.
  induction l as [|e l IH]; [discriminate|].
  cbn [scan_details]. destruct (entry_title e) as [x|[found|]] eqn:Ee; cbn [bind_exn].
  - discriminate.
  - intros [= <-]. now apply (entry_title_truthy e found).
  - exact IH.
Qed.

Lemma resolve_publish_info_truthy (lim : limits) (v : pyval) (r : item_result)
  (t : pyval) :
  resolve_publish_info lim v = inr r -> title_of r = Some t -> truthy t = true.
Proof.
  unfold resolve_publish_info. destruct v; try discriminate.
  destruct (json_loads lim s) as [e|decoded];
    [destruct e; try discriminate; intros [= <-]; discriminate|].
  destruct (iter decoded) as [x|l]; cbn [bind_exn]; [discriminate|].
  destruct (scan_details l) as [x|[found|]] eqn:Es; cbn [bind_exn].
  - discriminate.
  - intros [= <-]. now apply (scan_details_truthy l found).
  - intros [= <-]. discriminate.
Qed.

Lemma scan_details_non_objects (l : list pyval) :
  forallb (fun x => negb (is_dict x)) l = true -> scan_details l = inr None.
Proof.
  induction l as [|e l IH]; [reflexivity|].
  cbn [forallb scan_details]. intros H. apply andb_true_iff in H as [He Hl].
  apply negb_true_iff in He. rewrite (entry_title_non_object e He). cbn [bind_exn].
  now apply IH.
Qed.

End ListingInvariants.

(** X11. A title the listing prints is never empty: whatever the item,
    when its pass ends normally with a title, the title is truthy (not
    [None], not an empty str, list or object, not zero, not [False]). *)
Theorem listed_title_is_truthy :
  forall (lim : limits) (item_wrapper : pyval) (r : item_result) (t : pyval),
    resolve_item lim item_wrapper = inr r ->
    title_of r = Some t ->
    truthy t = true.
Proof.
  intros lim item r t. unfold resolve_item.
  destruct (get item "publish_info") as [x|publish_info]; cbn [bind_exn]; [discriminate|].
  destruct (get item "appmsg_info") as [x|appmsg_info]; cbn [bind_exn]; [discriminate|].
  destruct (appmsg_info_title appmsg_info) as [x|c]; cbn [bind_exn]; [discriminate|].
  destruct (truthy c) eqn:Tc.
  - intros [= <-] [= <-]. exact Tc.
  - destruct (truthy publish_info).
    + apply resolve_publish_info_truthy.
    + destruct (get item "title") as [x|v]; cbn [bind_exn]; [discriminate|].
      destruct (truthy v) eqn:Tv; intros [= <-]; [intros [= <-]; exact Tv | discriminate].
Qed.

(** The item [{"title": "", "publish_info": "[{\"title\": 0}, {\"title\":
    \"Real\"}]"}]. *)
Lemma listed_title_is_truthy_witness : truthy (PStr "Real") = true.
Proof.
  apply (listed_title_is_truthy default_limits
           (PDict [("title", PStr ""); ("publish_info", PStr (js "[{'title': 0}, {'title': 'Real'}]"))])
           (FromPublishInfo (PStr "Real")) (PStr "Real")); vm_compute; reflexivity.
Defined.

(** X12. Whatever the collection, the items listed are a prefix of it, in
    order: each listed result is the result of the item at its place; the
    loop ends early only at an item that raises, with that item's
    exception, and otherwise every item is listed. *)
Theorem listed_items_are_a_prefix :
  forall (lim : limits) (items : list pyval),
    Forall2 (resolves lim) (firstn (length (fst (resolve_items lim items))) items)
      (fst (resolve_items lim items))
    /\ match snd (resolve_items lim items) with
       | None => length (fst (resolve_items lim items)) = length items
       | Some e =>
           exists item_wrapper : pyval,
             nth_error items (length (fst (resolve_items lim items))) = Some item_wrapper
             /\ resolve_item lim item_wrapper = inl e
       end.
Proof.
  intros lim.
  induction items as [|item items IH]; [split; [constructor | reflexivity]|].
  cbn [resolve_items]. destruct (resolve_item lim item) as [e|r] eqn:Er.
  - cbn [fst snd length firstn]. split; [constructor|]. now exists item.
  - destruct (resolve_items lim items) as [rs stopped]. cbn [fst snd length firstn] in *.
    destruct IH as [Hf Hs]. split; [now constructor|].
    destruct stopped as [e|]; [exact Hs | now f_equal].
Qed.

(** X13. A [publish_info] string is read for titles only when it decodes
    to a list. When it decodes to an object or to a string, the item gets
    no title ("Title not found in parsed publish_info"), even if the
    object has a [title]; when it decodes to [null], a boolean or a
    number, the [for] loop raises a [TypeError]. *)
Theorem publish_info_must_decode_to_a_list :
  forall (lim : limits) (s : string) (decoded : pyval),
    json_loads lim s = inr decoded ->
    resolve_publish_info lim (PStr s)
    = match decoded with
      | PDict _ | PStr _ => inr NotInPublishInfo
      | PList l =>
          match scan_details l with
          | inl e => inl e
          | inr (Some found) => inr found
          | inr None => inr NotInPublishInfo
          end
      | PNone | PBool _ | PInt _ | PFloat _ => inl TypeError
      end.
Proof.
  intros lim s decoded H. unfold resolve_publish_info. rewrite H.
  destruct decoded as [ | b | z | f | x | l | d ]; try reflexivity.
  - cbn [iter bind_exn]. rewrite scan_details_non_objects; [reflexivity|].
    apply forallb_forall. intros e He. apply in_map_iff in He as (c & <- & _). reflexivity.
  - cbn [iter bind_exn]. rewrite scan_details_non_objects; [reflexivity|].
    apply forallb_forall. intros e He. apply in_map_iff in He as (kv & <- & _). reflexivity.
Qed.

(** The [publish_info] string [{"title": "Hidden"}]. *)
Lemma publish_info_must_decode_to_a_list_witness :
  resolve_publish_info default_limits (PStr (js "{'title': 'Hidden'}"))
  = inr NotInPublishInfo.
Proof.
  apply (publish_info_must_decode_to_a_list default_limits (js "{'title': 'Hidden'}")
           (PDict [("title", PStr "Hidden")])).
  vm_compute. reflexivity.
Defined.

(** ** What a login returns *)

Section LoginResult.

Context {W : Type}.
Variable p : provider W.
Variable py_str : pyval -> string.

Lemma extract_token_result (current_url : option string) (w : W) (tok : option string) :
  outcome_of (@extract_token W current_url w) = Ret tok ->
  tok = None \/ exists u, current_url = Some u /\ search_token u = tok.
Proof.
  unfold extract_token, try_except, bind, log, emit, ret, raise, outcome_of.
  destruct current_url as [u|].
  - destruct (search_token u) as [t|] eqn:Et; cbv beta iota zeta; cbn [snd];
      intros [= <-]; [right | now left].
    now exists u.
  - cbv beta iota zeta. cbn [snd]. intros [= <-]. now left.
Qed.

(** The token of a [login_info] comes from the token pattern, on the
    address read after the login. *)
Lemma extract_login_info_token (tab : bool) (w : W) (d : login_info) :
  outcome_of (extract_login_info p py_str tab w) = Ret (Some d) ->
  (exists u, search_token u = Some (token d))
  /\ (nickname d = PNone \/ truthy (nickname d) = true).
Proof.
  unfold extract_login_info. intros H.
  apply outcome_bind in H as (_ & w1 & _ & H).
  apply outcome_bind in H as (url & w2 & _ & H).
  apply outcome_bind in H as (tok & w3 & Htok & H).
  apply outcome_bind in H as (fid & w4 & _ & H).
  apply outcome_bind in H as (nick & w5 & _ & H).
  destruct (compose_login_info tok fid nick) as [info record] eqn:Ec.
  apply outcome_bind in H as (_ & w6 & _ & H).
  apply outcome_bind in H as (_ & w7 & _ & H).
  apply outcome_bind in H as (_ & w8 & _ & H).
  apply outcome_ret in H. subst info.
  unfold compose_login_info in Ec.
  destruct tok as [t|], fid as [f|]; try discriminate Ec.
  assert (Hd : token d = t
               /\ (nickname d = PNone \/ truthy (nickname d) = true)).
  { destruct (str_truthy (Some t) && str_truthy (Some f)); cbn [andb] in Ec.
    - destruct (truthy nick) eqn:Tn; injection Ec as <- _; cbn; auto.
    - discriminate Ec. }
  destruct Hd as [<- Hn]. split; [|exact Hn].
  apply extract_token_result in Htok as [Hnone | (u & _ & Hu)]; [discriminate Hnone|].
  now exists u.
Qed.

Lemma login_session_token (steps : nat) (w : W) (f : flow) :
  outcome_of (login_session p py_str steps w) = Ret f ->
  forall d, (f = Return (Some d) \/ f = Next (Some d)) ->
  (exists u, search_token u = Some (token d))
  /\ (nickname d = PNone \/ truthy (nickname d) = true).
Proof.
  unfold login_session. intros H d Hf.
  apply outcome_bind in H as (opened & w1 & _ & H).
  destruct opened as [tab|].
  - apply outcome_bind in H as (st & w2 & _ & H).
    destruct (negb (fst st)).
    + apply outcome_bind in H as (_ & w3 & _ & H). apply outcome_ret in H. subst f.
      destruct Hf as [Hf | Hf]; discriminate Hf.
    + apply outcome_bind in H as (info & w3 & Hi & H). apply outcome_ret in H. subst f.
      destruct Hf as [Hf | Hf]; [discriminate Hf|]. injection Hf as ->.
      now apply (extract_login_info_token tab w2).
  - apply outcome_ret in H. subst f. destruct Hf as [Hf | Hf]; discriminate Hf.
Qed.

Lemma do_login_flow_token (steps : nat) (w : W) (d : login_info) :
  outcome_of (do_login_flow p py_str steps w) = Ret (Some d) ->
  (exists u, search_token u = Some (token d))
  /\ (nickname d = PNone \/ truthy (nickname d) = true).
Proof.
  unfold do_login_flow. intros H.
  apply outcome_try_except in H as [H | (e & w1 & H)].
  - apply outcome_bind in H as (_ & w1 & _ & H).
    apply outcome_bind in H as (f & w2 & Hf & H).
    unfold with_browser in Hf.
    apply outcome_bind in Hf as (_ & w3 & _ & Hf).
    apply outcome_finally in Hf.
    apply (login_session_token steps w3 f Hf).
    destruct f as [result | info].
    + apply outcome_ret in H. left. now subst.
    + apply outcome_bind in H as (_ & w4 & _ & H). apply outcome_ret in H.
      right. now subst.
  - apply outcome_bind in H as (_ & w2 & _ & H). apply outcome_ret in H. discriminate.
Qed.

End LoginResult.

(** X14. Whatever the browser does, the token of a [login_info] that
    [do_login_flow] returns is a non-empty run of word characters (letters,
    digits, underscore), and its nickname is [None] or a truthy value,
    never an empty one. *)
Theorem returned_login_info_is_well_formed :
  forall (W : Type) (p : provider W) (py_str : pyval -> string) (steps : nat) (w : W)
    (d : login_info),
    outcome_of (do_login_flow p py_str steps w) = Ret (Some d) ->
    token d <> EmptyString
    /\ all_word (token d) = true
    /\ (nickname d = PNone \/ truthy (nickname d) = true).
Proof.
  intros W p py_str steps w d H.
  destruct (do_login_flow_token p py_str steps w d H) as [(u & Hu) Hn].
  destruct (search_token_sound u (token d) Hu) as (Hne & Hw & _).
  repeat split; assumption.
Qed.

(** The session of the repository's test. *)
Lemma returned_login_info_is_well_formed_witness :
  all_word "mocktoken123" = true.
Proof.
  apply (returned_login_info_is_well_formed nat Scripted.mock_browser Scripted.str_of 1 0
           {| token := "mocktoken123"; fakeid := "fakeid_12345";
              nickname := PStr "Test User" |}).
  vm_compute. reflexivity.
Defined.

(** X15. When the browser starts and opening the login page raises,
    [do_login_flow] logs the error and returns [None] without a single
    poll, and the browser is closed on the way out: the calls are the
    start, the failed [driver.get] and the close. *)
Theorem login_page_failure_closes_browser :
  forall (W : Type) (p : provider W) (py_str : pyval -> string) (steps : nat)
    (w w1 w2 : W),
    uc_start p w = (w1, true) ->
    driver_get p login_url w1 = (w2, GetRaises) ->
    do_login_flow p py_str steps w
    = ([ Log INFO "Launching browser for login..." []; UcStart; DriverGet login_url;
         Log ERROR "Error navigating to login page: {nav_e}" []; BrowserClose ],
       browser_close p w2, Ret None).
Proof.
  intros W p py_str steps w w1 w2 Hs Hg.
  unfold do_login_flow, with_browser, login_session, finally, close_browser.
  unfold try_except, bind, call_uc_start, call_driver_get, log, emit, ret.
  rewrite Hs. cbv beta iota zeta. rewrite Hg. reflexivity.
Qed.

(** A browser whose [driver.get] raises. *)
Lemma login_page_failure_closes_browser_witness :
  do_login_flow
    {| uc_start := fun w => (w, true);
       driver_get := fun _ w => (w, GetRaises);
       tab_get := fun _ w => (w, true);
       tab_evaluate := fun _ w => (w, None);
       tab_sleep := fun _ w => (w, true);
       tab_url := fun _ => UrlNone;
       browser_close := fun w => S w |} Scripted.str_of 5 0
  = ([ Log INFO "Launching browser for login..." []; UcStart; DriverGet login_url;
       Log ERROR "Error navigating to login page: {nav_e}" []; BrowserClose ],
     1, Ret None).
Proof.
  apply (login_page_failure_closes_browser nat
           {| uc_start := fun w => (w, true);
              driver_get := fun _ w => (w, GetRaises);
              tab_get := fun _ w => (w, true);
              tab_evaluate := fun _ w => (w, None);
              tab_sleep := fun _ w => (w, true);
              tab_url := fun _ => UrlNone;
              browser_close := fun w => S w |} Scripted.str_of 5 0 0 0);
    reflexivity.
Defined.

(** X16. When every fakeid script raises or gives a falsy result, all of
    them are evaluated, in order, the fakeid stays [None], the warning
    "Could not automatically determine fakeid from JS." is logged, and no
    exception leaves [extract_fakeid]. *)
Theorem no_probe_answers_no_fakeid :
  forall (W : Type) (p : provider W) (py_str : pyval -> string) (w w1 : W),
    probes_fail p js_scripts_for_fakeid w = Some w1 ->
    outcome_of (extract_fakeid p py_str true w) = Ret None
    /\ world_of (extract_fakeid p py_str true w) = w1
    /\ calls (trace_of (extract_fakeid p py_str true w))
       = map TabEvaluate js_scripts_for_fakeid
    /\ In (Log WARNING "Could not automatically determine fakeid from JS." [])
         (trace_of (extract_fakeid p py_str true w)).
Proof.
  intros W p py_str w w1 H.
  destruct (try_fakeid_scripts_none p py_str js_scripts_for_fakeid 0 w w1 H)
    as (t & Et & Ct).
  unfold extract_fakeid. unfold bind at 1 3 5 7. rewrite Et.
  unfold bind, log, emit, ret, outcome_of, world_of, trace_of. cbn [str_truthy negb fst snd].
  split; [reflexivity|]. split; [reflexivity|]. split.
  - rewrite calls_app, Ct. cbn [calls filter is_call app]. now rewrite app_nil_r.
  - apply in_or_app. right. now left.
Qed.

(** The session in which the address carries a token and no script
    answers. *)
Lemma no_probe_answers_no_fakeid_witness :
  outcome_of (extract_fakeid Scripted.token_only_browser Scripted.str_of true 0) = Ret None.
Proof.
  apply (no_probe_answers_no_fakeid nat Scripted.token_only_browser Scripted.str_of 0 0).
  reflexivity.
Defined.
